(** * net-snmp-inventory: the per-host SNMP audit, [snmpAudit]

    A shallow embedding of [snmpAudit] from [net-snmp-inventory.py] and the
    properties of its host record, interface dictionary, sanitisation,
    vendor extension, MAC rendering and bounded table walks. *)

From Stdlib Require Import ZArith List String Ascii Bool Lia DecimalString.
Import ListNotations.

Local Open Scope string_scope.
Local Open Scope Z_scope.

(** ** Python runtime: exceptions, strings, sequences *)

Module Py.

(** The exception classes the function can let escape. *)
Inductive exn : Type :=
| TypeError | IndexError | KeyError | UnboundLocalError
| ValueError | AttributeError | StopIteration.

Inductive result (A : Type) : Type :=
| Ok (a : A)
| Raise (e : exn).
Arguments Ok {A} a.
Arguments Raise {A} e.

Definition rbind {A B : Type} (m : result A) (f : A -> result B) : result B :=
  match m with
  | Ok a => f a
  | Raise e => Raise e
  end.

(** [s.startswith(p)] *)
Fixpoint startswith (p s : string) : bool :=
  match p, s with
  | EmptyString, _ => true
  | String _ _, EmptyString => false
  | String a p', String b s' => Ascii.eqb a b && startswith p' s'
  end.

(** [needle in hay] on two strings. *)
Fixpoint contains (needle hay : string) : bool :=
  startswith needle hay ||
  match hay with
  | EmptyString => false
  | String _ rest => contains needle rest
  end.

(** The scan of [str.replace] for a non-empty pattern: [skip] counts the
    characters of the occurrence just replaced that are still to be passed. *)
Fixpoint replace_from (old new : string) (skip : nat) (s : string) : string :=
  match s with
  | EmptyString => EmptyString
  | String c rest =>
      match skip with
      | S k => replace_from old new k rest
      | O =>
          if startswith old s
          then new ++ replace_from old new (Nat.pred (String.length old)) rest
          else String c (replace_from old new O rest)
      end
  end.

(** With the empty pattern [str.replace] puts [new] before every character
    and at the end. *)
Fixpoint interleave (new s : string) : string :=
  match s with
  | EmptyString => new
  | String c rest => new ++ String c (interleave new rest)
  end.

(** [s.replace(old, new)] *)
Definition replace (s old new : string) : string :=
  match old with
  | EmptyString => interleave new s
  | String _ _ => replace_from old new O s
  end.

(** [c.lower()] on the code points a one-byte character can have. *)
Definition lower_char (c : ascii) : ascii :=
  let n := nat_of_ascii c in
  if ((65 <=? n) && (n <=? 90))%nat then ascii_of_nat (n + 32)
  else if ((192 <=? n) && (n <=? 222) && negb (n =? 215))%nat then ascii_of_nat (n + 32)
  else c.

Fixpoint map_chars (f : ascii -> ascii) (s : string) : string :=
  match s with
  | EmptyString => EmptyString
  | String c rest => String (f c) (map_chars f rest)
  end.

(** [s.lower()] *)
Definition lower (s : string) : string := map_chars lower_char s.

(** [str(n)] for an integer. *)
Definition str_int (n : Z) : string := NilZero.string_of_int (Z.to_int n).

(** [l[i]] with Python's negative indices. *)
Definition index {A : Type} (l : list A) (i : Z) : result A :=
  let n := Z.of_nat (List.length l) in
  let j := if i <? 0 then i + n else i in
  if (j <? 0) || (n <=? j) then Raise IndexError
  else match nth_error l (Z.to_nat j) with
       | Some a => Ok a
       | None => Raise IndexError
       end.

(** The values the host dictionary holds. *)
Inductive value : Type :=
| PNone
| PBool (b : bool)
| PInt (n : Z)
| PStr (s : string)
| PList (l : list string).

(** [isinstance(v, int)]: [bool] is a subclass of [int]. *)
Definition as_int (v : value) : option Z :=
  match v with
  | PInt n => Some n
  | PBool b => Some (if b then 1 else 0)
  | _ => None
  end.

(** [v == s] for a string literal [s]. *)
Definition eq_str (v : value) (s : string) : bool :=
  match v with
  | PStr t => String.eqb t s
  | _ => false
  end.

(** [s in v] for a string literal [s]. *)
Definition str_in (s : string) (v : value) : result bool :=
  match v with
  | PStr t => Ok (contains s t)
  | PList l => Ok (existsb (String.eqb s) l)
  | _ => Raise TypeError
  end.

(** [len(v)] *)
Definition len (v : value) : result Z :=
  match v with
  | PStr t => Ok (Z.of_nat (String.length t))
  | PList l => Ok (Z.of_nat (List.length l))
  | _ => Raise TypeError
  end.

(** [v.append]: only lists have the method; it is looked up before its
    argument is evaluated. *)
Definition append (v : value) : result (string -> value) :=
  match v with
  | PList l => Ok (fun s => PList (l ++ [s])%list)
  | _ => Raise AttributeError
  end.

(** A dictionary with string keys, in insertion order. *)
Definition dict : Type := list (string * value).

Fixpoint get (d : dict) (k : string) : result value :=
  match d with
  | [] => Raise KeyError
  | (k', v) :: rest => if String.eqb k' k then Ok v else get rest k
  end.

(** [d[k] = v]: an existing key keeps its place, a new one goes last. *)
Fixpoint set (d : dict) (k : string) (v : value) : dict :=
  match d with
  | [] => [(k, v)]
  | (k', v') :: rest =>
      if String.eqb k' k then (k', v) :: rest else (k', v') :: set rest k v
  end.

Definition keys (d : dict) : list string := map fst d.

End Py.

Import Py.

Notation "x <- m ;; k" := (rbind m (fun x => k))
  (at level 61, m at next level, right associativity).
Notation "' pat <- m ;; k" := (rbind m (fun x => match x with pat => k end))
  (at level 61, pat pattern, m at next level, right associativity).


(** The control characters the sanitisation names. *)
Definition LF : string := String (ascii_of_nat 10) "".
Definition CR : string := String (ascii_of_nat 13) "".

(** ** Requests issued to the agent

    Every request the function sends is recorded, so that what it asks of the
    device can be counted: a computation yields its result (or the exception
    that escapes) together with the requests issued so far. *)

Inductive Request : Type :=
| GetGeneral      (* getCmd: the ten general-information objects *)
| GetVendor       (* getCmd: the two FortiGate objects *)
| NextMac         (* next() on the ifPhysAddress walk *)
| NextPhysical    (* next() on the ifIndex/ifDescr/ifType walk *)
| NextLogical.    (* next() on the ipAdEntIfIndex/Addr/NetMask walk *)

Definition Request_eqb (a b : Request) : bool :=
  match a, b with
  | GetGeneral, GetGeneral | GetVendor, GetVendor | NextMac, NextMac
  | NextPhysical, NextPhysical | NextLogical, NextLogical => true
  | _, _ => false
  end.

Definition issued (q : Request) (log : list Request) : nat :=
  List.length (filter (Request_eqb q) log).

Definition M (A : Type) : Type := result A * list Request.

Definition ret {A : Type} (a : A) : M A := (Ok a, []).
Definition throw {A : Type} (e : exn) : M A := (Raise e, []).
Definition send (q : Request) : M unit := (Ok tt, [q]).
Definition lift {A : Type} (r : result A) : M A := (r, []).

Definition bind {A B : Type} (m : M A) (f : A -> M B) : M B :=
  match m with
  | (Ok a, log) => let '(r, log') := f a in (r, (log ++ log')%list)
  | (Raise e, log) => (Raise e, log)
  end.

Notation "x <~ m ;; k" := (bind m (fun x => k))
  (at level 61, m at next level, right associativity).
Notation "' pat <~ m ;; k" := (bind m (fun x => match x with pat => k end))
  (at level 61, pat pattern, m at next level, right associativity).

(** ** SNMP values and replies (pysnmp) *)

(** The value classes the function tells apart. An octet string is kept as
    the string of its octets, which is also what [str] gives for it. *)
Inductive SnmpValue : Type :=
| Integer32 (n : Z)
| OctetString (octets : string)
| IpAddress (o1 o2 o3 o4 : ascii)
| OtherValue (text : string).   (* counters, object identifiers, endOfMibView, ... *)

(** [str(value)] *)
Definition str_value (v : SnmpValue) : string :=
  match v with
  | Integer32 n => str_int n
  | OctetString s => s
  | IpAddress a b c d => String a (String b (String c (String d "")))
  | OtherValue t => t
  end.

(** [isinstance(value, OctetString)]: [IpAddress] derives from it. *)
Definition is_OctetString (v : SnmpValue) : bool :=
  match v with
  | OctetString _ | IpAddress _ _ _ _ => true
  | _ => false
  end.

(** [len(value)] where the function takes it (octet strings). *)
Definition octet_length (v : SnmpValue) : Z :=
  match v with
  | OctetString s => Z.of_nat (String.length s)
  | IpAddress _ _ _ _ => 4
  | _ => 0
  end.

(** The tuple [(errorIndication, errorStatus, errorIndex, varBinds)] a request
    yields; a variable binding is the pretty-printed name and the value. *)
Record Reply (V : Type) : Type := mkReply {
  errorIndication : option string;
  errorStatus : Z;
  errorIndex : Z;
  varBinds : list (string * V)
}.
Arguments mkReply {V}.
Arguments errorIndication {V}.
Arguments errorStatus {V}.
Arguments errorIndex {V}.
Arguments varBinds {V}.

(** A [nextCmd] generator as the function sees it: what the k-th call of
    [next] returns, [None] when it raises [StopIteration]. *)
Definition Generator (V : Type) : Type := nat -> option (Reply V).

Definition gen_of_list {V : Type} (l : list (Reply V)) : Generator V :=
  fun k => nth_error l k.

(** The device, as the five exchanges of one scan see it. The rows of the
    ifPhysAddress walk carry octet strings (the column's syntax). *)
Record Agent : Type := mkAgent {
  general : Reply SnmpValue;
  vendor : Reply SnmpValue;
  macWalk : Generator string;
  physicalWalk : Generator SnmpValue;
  logicalWalk : Generator SnmpValue
}.

(** The [elif errorStatus:] branch prints
    [errorIndex and varBinds[int(errorIndex)-1][0] or "?"]; the output is not
    modelled, the indexing is. *)
Definition report_errorStatus {V : Type} (r : Reply V) : result unit :=
  if errorIndex r =? 0 then Ok tt
  else _ <- index (varBinds r) (errorIndex r - 1) ;; Ok tt.

(** ** Addresses: ipaddress, netaddr and macaddress *)

(** [IPv4Address(value.asOctets())] as its 32-bit integer. *)
Definition IPv4Address (o1 o2 o3 o4 : ascii) : Z :=
  let b (c : ascii) := Z.of_nat (nat_of_ascii c) in
  Z.lor (Z.shiftl (b o1) 24)
        (Z.lor (Z.shiftl (b o2) 16) (Z.lor (Z.shiftl (b o3) 8) (b o4))).

(** [str(IPv4Address)]: the dotted quad. *)
Definition str_ip (a : Z) : string :=
  let o (k : Z) := str_int (Z.land (Z.shiftr a k) 255) in
  o 24 ++ "." ++ o 16 ++ "." ++ o 8 ++ "." ++ o 0.

Definition ALL_ONES : Z := 4294967295.

(** netaddr's [IPAddress.is_netmask]:
    [int_val = (value ^ max_int) + 1; int_val & (int_val - 1) == 0]. *)
Definition is_netmask (a : Z) : bool :=
  let int_val := Z.lxor a ALL_ONES + 1 in
  Z.land int_val (int_val - 1) =? 0.

Definition bit_length (n : Z) : Z := if n =? 0 then 0 else Z.log2 n + 1.

(** ipaddress: [_count_righthand_zero_bits(number, bits)]. *)
Definition count_righthand_zero_bits (number bits : Z) : Z :=
  if number =? 0 then bits
  else Z.min bits (bit_length (Z.land (Z.lnot number) (number - 1))).

(** ipaddress: [_prefix_from_ip_int], which raises [ValueError] when the
    pattern mixes zeroes and ones. *)
Definition prefix_from_ip_int (ip_int : Z) : result Z :=
  let trailing_zeroes := count_righthand_zero_bits ip_int 32 in
  let prefixlen := 32 - trailing_zeroes in
  let leading_ones := Z.shiftr ip_int trailing_zeroes in
  let all_ones := Z.shiftl 1 prefixlen - 1 in
  if leading_ones =? all_ones then Ok prefixlen else Raise ValueError.

(** [IPv4Network((0, str(m))).prefixlen] for [m] the stored netmask: [None]
    prints as a text that is neither a prefix length nor a dotted quad
    ([NetmaskValueError], a [ValueError]); a dotted quad is tried as a
    netmask, then as a host mask. *)
Definition network_prefixlen (m : option Z) : result Z :=
  match m with
  | None => Raise ValueError
  | Some ip_int =>
      match prefix_from_ip_int ip_int with
      | Ok p => Ok p
      | Raise _ => prefix_from_ip_int (Z.lxor ip_int ALL_ONES)
      end
  end.

Definition HEX_DIGITS : string := "0123456789ABCDEF".

Definition hex_digit (n : nat) : ascii :=
  match String.get n HEX_DIGITS with
  | Some c => c
  | None => "?"%char
  end.

(** The two upper-case digits macaddress prints for one octet. *)
Definition hex_octet (c : ascii) : string :=
  let n := nat_of_ascii c in
  String (hex_digit (n / 16)) (String (hex_digit (n mod 16)) "").

(** [str(macaddress.MAC(bytes(value)))]: six octets print in the first
    format of the class, [xx-xx-xx-xx-xx-xx]; any other length is refused. *)
Definition str_MAC (octets : string) : result string :=
  if (String.length octets =? 6)%nat
  then Ok (String.concat "-" (map hex_octet (list_ascii_of_string octets)))
  else Raise ValueError.


(** ** The data model *)

(** [dataDictTemplate] *)
Definition dataDictTemplate : dict :=
  [ ("Sysname", PNone); ("Manufacturer", PNone); ("Model", PNone); ("FW", PNone);
    ("S/N", PNone); ("Location", PNone); ("Description", PNone); ("Contact", PNone);
    ("Comment", PNone); ("Interfaces Count", PNone); ("MAC Address", PNone);
    ("IP Addresses", PNone); ("PING", PBool false); ("SNMP", PBool false) ]%list.

(** An interface dictionary entry: the keys of [interfaceDictTemplate], which
    the function only reads and writes by name. *)
Record InterfaceRecord : Type := mkInterface {
  Index : option Z;
  Name : option string;
  Alias : option string;
  Type_ : option string;
  MTU : option Z;
  MAC_Address : option string;
  IP_Address : option Z;
  Netmask : option Z;
  Description : option string;
  Admin_Status : bool;
  Operation_Status : bool
}.

(** [interfaceDictTemplate] *)
Definition interfaceDictTemplate : InterfaceRecord :=
  mkInterface None None None None None None None None None false false.

Definition set_Index (v : option Z) (r : InterfaceRecord) : InterfaceRecord :=
  mkInterface v (Name r) (Alias r) (Type_ r) (MTU r) (MAC_Address r)
    (IP_Address r) (Netmask r) (Description r) (Admin_Status r) (Operation_Status r).
Definition set_Type (v : option string) (r : InterfaceRecord) : InterfaceRecord :=
  mkInterface (Index r) (Name r) (Alias r) v (MTU r) (MAC_Address r)
    (IP_Address r) (Netmask r) (Description r) (Admin_Status r) (Operation_Status r).
Definition set_IP_Address (v : option Z) (r : InterfaceRecord) : InterfaceRecord :=
  mkInterface (Index r) (Name r) (Alias r) (Type_ r) (MTU r) (MAC_Address r)
    v (Netmask r) (Description r) (Admin_Status r) (Operation_Status r).
Definition set_Netmask (v : option Z) (r : InterfaceRecord) : InterfaceRecord :=
  mkInterface (Index r) (Name r) (Alias r) (Type_ r) (MTU r) (MAC_Address r)
    (IP_Address r) v (Description r) (Admin_Status r) (Operation_Status r).
Definition set_Description (v : option string) (r : InterfaceRecord) : InterfaceRecord :=
  mkInterface (Index r) (Name r) (Alias r) (Type_ r) (MTU r) (MAC_Address r)
    (IP_Address r) (Netmask r) v (Admin_Status r) (Operation_Status r).

(** [interfaceDict]: interface records keyed by index, in insertion order. *)
Definition IfDict : Type := list (Z * InterfaceRecord).

Fixpoint if_get (ifs : IfDict) (k : Z) : option InterfaceRecord :=
  match ifs with
  | [] => None
  | (k', r) :: rest => if k' =? k then Some r else if_get rest k
  end%list.

Fixpoint if_modify (ifs : IfDict) (k : Z) (f : InterfaceRecord -> InterfaceRecord) : IfDict :=
  match ifs with
  | [] => []
  | (k', r) :: rest =>
      if k' =? k then (k', f r) :: rest else (k', r) :: if_modify rest k f
  end%list.

(** The function's local variable [intNumber]: not yet assigned, or holding
    [None] or an integer. *)
Inductive local : Type :=
| Unbound
| Bound (v : option Z).

(** [interfaceDict[intNumber]]: [None] is never a key. *)
Definition item (ifs : IfDict) (intNumber : option Z) : result InterfaceRecord :=
  match intNumber with
  | None => Raise KeyError
  | Some n =>
      match if_get ifs n with
      | Some r => Ok r
      | None => Raise KeyError
      end
  end.

(** [interfaceDict[intNumber][field] = v] *)
Definition item_update (ifs : IfDict) (intNumber : option Z)
    (f : InterfaceRecord -> InterfaceRecord) : result IfDict :=
  _ <- item ifs intNumber ;;
  match intNumber with
  | Some n => Ok (if_modify ifs n f)
  | None => Ok ifs
  end.

(** [if intNumber not in interfaceDict.keys(): interfaceDict.update(...);
    interfaceDict[intNumber]["Index"] = intNumber] *)
Definition open_interface (ifs : IfDict) (intNumber : Z) : IfDict :=
  match if_get ifs intNumber with
  | Some _ => ifs
  | None => (ifs ++ [(intNumber, set_Index (Some intNumber) interfaceDictTemplate)])%list
  end.

Fixpoint foldM {A St : Type} (f : St -> A -> result St) (l : list A) (s : St) : result St :=
  match l with
  | [] => Ok s
  | a :: rest => s' <- f s a ;; foldM f rest s'
  end%list.

(** ** snmpAudit, step by step *)

Section Audit.

(** [Integer32.prettyPrint()] for a table value: the label the MIB gives the
    number where it has one, the numeral otherwise. *)
Variable prettyPrint : Z -> string.

(** The global [scriptArgs.snmpIterMaxCount]. *)
Variable scriptArgs_snmpIterMaxCount : Z.

(** The four [replace] calls on a general-information value. *)
Definition sanitize (valuesDelimeter : string) (value : SnmpValue) : string :=
  let value := replace (str_value value) (LF ++ CR) " " in
  let value := replace value LF " " in
  let value := replace value CR " " in
  replace value valuesDelimeter " ".

(** [for key in snmpDataDict[snmpHost]: ...] with the running position [i]. *)
Fixpoint fill (keys : list string) (varBindValues : list string) (i : Z) (d : dict)
    : result dict :=
  match keys with
  | [] => Ok d
  | key :: rest =>
      value <- index varBindValues i ;;
      let d := if 0 <? Z.of_nat (String.length value) then set d key (PStr value) else d in
      if i <? Z.of_nat (List.length varBindValues) - 1
      then fill rest varBindValues (i + 1) d
      else Ok d
  end%list.

(** General information: the first [getCmd]. Returns the dictionary and the
    value of [snmpIterMaxCount] afterwards. *)
Definition general_info (agent : Agent) (valuesDelimeter : string)
    (snmpIterMaxCount : Z) (d : dict) : M (dict * Z) :=
  _ <~ send GetGeneral ;;
  let r := general agent in
  match errorIndication r with
  | Some _ => ret (d, snmpIterMaxCount)
  | None =>
      if negb (errorStatus r =? 0)
      then _ <~ lift (report_errorStatus r) ;; ret (d, snmpIterMaxCount)
      else
        let varBindValues :=
          map (fun varBind => sanitize valuesDelimeter (snd varBind)) (varBinds r) in
        d <~ lift (fill (keys d) varBindValues 0 d) ;;
        count <~ lift (get d "Interfaces Count") ;;
        let snmpIterMaxCount :=
          match as_int count with
          | Some n => n
          | None => scriptArgs_snmpIterMaxCount
          end in
        ret (set d "SNMP" (PBool true), snmpIterMaxCount)
  end.

(** [keysDictionary = {0 : "FW", 1 : "S/N"}] and the loop over its items. *)
Definition keysDictionary : list (Z * string) := [(0, "FW"); (1, "S/N")]%list.

Definition refill (varBindValues : list string) (d : dict) : result dict :=
  foldM (fun d (entry : Z * string) =>
           let '(arrayKey, dictKey) := entry in
           value <- index varBindValues arrayKey ;;
           Ok (if 0 <? Z.of_nat (String.length value)
               then set d dictKey (PStr value) else d))
        keysDictionary d.

(** The two nested conditions in front of the vendor request:
    [dict["Manufacturer"] == "Fortinet"], then
    ["FortiGate" in dict["Comment"] or "FortiGate" in dict["FW"]]. *)
Definition is_FortiGate (d : dict) : result bool :=
  manufacturer <- get d "Manufacturer" ;;
  if eq_str manufacturer "Fortinet" then
    comment <- get d "Comment" ;;
    inComment <- str_in "FortiGate" comment ;;
    if (inComment : bool) then Ok true
    else fw <- get d "FW" ;; str_in "FortiGate" fw
  else Ok false.

(** The vendor request and the re-filling of the two fields. *)
Definition vendor_fetch (agent : Agent) (d : dict) : M dict :=
  _ <~ send GetVendor ;;
  let r := vendor agent in
  match errorIndication r with
  | Some _ => ret d
  | None =>
      if negb (errorStatus r =? 0)
      then _ <~ lift (report_errorStatus r) ;; ret d
      else
        let varBindValues :=
          map (fun varBind => replace (str_value (snd varBind)) LF " ") (varBinds r) in
        lift (refill varBindValues d)
  end.

(** Vendor-specific information: FortiGate. *)
Definition vendor_info (agent : Agent) (d : dict) : M dict :=
  isFortiGate <~ lift (is_FortiGate d) ;;
  if (isFortiGate : bool) then vendor_fetch agent d else ret d.

(** [str(macaddress.MAC(bytes(value))).replace("-", ":").lower()] *)
Definition render_mac (octets : string) : result string :=
  mac <- str_MAC octets ;; Ok (lower (replace mac "-" ":")).

(** MAC address: one [next] on the ifPhysAddress walk, outside any [try]. *)
Definition mac_address (agent : Agent) (d : dict) : M dict :=
  _ <~ send NextMac ;;
  match macWalk agent 0%nat with
  | None => throw StopIteration
  | Some r =>
      match errorIndication r with
      | Some _ => ret d
      | None =>
          if negb (errorStatus r =? 0)
          then _ <~ lift (report_errorStatus r) ;; ret d
          else
            d <~ lift (foldM (fun d (varBind : string * string) =>
                                mac <- render_mac (snd varBind) ;;
                                Ok (set d "MAC Address" (PStr mac)))
                             (varBinds r) d) ;;
            ret (set d "SNMP" (PBool true))
      end
  end.

(** A [while snmpIterCount < snmpIterMaxCount] loop around [next]: the counter
    starts at zero and grows by one per reply, so [remaining] replies may
    still be asked for; [StopIteration] breaks the loop. [pos] is the number
    of replies the generator has given. *)
Fixpoint walk {V St : Type} (q : Request) (row : St -> Reply V -> result St)
    (g : Generator V) (remaining : nat) (pos : nat) (st : St) : M St :=
  match remaining with
  | O => ret st
  | S n =>
      _ <~ send q ;;
      match g pos with
      | None => ret st
      | Some r => st <~ lift (row st r) ;; walk q row g n (S pos) st
      end
  end.

(** One variable binding of the physical walk: three independent [if]s. *)
Definition physical_varBind (st : IfDict * option Z) (varBind : string * SnmpValue)
    : result (IfDict * option Z) :=
  let '(interfaceDict, intNumber) := st in
  let '(name, value) := varBind in
  let '(interfaceDict, intNumber) :=
    match value with
    | Integer32 n =>
        if contains "ifIndex" name
        then (open_interface interfaceDict n, Some n)
        else (interfaceDict, intNumber)
    | _ => (interfaceDict, intNumber)
    end in
  interfaceDict <-
    (if is_OctetString value && contains "ifDescr" name && (0 <? octet_length value)
     then item_update interfaceDict intNumber (set_Description (Some (str_value value)))
     else Ok interfaceDict) ;;
  interfaceDict <-
    (match value with
     | Integer32 n =>
         if contains "ifType" name
         then item_update interfaceDict intNumber (set_Type (Some (prettyPrint n)))
         else Ok interfaceDict
     | _ => Ok interfaceDict
     end) ;;
  Ok (interfaceDict, intNumber).

(** One reply of the physical walk; a good reply resets [intNumber]. *)
Definition physical_row (st : IfDict * local) (r : Reply SnmpValue)
    : result (IfDict * local) :=
  match errorIndication r with
  | Some _ => Ok st
  | None =>
      if negb (errorStatus r =? 0)
      then _ <- report_errorStatus r ;; Ok st
      else
        '(interfaceDict, intNumber) <- foldM physical_varBind (varBinds r) (fst st, None) ;;
        Ok (interfaceDict, Bound intNumber)
  end.

Definition physical_walk (agent : Agent) (snmpIterMaxCount : Z) (st : IfDict * local)
    : M (IfDict * local) :=
  walk NextPhysical physical_row (physicalWalk agent) (Z.to_nat snmpIterMaxCount) 0%nat st.

(** Reading [intNumber]. *)
Definition read (intNumber : local) : result (option Z) :=
  match intNumber with
  | Unbound => Raise UnboundLocalError
  | Bound v => Ok v
  end.

(** One variable binding of the logical walk: [if ... elif ...]. *)
Definition logical_varBind (st : IfDict * local) (varBind : string * SnmpValue)
    : result (IfDict * local) :=
  let '(interfaceDict, intNumber) := st in
  match snd varBind with
  | Integer32 n => Ok (open_interface interfaceDict n, Bound (Some n))
  | IpAddress o1 o2 o3 o4 =>
      let ipAddressObject := IPv4Address o1 o2 o3 o4 in
      let isMask := is_netmask ipAddressObject in
      key <- read intNumber ;;
      let v := match key with Some _ => Some ipAddressObject | None => None end in
      interfaceDict <-
        item_update interfaceDict key (if isMask then set_Netmask v else set_IP_Address v) ;;
      Ok (interfaceDict, intNumber)
  | _ => Ok st
  end.

(** [str(x)] for a stored address or [None]. *)
Definition str_address (a : option Z) : string :=
  match a with
  | Some ip => str_ip ip
  | None => "None"
  end.

(** The CIDR text appended after the bindings of a good reply. *)
Definition cidr (interfaceDict : IfDict) (intNumber : local) : result string :=
  key <- read intNumber ;;
  r <- item interfaceDict key ;;
  prefixlen <- network_prefixlen (Netmask r) ;;
  Ok (str_address (IP_Address r) ++ "/" ++ str_int prefixlen).

(** One reply of the logical walk. *)
Definition logical_row (st : dict * IfDict * local) (r : Reply SnmpValue)
    : result (dict * IfDict * local) :=
  match errorIndication r with
  | Some _ => Ok st
  | None =>
      if negb (errorStatus r =? 0)
      then _ <- report_errorStatus r ;; Ok st
      else
        let '(d, interfaceDict, intNumber) := st in
        '(interfaceDict, intNumber) <-
          foldM logical_varBind (varBinds r) (interfaceDict, intNumber) ;;
        addresses <- get d "IP Addresses" ;;
        push <- append addresses ;;
        text <- cidr interfaceDict intNumber ;;
        Ok (set d "IP Addresses" (push text), interfaceDict, intNumber)
  end.

Definition logical_walk (agent : Agent) (snmpIterMaxCount : Z)
    (st : dict * IfDict * local) : M (dict * IfDict * local) :=
  walk NextLogical logical_row (logicalWalk agent) (Z.to_nat snmpIterMaxCount) 0%nat st.

(** The last lines: an empty address list becomes [None], a non-empty one
    flips the SNMP flag. *)
Definition finalize (d : dict) : result dict :=
  addresses <- get d "IP Addresses" ;;
  n <- len addresses ;;
  if n =? 0 then Ok (set d "IP Addresses" PNone) else Ok (set d "SNMP" (PBool true)).

(** [snmpAudit]: the host dictionary it returns (under the key [snmpHost])
    and the interface dictionary it prints. *)
Definition snmpAudit (agent : Agent) (pingStatus : bool) (dataDict : dict)
    (valuesDelimeter : string) (snmpIterMaxCount : Z) : M (dict * IfDict) :=
  let d := set (set dataDict "IP Addresses" (PList [])) "PING" (PBool pingStatus) in
  '(d, snmpIterMaxCount) <~ general_info agent valuesDelimeter snmpIterMaxCount d ;;
  d <~ vendor_info agent d ;;
  d <~ mac_address agent d ;;
  '(interfaceDict, intNumber) <~ physical_walk agent snmpIterMaxCount ([], Unbound) ;;
  '(d, interfaceDict, _) <~ logical_walk agent snmpIterMaxCount (d, interfaceDict, intNumber) ;;
  d <~ lift (finalize d) ;;
  ret (d, interfaceDict).

End Audit.

(** ** Sample replies and devices *)

(** A reply without error indication or error status. *)
Definition good {V : Type} (bindings : list (string * V)) : Reply V :=
  mkReply None 0 0 bindings.

(** A request that got no answer in time. *)
Definition timed_out {V : Type} : Reply V :=
  mkReply (Some "No SNMP response received before timeout") 0 0 []%list.

Definition oct (n : nat) : ascii := ascii_of_nat n.

Definition is_good {V : Type} (r : Reply V) : bool :=
  match errorIndication r with
  | Some _ => false
  | None => errorStatus r =? 0
  end.

(** The replies a walk of budget [remaining] reads from position [pos]. *)
Fixpoint replies {V : Type} (g : Generator V) (remaining pos : nat) : list (Reply V) :=
  match remaining with
  | O => []
  | S n =>
      match g pos with
      | None => []
      | Some r => r :: replies g n (S pos)
      end
  end%list.

(** pysnmp ends a [nextCmd] generator after it has yielded an error. *)
Definition ends_after_error {V : Type} (g : Generator V) : Prop :=
  forall k r, g k = Some r -> is_good r = false -> g (S k) = None.

(** A device whose interface table never ends, and whose address table
    does not answer. *)
Definition eth_row : Reply SnmpValue :=
  good [ ("IF-MIB::ifIndex.1", Integer32 1);
         ("IF-MIB::ifDescr.1", OctetString "eth0");
         ("IF-MIB::ifType.1", Integer32 6) ]%list.

Definition looping : Agent :=
  mkAgent timed_out timed_out (gen_of_list [timed_out]%list)
          (fun _ => Some eth_row) (gen_of_list [timed_out]%list).

(** What the positional loop of the general step amounts to: the values are
    paired with the keys in order, and a non-empty value is stored. *)
Fixpoint fill_spec (keys : list string) (values : list string) (d : dict) : dict :=
  match keys, values with
  | key :: keys', v :: values' =>
      fill_spec keys' values'
        (if 0 <? Z.of_nat (String.length v) then set d key (PStr v) else d)
  | _, _ => d
  end%list.

(** The dictionary [snmpAudit] starts from. *)
Definition seed (pingStatus : bool) : dict :=
  set (set dataDictTemplate "IP Addresses" (PList [])) "PING" (PBool pingStatus).

(** The claim of positional filling, read literally: every returned value
    is stored under the key of its position. *)
Definition fills_positionally (values : list string) (d : dict) : Prop :=
  forall k key v,
    nth_error (keys dataDictTemplate) k = Some key ->
    nth_error values k = Some v ->
    get d key = Ok (PStr v).

(** What the general step stores for a returned text. *)
Definition stored (v : string) : value :=
  if 0 <? Z.of_nat (String.length v) then PStr v else PNone.

(** A device that answers the general request with six values only. *)
Definition six_values : Agent :=
  mkAgent
    (good [ ("SNMPv2-MIB::sysName.0", OctetString "sw1");
            ("ENTITY-MIB::entPhysicalMfgName.1", OctetString "Acme");
            ("ENTITY-MIB::entPhysicalModelName.1", OctetString "X-24");
            ("ENTITY-MIB::entPhysicalSoftwareRev.1", OctetString "1.0");
            ("ENTITY-MIB::entPhysicalSerialNum.1", OctetString "SN001");
            ("SNMPv2-MIB::sysLocation.0", OctetString "Lab") ]%list)
    timed_out (gen_of_list [timed_out]%list)
    (gen_of_list [timed_out]%list) (gen_of_list [timed_out]%list).

(** The same, with an empty manufacturer name. *)
Definition six_values_one_empty : Agent :=
  mkAgent
    (good [ ("SNMPv2-MIB::sysName.0", OctetString "sw1");
            ("ENTITY-MIB::entPhysicalMfgName.1", OctetString "");
            ("ENTITY-MIB::entPhysicalModelName.1", OctetString "X-24");
            ("ENTITY-MIB::entPhysicalSoftwareRev.1", OctetString "1.0");
            ("ENTITY-MIB::entPhysicalSerialNum.1", OctetString "SN001");
            ("SNMPv2-MIB::sysLocation.0", OctetString "Lab") ]%list)
    timed_out (gen_of_list [timed_out]%list)
    (gen_of_list [timed_out]%list) (gen_of_list [timed_out]%list).

Definition if_row (n : Z) (descr : string) : Reply SnmpValue :=
  good [ (("IF-MIB::ifIndex." ++ str_int n)%string, Integer32 n);
         (("IF-MIB::ifDescr." ++ str_int n)%string, OctetString descr);
         (("IF-MIB::ifType." ++ str_int n)%string, Integer32 6) ]%list.

(** A switch that declares four interfaces and has four rows in its
    interface table. *)
Definition four_ports : Agent :=
  mkAgent
    (good [ ("SNMPv2-MIB::sysName.0", OctetString "sw1");
            ("ENTITY-MIB::entPhysicalMfgName.1", OctetString "Acme");
            ("ENTITY-MIB::entPhysicalModelName.1", OctetString "X-24");
            ("ENTITY-MIB::entPhysicalSoftwareRev.1", OctetString "1.0");
            ("ENTITY-MIB::entPhysicalSerialNum.1", OctetString "SN001");
            ("SNMPv2-MIB::sysLocation.0", OctetString "Lab");
            ("SNMPv2-MIB::sysDescr.0", OctetString "Acme switch");
            ("SNMPv2-MIB::sysContact.0", OctetString "noc");
            ("ENTITY-MIB::entLogicalDescr.1", OctetString "core");
            ("IF-MIB::ifNumber.0", Integer32 4) ]%list)
    timed_out (gen_of_list [timed_out]%list)
    (gen_of_list [if_row 1 "p1"; if_row 2 "p2"; if_row 3 "p3"; if_row 4 "p4"]%list)
    (gen_of_list []%list).

(** The rendering the MAC contract names: each octet as two lower-case
    hexadecimal digits, the pairs separated by colons. *)
Definition lower_hex_digit (n : nat) : ascii :=
  match String.get n "0123456789abcdef" with
  | Some c => c
  | None => "?"%char
  end.

Definition lower_hex_octet (c : ascii) : string :=
  let n := nat_of_ascii c in
  String (lower_hex_digit (n / 16)) (String (lower_hex_digit (n mod 16)) "").

Definition colon_hex (octets : string) : string :=
  String.concat ":" (map lower_hex_octet (list_ascii_of_string octets)).

(** Reading such a rendering back. *)
Definition hex_value (c : ascii) : nat :=
  let n := nat_of_ascii c in
  if (n <? 58)%nat then (n - 48)%nat else (n - 87)%nat.

Fixpoint octets_of_colon_hex (s : string) : string :=
  match s with
  | String a (String b rest) =>
      String (ascii_of_nat (16 * hex_value a + hex_value b))
             (match rest with
              | String _ rest' => octets_of_colon_hex rest'
              | EmptyString => EmptyString
              end)
  | _ => EmptyString
  end.

(** The octets AA BB CC 00 11 22. *)
Definition sample_mac : string :=
  String (oct 170) (String (oct 187) (String (oct 204)
    (String (oct 0) (String (oct 17) (String (oct 34) ""))))).

Definition mac_only : Agent :=
  mkAgent timed_out timed_out
          (gen_of_list [good [("IF-MIB::ifPhysAddress.1", sample_mac)]]%list)
          (gen_of_list [timed_out]%list) (gen_of_list [timed_out]%list).

(** The netmask of prefix length [p]: [p] one bits, then zero bits. *)
Definition netmask_of_prefix (p : Z) : Z := Z.shiftl (Z.ones p) (32 - p).

(** The index a single variable binding brings to each walk. *)
Definition physical_index (vb : string * SnmpValue) : list Z :=
  match snd vb with
  | Integer32 n => if contains "ifIndex" (fst vb) then [n] else []
  | _ => []
  end%list.

Definition logical_index (vb : string * SnmpValue) : list Z :=
  match snd vb with
  | Integer32 n => [n]
  | _ => []
  end%list.

(** The interface indices a reply brings to the physical walk and to the
    logical walk. *)
Definition physical_indices (r : Reply SnmpValue) : list Z :=
  if is_good r then flat_map physical_index (varBinds r) else []%list.

Definition logical_indices (r : Reply SnmpValue) : list Z :=
  if is_good r then flat_map logical_index (varBinds r) else []%list.

(** The records the interface dictionary holds for an index. *)
Definition records_for (idx : Z) (ifs : IfDict) : list InterfaceRecord :=
  map snd (filter (fun e : Z * InterfaceRecord => fst e =? idx) ifs).

(** Every record carries the index it is stored under, and no index is
    stored twice. *)
Definition well_keyed (ifs : IfDict) : Prop :=
  NoDup (map fst ifs) /\ forall k r, if_get ifs k = Some r -> Index r = Some k.

(** Address 192.0.2.10 with mask 255.255.255.0 on interface 2. *)
Definition address_row : Reply SnmpValue :=
  good [ ("IP-MIB::ipAdEntIfIndex.192.0.2.10", Integer32 2);
         ("IP-MIB::ipAdEntAddr.192.0.2.10",
          IpAddress (oct 192) (oct 0) (oct 2) (oct 10));
         ("IP-MIB::ipAdEntNetMask.192.0.2.10",
          IpAddress (oct 255) (oct 255) (oct 255) (oct 0)) ]%list.

(** The same row without its mask column. *)
Definition address_row_no_mask : Reply SnmpValue :=
  good [ ("IP-MIB::ipAdEntIfIndex.192.0.2.10", Integer32 2);
         ("IP-MIB::ipAdEntAddr.192.0.2.10",
          IpAddress (oct 192) (oct 0) (oct 2) (oct 10)) ]%list.

(** An unnumbered interface: address 0.0.0.0, mask 255.255.255.0. *)
Definition unnumbered_row : Reply SnmpValue :=
  good [ ("IP-MIB::ipAdEntIfIndex.0.0.0.0", Integer32 3);
         ("IP-MIB::ipAdEntAddr.0.0.0.0",
          IpAddress (oct 0) (oct 0) (oct 0) (oct 0));
         ("IP-MIB::ipAdEntNetMask.0.0.0.0",
          IpAddress (oct 255) (oct 255) (oct 255) (oct 0)) ]%list.

(** Two interfaces in the interface table; addresses on the second and on a
    third that the interface table did not list. *)
Definition two_tables : Agent :=
  mkAgent timed_out timed_out (gen_of_list [timed_out]%list)
    (gen_of_list [if_row 1 "lo"; if_row 2 "eth0"]%list)
    (gen_of_list
       [ address_row;
         good [ ("IP-MIB::ipAdEntIfIndex.198.51.100.1", Integer32 7);
                ("IP-MIB::ipAdEntAddr.198.51.100.1",
                 IpAddress (oct 198) (oct 51) (oct 100) (oct 1));
                ("IP-MIB::ipAdEntNetMask.198.51.100.1",
                 IpAddress (oct 255) (oct 255) (oct 255) (oct 252)) ] ]%list).

(** The ten general values of a FortiGate, given the firmware text and the
    logical-entity description. *)
Definition fortigate_general (fw comment : string) : Reply SnmpValue :=
  good [ ("SNMPv2-MIB::sysName.0", OctetString "fw1");
         ("ENTITY-MIB::entPhysicalMfgName.1", OctetString "Fortinet");
         ("ENTITY-MIB::entPhysicalModelName.1", OctetString "FGT_60E");
         ("ENTITY-MIB::entPhysicalSoftwareRev.1", OctetString fw);
         ("ENTITY-MIB::entPhysicalSerialNum.1", OctetString "FGT60E0000000001");
         ("SNMPv2-MIB::sysLocation.0", OctetString "Rack 4");
         ("SNMPv2-MIB::sysDescr.0", OctetString "Firewall");
         ("SNMPv2-MIB::sysContact.0", OctetString "noc");
         ("ENTITY-MIB::entLogicalDescr.1", OctetString comment);
         ("IF-MIB::ifNumber.0", Integer32 10) ]%list.

(** The firmware text of the vendor reply: it holds the delimiter and a
    carriage return. *)
Definition vendor_firmware : string := "v7.0.1;build0157" ++ CR.

Definition fortigate_vendor : Reply SnmpValue :=
  good [ ("SNMPv2-SMI::enterprises.12356.101.4.1.1.0", OctetString vendor_firmware);
         ("SNMPv2-SMI::enterprises.12356.100.1.1.1.0", OctetString "FGT60E4Q16000001") ]%list.

(** A FortiGate whose logical-entity description is empty. *)
Definition fortigate_no_comment : Agent :=
  mkAgent (fortigate_general "FortiGate-60E v6.4.9" "") fortigate_vendor
          (gen_of_list [good [("IF-MIB::ifPhysAddress.1", sample_mac)]]%list)
          (gen_of_list [if_row 1 "wan1"]%list)
          (gen_of_list [address_row]%list).

(** A FortiGate that describes itself. *)
Definition fortigate : Agent :=
  mkAgent (fortigate_general "FortiGate-60E v6.4.9" "FortiGate firewall") fortigate_vendor
          (gen_of_list [good [("IF-MIB::ifPhysAddress.1", sample_mac)]]%list)
          (gen_of_list [if_row 1 "wan1"]%list)
          (gen_of_list [address_row]%list).

(** A host whose general request and MAC request get no answer, while its
    interface table is read; it has no address table. *)
Definition interfaces_only : Agent :=
  mkAgent timed_out timed_out (gen_of_list [timed_out]%list)
          (gen_of_list [if_row 1 "eth0"]%list)
          (gen_of_list []%list).

(** A host that answers nothing. *)
Definition silent : Agent :=
  mkAgent timed_out timed_out (gen_of_list [timed_out]%list)
          (gen_of_list [timed_out]%list) (gen_of_list [timed_out]%list).

(** The first reply of the MAC walk is good. *)
Definition mac_good (agent : Agent) : bool :=
  match macWalk agent 0%nat with
  | Some r => is_good r
  | None => false
  end.

(** The good replies the logical walk reads with budget [B]. *)
Definition logical_good_rows (agent : Agent) (B : Z) : list (Reply SnmpValue) :=
  filter is_good (replies (logicalWalk agent) (Z.to_nat B) 0).


(** ** What the two interface walks contribute to a record *)

(** A field that a walk writes into the record of an interface. *)
Inductive Write : Type :=
| Described (text : string)
| Typed (text : string)
| Addressed (address : Z)
| Masked (mask : Z).

Definition described (w : Write) : option string :=
  match w with Described text => Some text | _ => None end.

Definition typed (w : Write) : option string :=
  match w with Typed text => Some text | _ => None end.

Definition addressed (w : Write) : option Z :=
  match w with Addressed address => Some address | _ => None end.

Definition masked (w : Write) : option Z :=
  match w with Masked mask => Some mask | _ => None end.

(** The value last written to a field of interface [idx], if any. *)
Fixpoint last_write {A : Type} (field : Write -> option A) (idx : Z)
    (ws : list (Z * Write)) : option A :=
  match ws with
  | [] => None
  | (k, w) :: rest =>
      match last_write field idx rest with
      | Some a => Some a
      | None => if k =? idx then field w else None
      end
  end%list.

(** The interface in force after a binding of the physical walk: the one of
    the last [ifIndex] column read in the reply. *)
Definition physical_current (intNumber : option Z) (vb : string * SnmpValue) : option Z :=
  match physical_index vb with
  | n :: _ => Some n
  | [] => intNumber
  end%list.

(** The fields a binding of the physical walk carries: a non-empty
    [ifDescr] text, an [ifType] label. *)
Definition physical_write (prettyPrint : Z -> string) (vb : string * SnmpValue)
    : list Write :=
  ((if is_OctetString (snd vb) && contains "ifDescr" (fst vb) && (0 <? octet_length (snd vb))
    then [Described (str_value (snd vb))] else []) ++
   match snd vb with
   | Integer32 n => if contains "ifType" (fst vb) then [Typed (prettyPrint n)] else []
   | _ => []
   end)%list.

(** The writes of the bindings of one reply, each to the interface in force. *)
Fixpoint physical_bindings (prettyPrint : Z -> string) (intNumber : option Z)
    (vbs : list (string * SnmpValue)) : list (Z * Write) :=
  match vbs with
  | [] => []
  | vb :: rest =>
      (match physical_current intNumber vb with
       | Some k => map (pair k) (physical_write prettyPrint vb)
       | None => []
       end ++ physical_bindings prettyPrint (physical_current intNumber vb) rest)
  end%list.

(** The writes of the physical walk over the replies it read: every good
    reply starts without an interface in force. *)
Definition physical_writes (prettyPrint : Z -> string) (rs : list (Reply SnmpValue))
    : list (Z * Write) :=
  flat_map (fun r => if is_good r
                     then physical_bindings prettyPrint None (varBinds r)
                     else []%list) rs.

(** The interface in force when the physical walk ends: that of its last
    good reply. *)
Definition physical_local (rs : list (Reply SnmpValue)) : local :=
  fold_left (fun (intNumber : local) r =>
               if is_good r
               then Bound (fold_left physical_current (varBinds r) None)
               else intNumber) rs Unbound.

(** The interface in force after a binding of the logical walk: every
    integer is taken for an index. *)
Definition logical_current (intNumber : local) (vb : string * SnmpValue) : local :=
  match snd vb with
  | Integer32 n => Bound (Some n)
  | _ => intNumber
  end.

(** The field a binding of the logical walk carries: an address, which is
    taken for a mask when it has the shape of one. *)
Definition logical_write (vb : string * SnmpValue) : list Write :=
  match snd vb with
  | IpAddress o1 o2 o3 o4 =>
      [ if is_netmask (IPv4Address o1 o2 o3 o4)
        then Masked (IPv4Address o1 o2 o3 o4)
        else Addressed (IPv4Address o1 o2 o3 o4) ]
  | _ => []
  end%list.

Fixpoint logical_bindings (intNumber : local) (vbs : list (string * SnmpValue))
    : list (Z * Write) :=
  match vbs with
  | [] => []
  | vb :: rest =>
      (match logical_current intNumber vb with
       | Bound (Some k) => map (pair k) (logical_write vb)
       | _ => []
       end ++ logical_bindings (logical_current intNumber vb) rest)
  end%list.

(** The writes of the logical walk over the replies it read: the interface
    in force is carried from one reply to the next, and into the first reply
    from the physical walk. *)
Fixpoint logical_writes (intNumber : local) (rs : list (Reply SnmpValue))
    : list (Z * Write) :=
  match rs with
  | [] => []
  | r :: rest =>
      if is_good r
      then (logical_bindings intNumber (varBinds r) ++
            logical_writes (fold_left logical_current (varBinds r) intNumber) rest)
      else logical_writes intNumber rest
  end%list.

(** The record of interface [idx] after the writes [ws]: the template with
    its index, and each written field at its last value. *)
Definition record_of (idx : Z) (ws : list (Z * Write)) : InterfaceRecord :=
  mkInterface (Some idx) None None (last_write typed idx ws) None None
    (last_write addressed idx ws) (last_write masked idx ws)
    (last_write described idx ws) false false.

(** The merged record of interface [idx]: description and type as the
    physical walk wrote them last, address and mask as the logical walk wrote
    them last, the other fields as in the template. *)
Definition merged_record (idx : Z) (physical logical : list (Z * Write))
    : InterfaceRecord :=
  mkInterface (Some idx) None None (last_write typed idx physical) None None
    (last_write addressed idx logical) (last_write masked idx logical)
    (last_write described idx physical) false false.

(** The interface dictionary holds one record for each index of [seen] and
    no other, and each record holds the writes [ws] made to its index. *)
Definition holds_writes (ifs : IfDict) (seen : list Z) (ws : list (Z * Write)) : Prop :=
  NoDup (map fst ifs) /\
  (forall idx, In idx seen -> if_get ifs idx = Some (record_of idx ws)) /\
  (forall idx, ~ In idx seen -> if_get ifs idx = None) /\
  (forall k w, In (k, w) ws -> In k seen).

(** The interface in force, when there is one, has been seen. *)
Definition in_force (intNumber : local) (seen : list Z) : Prop :=
  forall k, intNumber = Bound (Some k) -> In k seen.
(** ** The report: generateCSVReport *)

(** [s[n:]] and [s[:n]] for a position inside the string. *)
Fixpoint drop (n : nat) (s : string) : string :=
  match n, s with
  | O, _ => s
  | S n', String _ rest => drop n' rest
  | S _, EmptyString => EmptyString
  end.

Fixpoint take (n : nat) (s : string) : string :=
  match n, s with
  | O, _ => EmptyString
  | S n', String c rest => String c (take n' rest)
  | S _, EmptyString => EmptyString
  end.

(** [s.endswith(suffix)] *)
Definition endswith (s suffix : string) : bool :=
  (String.length suffix <=? String.length s)%nat &&
  String.eqb (drop (String.length s - String.length suffix) s) suffix.

(** [s.removesuffix(suffix)]:
    [if suffix and s.endswith(suffix): s[:-len(suffix)] else s]. *)
Definition removesuffix (s suffix : string) : string :=
  if negb (String.length suffix =? 0)%nat && endswith s suffix
  then take (String.length s - String.length suffix) s
  else s.

(** The one-character strings [for ipAddress in value] yields when the value
    is a text. *)
Definition characters (s : string) : list string :=
  map (fun c => String c "") (list_ascii_of_string s).

Section Report.

(** [str(l)] for a list: Python's bracketed, quoted rendering. The report only
    reaches it for a list stored under another key than "IP Addresses". *)
Variable str_list : list string -> string.

(** [str(v)] for a value of the host dictionary other than [None]. *)
Definition str_cell (v : value) : string :=
  match v with
  | PNone => "None"
  | PBool true => "True"
  | PBool false => "False"
  | PInt n => str_int n
  | PStr s => s
  | PList l => str_list l
  end.

(** The inner loop over the addresses: [elementValue += str(ipAddress) + ", "]. *)
Definition accumulate (sep : string) (items : list string) : string :=
  fold_left (fun acc item => acc ++ item ++ sep) items "".

(** What is iterated by [for ipAddress in value]. *)
Definition iterate (v : value) : result (list string) :=
  match v with
  | PList l => Ok l
  | PStr s => Ok (characters s)
  | _ => Raise TypeError
  end.

(** The [if / elif / else] that gives [elementValue]. *)
Definition element_value (emptyValue : string) (element : string) (v : value)
    : result string :=
  match v with
  | PNone => Ok emptyValue
  | _ =>
      if String.eqb element "IP Addresses"
      then items <- iterate v ;; Ok (removesuffix (accumulate ", " items) ", ")
      else Ok (str_cell v)
  end.

(** The header row, when the template is a non-empty dictionary. *)
Definition csv_header (templateDict : option dict) (csvDelimeter : string) : string :=
  match templateDict with
  | Some (entry :: entries) =>
      let csvFileHeader := ("Network" :: "Host" :: keys (entry :: entries))%list in
      removesuffix (accumulate csvDelimeter csvFileHeader) csvDelimeter ++ LF
  | _ => ""
  end.

(** The row of one host. *)
Definition csv_row (netAddress host : string) (record : dict)
    (csvDelimeter emptyValue : string) : result string :=
  let csvRowData := "" ++ netAddress ++ csvDelimeter in
  let csvRowData := csvRowData ++ host ++ csvDelimeter in
  csvRowData <-
    foldM (fun acc (entry : string * value) =>
             elementValue <- element_value emptyValue (fst entry) (snd entry) ;;
             Ok (acc ++ elementValue ++ csvDelimeter))
          record csvRowData ;;
  Ok (removesuffix csvRowData csvDelimeter ++ LF).

(** [generateCSVReport]: the input maps each host to its record, in the order
    the hosts were entered. *)
Definition generateCSVReport (inputDict : option (list (string * dict)))
    (netAddress : string) (templateDict : option dict)
    (csvDelimeter emptyValue : string) : result string :=
  let reportContent := "" ++ csv_header templateDict csvDelimeter in
  match inputDict with
  | Some hosts =>
      foldM (fun reportContent (entry : string * dict) =>
               csvRowData <- csv_row netAddress (fst entry) (snd entry)
                               csvDelimeter emptyValue ;;
               Ok (reportContent ++ csvRowData))
            hosts reportContent
  | None => Ok reportContent
  end.

End Report.

(** ** The scan of a network: the main block *)

(** [netScanDict[netDescription]]: host address to record, in insertion order. *)
Definition HostDict : Type := list (string * dict).

Fixpoint host_get (nd : HostDict) (host : string) : result dict :=
  match nd with
  | [] => Raise KeyError
  | (h, d) :: rest => if String.eqb h host then Ok d else host_get rest host
  end%list.

(** [nd.update({host : d})] *)
Fixpoint host_set (nd : HostDict) (host : string) (d : dict) : HostDict :=
  match nd with
  | [] => [(host, d)]
  | (h, d') :: rest =>
      if String.eqb h host then (h, d) :: rest else (h, d') :: host_set rest host d
  end%list.

(** The addresses [for hostAddress in scanAddress] keeps: the single address
    of a /32, otherwise every address of the network but the network address
    and the broadcast address. *)
Definition host_addresses (netAddress netPrefixLen : Z) : list Z :=
  if netPrefixLen =? 32 then [netAddress]%list
  else
    let num_addresses := 2 ^ (32 - netPrefixLen) in
    let netBroadcastAddress := netAddress + num_addresses - 1 in
    filter (fun hostAddress =>
              negb (hostAddress =? netAddress) &&
              negb (hostAddress =? netBroadcastAddress))
           (map (fun k => netAddress + Z.of_nat k) (seq 0 (Z.to_nat num_addresses))).

(** [netAddressesCount] *)
Definition netAddressesCount (netPrefixLen : Z) : Z :=
  if netPrefixLen =? 32 then 1 else 2 ^ (32 - netPrefixLen) - 2.

(** "Generating host dictionary": one copy of the template per address. *)
Definition generate_hosts (hosts : list string) : HostDict :=
  fold_left (fun nd host => host_set nd host dataDictTemplate) hosts []%list.

Section Scan.

Variable prettyPrint : Z -> string.

(** The script's settings: [snmpIterMaxCount] (which is
    [scriptArgs.snmpIterMaxCount]), [csvReportDelimeter], [ignorePingFlag]. *)
Variable snmpIterMaxCount : Z.
Variable csvReportDelimeter : string.
Variable ignorePingFlag : bool.

(** [isinstance(ping(hostAddress), float)] and the SNMP agent at an address. *)
Variable answers_ping : string -> bool.
Variable agent_at : string -> Agent.

(** One turn of "Performing host discovery & SNMP audit". *)
Definition scan_host (nd : HostDict) (hostAddress : string) : M HostDict :=
  let hostIsActive := answers_ping hostAddress in
  record <~ lift (host_get nd hostAddress) ;;
  let nd := host_set nd hostAddress (set record "PING" (PBool hostIsActive)) in
  if hostIsActive || ignorePingFlag then
    '(d, _) <~ snmpAudit prettyPrint snmpIterMaxCount (agent_at hostAddress)
                 hostIsActive dataDictTemplate csvReportDelimeter snmpIterMaxCount ;;
    ret (host_set nd hostAddress d)
  else ret nd.

(** The loop over the keys of the host dictionary. *)
Fixpoint scan_hosts (hostAddresses : list string) (nd : HostDict) : M HostDict :=
  match hostAddresses with
  | [] => ret nd
  | hostAddress :: rest =>
      nd <~ scan_host nd hostAddress ;; scan_hosts rest nd
  end%list.

Definition scan (hosts : list string) : M HostDict :=
  let nd := generate_hosts hosts in
  scan_hosts (map fst nd) nd.

End Scan.

(** ** Definitions for the properties of the report and the scan *)

(** The number of occurrences of a character. *)
Fixpoint count_char (c : ascii) (s : string) : nat :=
  match s with
  | EmptyString => O
  | String x rest => ((if Ascii.eqb c x then 1 else 0) + count_char c rest)%nat
  end.

(** The cells of a record, as the row prints them. *)
Definition cells (str_list : list string -> string) (emptyValue : string)
    (record : dict) : result (list string) :=
  foldM (fun acc (entry : string * value) =>
           v <- element_value str_list emptyValue (fst entry) (snd entry) ;;
           Ok (acc ++ [v])%list)
        record []%list.

(** Every reply the device gives carries an error indication. *)
Definition only_indications (agent : Agent) : Prop :=
  errorIndication (general agent) <> None /\
  (exists r, macWalk agent 0%nat = Some r /\ errorIndication r <> None) /\
  (forall k r, physicalWalk agent k = Some r -> errorIndication r <> None) /\
  (forall k r, logicalWalk agent k = Some r -> errorIndication r <> None).

(** A record that only holds absent values and flags. *)
Definition unreached (pingStatus : bool) : dict :=
  set (set dataDictTemplate "IP Addresses" PNone) "PING" (PBool pingStatus).

(** The line feed, and values and records whose texts hold none. *)
Definition lf_char : ascii := ascii_of_nat 10.

Definition no_line_feed (s : string) : Prop := count_char lf_char s = 0%nat.

Definition value_on_one_line (v : value) : Prop :=
  match v with
  | PStr s => no_line_feed s
  | PList l => Forall no_line_feed l
  | _ => True
  end.

Definition record_on_one_line (d : dict) : Prop :=
  forall k v, In (k, v) d -> value_on_one_line v.

(** ** The monad *)

Lemma bind_ok {A B : Type} (m : M A) (f : A -> M B) (b : B) (log : list Request) :
  bind m f = (Ok b, log) ->
  exists a log1 log2,
    m = (Ok a, log1) /\ f a = (Ok b, log2) /\ log = (log1 ++ log2)%list.
Proof.
  destruct m as [[a | e] log1]; simpl.
  - destruct (f a) as [r log2] eqn:E. intros H. inversion H. subst.
    now exists a, log1, log2.
  - discriminate.
Qed.

Lemma lift_ok {A : Type} (r : result A) (a : A) (log : list Request) :
  lift r = (Ok a, log) -> r = Ok a /\ log = []%list.
Proof. unfold lift. intros H. inversion H. auto. Qed.

Lemma issued_app (q : Request) (l1 l2 : list Request) :
  issued q (l1 ++ l2) = (issued q l1 + issued q l2)%nat.
Proof. unfold issued. now rewrite filter_app, length_app. Qed.

(** ** Bounded walks *)

Section Walks.

Context {V St : Type}.
Variable q : Request.
Variable row : St -> Reply V -> result St.
Variable g : Generator V.

(** A walk only sends its own request. *)
Lemma walk_log_own (remaining pos : nat) (st : St) :
  issued q (snd (walk q row g remaining pos st))
  = List.length (snd (walk q row g remaining pos st)).
Proof.
  revert pos st. induction remaining as [| n IH]; intros pos st; simpl.
  - reflexivity.
  - destruct (g pos) as [r |]; simpl.
    + destruct (row st r) as [st' | e]; simpl.
      * specialize (IH (S pos) st').
        destruct (walk q row g n (S pos) st') as [res log]. simpl in *.
        unfold issued in *. simpl.
        destruct q; simpl; now rewrite IH.
      * unfold issued. destruct q; reflexivity.
    + unfold issued. destruct q; reflexivity.
Qed.

(** At most [remaining] calls of [next]. *)
Lemma walk_log_budget (remaining pos : nat) (st : St) :
  (List.length (snd (walk q row g remaining pos st)) <= remaining)%nat.
Proof.
  revert pos st. induction remaining as [| n IH]; intros pos st; simpl.
  - lia.
  - destruct (g pos) as [r |]; simpl; [| lia].
    destruct (row st r) as [st' | e]; simpl; [| lia].
    specialize (IH (S pos) st').
    destruct (walk q row g n (S pos) st') as [res log]. simpl in *. lia.
Qed.

(** The call of [next] that raises [StopIteration] is the last one. *)
Lemma walk_log_stop (remaining pos j : nat) (st : St) :
  g (pos + j)%nat = None ->
  (List.length (snd (walk q row g remaining pos st)) <= S j)%nat.
Proof.
  revert pos j st. induction remaining as [| n IH]; intros pos j st Hstop; simpl.
  - lia.
  - destruct (g pos) as [r |] eqn:Hg; simpl; [| lia].
    destruct (row st r) as [st' | e]; simpl; [| lia].
    destruct j as [| j].
    + rewrite Nat.add_0_r in Hstop. congruence.
    + specialize (IH (S pos) j st').
      rewrite Nat.add_succ_r in Hstop. specialize (IH Hstop).
      destruct (walk q row g n (S pos) st') as [res log]. simpl in *. lia.
Qed.

(** The state after a walk that did not raise is the fold of the row handler
    over the replies read. *)
Lemma walk_ok (remaining pos : nat) (st st' : St) (log : list Request) :
  walk q row g remaining pos st = (Ok st', log) ->
  foldM row (replies g remaining pos) st = Ok st'.
Proof.
  revert pos st log. induction remaining as [| n IH]; intros pos st log; simpl.
  - unfold ret. intros H. now inversion H.
  - destruct (g pos) as [r |]; simpl.
    + destruct (row st r) as [st1 | e]; simpl; [| discriminate].
      destruct (walk q row g n (S pos) st1) as [res log1] eqn:E.
      intros H. inversion H. subst. eapply IH. exact E.
    + intros H. now inversion H.
Qed.

End Walks.

(** C10. A table walk with budget [B] calls [next] at most [B] times,
    whatever the generator yields and whatever the row handler does; the
    call that raises StopIteration (end of table) is the last one; and since
    pysnmp ends the generator after a transport error, the walk stops one
    call after the reply that carries it. Holds for the physical and the
    logical walk. *)
Theorem C10_walk_within_budget
    (prettyPrint : Z -> string) (agent : Agent) (B : Z)
    (st1 : IfDict * local) (st2 : dict * IfDict * local) :
  let logP := snd (physical_walk prettyPrint agent B st1) in
  let logL := snd (logical_walk agent B st2) in
  (Z.of_nat (issued NextPhysical logP) <= Z.max 0 B /\
   Z.of_nat (issued NextLogical logL) <= Z.max 0 B) /\
  (forall k, physicalWalk agent k = None -> (issued NextPhysical logP <= S k)%nat) /\
  (forall k, logicalWalk agent k = None -> (issued NextLogical logL <= S k)%nat) /\
  (forall k r, ends_after_error (physicalWalk agent) ->
     physicalWalk agent k = Some r -> errorIndication r <> None ->
     (issued NextPhysical logP <= S (S k))%nat) /\
  (forall k r, ends_after_error (logicalWalk agent) ->
     logicalWalk agent k = Some r -> errorIndication r <> None ->
     (issued NextLogical logL <= S (S k))%nat).
Proof.
  intros logP logL. subst logP logL. unfold physical_walk, logical_walk.
  rewrite !walk_log_own.
  repeat split.
  - pose proof (walk_log_budget NextPhysical (physical_row prettyPrint)
                  (physicalWalk agent) (Z.to_nat B) 0 st1). lia.
  - pose proof (walk_log_budget NextLogical logical_row
                  (logicalWalk agent) (Z.to_nat B) 0 st2). lia.
  - intros k Hk. now apply walk_log_stop.
  - intros k Hk. now apply walk_log_stop.
  - intros k r Hends Hk Herr. apply walk_log_stop. simpl.
    apply (Hends k r Hk). unfold is_good.
    destruct (errorIndication r); [reflexivity | congruence].
  - intros k r Hends Hk Herr. apply walk_log_stop. simpl.
    apply (Hends k r Hk). unfold is_good.
    destruct (errorIndication r); [reflexivity | congruence].
Qed.

(** A device whose interface table never ends, walked with budget 3, and an
    address table that times out. *)
Lemma C10_witness :
  Z.of_nat (issued NextPhysical
              (snd (physical_walk str_int looping 3 ([]%list, Unbound)))) <= Z.max 0 3 /\
  (issued NextLogical
     (snd (logical_walk looping 3 (dataDictTemplate, []%list, Unbound))) <= 2)%nat.
Proof.
  pose proof (C10_walk_within_budget str_int looping 3 ([]%list, Unbound)
                (dataDictTemplate, []%list, Unbound)) as H.
  cbv zeta in H. destruct H as [[H1 _] [_ [_ [_ H5]]]].
  split; [exact H1 |].
  apply (H5 0%nat timed_out).
  - intros k r Hk _. destruct k as [| k]; [reflexivity |].
    simpl in Hk. destruct k; discriminate.
  - reflexivity.
  - discriminate.
Defined.

(** ** Dictionaries *)

Lemma get_set_same (d : dict) (k : string) (v : value) : get (set d k v) k = Ok v.
Proof.
  induction d as [| [k' v'] d IH]; simpl.
  - now rewrite String.eqb_refl.
  - destruct (String.eqb k' k) eqn:E; simpl; rewrite E; auto.
Qed.

Lemma get_set_other (d : dict) (k k' : string) (v : value) :
  k <> k' -> get (set d k v) k' = get d k'.
Proof.
  intros Hne. induction d as [| [k0 v0] d IH]; simpl.
  - apply String.eqb_neq in Hne. now rewrite Hne.
  - destruct (String.eqb k0 k) eqn:E; simpl.
    + apply String.eqb_eq in E. subst k0.
      apply String.eqb_neq in Hne. now rewrite Hne.
    + now rewrite IH.
Qed.

(** ** The positional fill of the general step *)

Lemma index_nth {A : Type} (l : list A) (i : nat) (a : A) :
  nth_error l i = Some a -> index l (Z.of_nat i) = Ok a.
Proof.
  intros H. unfold index.
  assert (Hlt : (i < List.length l)%nat) by (apply nth_error_Some; congruence).
  destruct (Z.of_nat i <? 0) eqn:E1; [lia |].
  destruct ((Z.of_nat i <? 0) || (Z.of_nat (List.length l) <=? Z.of_nat i)) eqn:E2.
  - apply orb_true_iff in E2. destruct E2; lia.
  - now rewrite Nat2Z.id, H.
Qed.

Lemma fill_eq (keys values : list string) (i : nat) (d : dict) :
  (i < List.length values)%nat ->
  fill keys values (Z.of_nat i) d = Ok (fill_spec keys (skipn i values) d).
Proof.
  revert i d. induction keys as [| key keys IH]; intros i d Hi; simpl.
  - reflexivity.
  - destruct (nth_error values i) as [v |] eqn:Hv.
    2:{ apply nth_error_None in Hv. lia. }
    rewrite (index_nth _ _ _ Hv). simpl.
    assert (Hsk : skipn i values = (v :: skipn (S i) values)%list).
    { clear -Hv. revert i Hv. induction values as [| a l IHl]; intros [| i] Hv;
        simpl in *; try discriminate.
      - now inversion Hv.
      - now apply IHl. }
    rewrite Hsk.
    destruct (Z.of_nat i <? Z.of_nat (List.length values) - 1) eqn:E.
    + replace (Z.of_nat i + 1) with (Z.of_nat (S i)) by lia.
      rewrite IH by lia. reflexivity.
    + assert (Hlast : S i = List.length values) by lia.
      rewrite Hlast, skipn_all. now destruct keys.
Qed.

Lemma fill_spec_other (keys values : list string) (d : dict) (k : string) :
  ~ In k keys -> get (fill_spec keys values d) k = get d k.
Proof.
  revert values d. induction keys as [| key keys IH]; intros values d Hk; simpl.
  - reflexivity.
  - destruct values as [| v values]; [reflexivity |].
    rewrite IH by (intros F; apply Hk; now right).
    destruct (0 <? Z.of_nat (String.length v)); [| reflexivity].
    apply get_set_other. intros ->. apply Hk. now left.
Qed.

Lemma get_fill_spec (keys values : list string) (d : dict) (k : nat) (key : string) :
  NoDup keys -> nth_error keys k = Some key ->
  get (fill_spec keys values d) key =
  match nth_error values k with
  | Some v => if 0 <? Z.of_nat (String.length v) then Ok (PStr v) else get d key
  | None => get d key
  end.
Proof.
  revert values d k. induction keys as [| key0 keys IH]; intros values d k Hnd Hk.
  - destruct k; discriminate.
  - inversion Hnd as [| ? ? Hnotin Hnd']. subst.
    destruct values as [| v values]; simpl.
    + now destruct k.
    + destruct k as [| k]; simpl in *.
      * inversion Hk. subst key0. rewrite fill_spec_other by assumption.
        destruct (0 <? Z.of_nat (String.length v)); [apply get_set_same | reflexivity].
      * rewrite (IH values _ k Hnd' Hk).
        assert (Hne : key0 <> key).
        { intros ->. apply Hnotin. eapply nth_error_In. exact Hk. }
        destruct (0 <? Z.of_nat (String.length v));
          [rewrite get_set_other by assumption |]; reflexivity.
Qed.

Lemma is_good_true {V : Type} (r : Reply V) :
  is_good r = true -> errorIndication r = None /\ errorStatus r = 0.
Proof.
  unfold is_good. destruct (errorIndication r); [discriminate |].
  intros H. split; [reflexivity | lia].
Qed.

(** The general step on a good reply with at least one value. *)
Lemma general_info_good (cfg : Z) (agent : Agent) (delim : string) (B : Z) (d : dict) :
  is_good (general agent) = true ->
  varBinds (general agent) <> []%list ->
  let values := map (fun vb => sanitize delim (snd vb)) (varBinds (general agent)) in
  let d1 := fill_spec (keys d) values d in
  general_info cfg agent delim B d =
  match get d1 "Interfaces Count" with
  | Ok count =>
      (Ok (set d1 "SNMP" (PBool true),
           match as_int count with Some n => n | None => cfg end),
       [GetGeneral]%list)
  | Raise e => (Raise e, [GetGeneral]%list)
  end.
Proof.
  intros Hgood Hne values d1.
  destruct (is_good_true _ Hgood) as [Hind Hstat].
  unfold general_info. rewrite Hind, Hstat. simpl negb. cbv iota.
  change 0 with (Z.of_nat 0).
  rewrite fill_eq.
  2:{ rewrite length_map. destruct (varBinds (general agent)); simpl; [congruence | lia]. }
  simpl skipn. fold values. fold d1.
  unfold bind, send, lift, ret. simpl.
  destruct (get d1 "Interfaces Count"); reflexivity.
Qed.

Lemma template_keys_NoDup (pingStatus : bool) : NoDup (keys (seed pingStatus)).
Proof.
  unfold seed. simpl.
  repeat (constructor; [simpl; intros H; repeat (destruct H as [H | H]; [discriminate |]); exact H |]).
  constructor.
Qed.

Lemma seed_absent (pingStatus : bool) (k : nat) (key : string) :
  (k < 10)%nat -> nth_error (keys dataDictTemplate) k = Some key ->
  get (seed pingStatus) key = Ok PNone /\ key <> "SNMP".
Proof.
  intros Hk Hkey.
  do 10 (destruct k as [| k];
         [simpl in Hkey; inversion Hkey; subst key; split; [reflexivity | discriminate] |]).
  lia.
Qed.

(** C6 (amended). When the general request is answered with at least one
    and fewer than the ten requested values, the step does not raise, every
    returned value that is non-empty after sanitisation is stored under the
    key of its position, the keys whose value is empty and the keys beyond
    the reply stay absent, and the SNMP flag is set. *)
Theorem C6_partial_response
    (cfg : Z) (agent : Agent) (delim : string) (B : Z) (pingStatus : bool) :
  is_good (general agent) = true ->
  (1 <= List.length (varBinds (general agent)) < 10)%nat ->
  let values := map (fun vb => sanitize delim (snd vb)) (varBinds (general agent)) in
  exists d budget,
    general_info cfg agent delim B (seed pingStatus) = (Ok (d, budget), [GetGeneral]%list) /\
    (forall k key, (k < 10)%nat -> nth_error (keys dataDictTemplate) k = Some key ->
       get d key = Ok (match nth_error values k with
                       | Some v => stored v
                       | None => PNone
                       end)) /\
    get d "SNMP" = Ok (PBool true).
Proof.
  intros Hgood Hlen values.
  assert (Hne : varBinds (general agent) <> []%list).
  { destruct (varBinds (general agent)); simpl in Hlen; [lia | congruence]. }
  pose proof (general_info_good cfg agent delim B (seed pingStatus) Hgood Hne) as Hgi.
  cbv zeta in Hgi. fold values in Hgi.
  set (d1 := fill_spec (keys (seed pingStatus)) values (seed pingStatus)) in *.
  assert (Hget : forall k key, (k < 10)%nat ->
            nth_error (keys dataDictTemplate) k = Some key ->
            get d1 key = Ok (match nth_error values k with
                             | Some v => stored v
                             | None => PNone
                             end)).
  { intros k key Hk Hkey. unfold d1.
    rewrite (get_fill_spec _ values _ k key (template_keys_NoDup pingStatus) Hkey).
    destruct (seed_absent pingStatus k key Hk Hkey) as [Habs _]. rewrite Habs.
    unfold stored. destruct (nth_error values k) as [v |]; [| reflexivity].
    now destruct (0 <? Z.of_nat (String.length v)). }
  assert (Hcount : get d1 "Interfaces Count" = Ok PNone).
  { rewrite (Hget 9%nat "Interfaces Count") by (try lia; reflexivity).
    assert (Hnone : nth_error values 9 = None).
    { apply nth_error_None. unfold values. rewrite length_map. lia. }
    now rewrite Hnone. }
  rewrite Hcount in Hgi. simpl in Hgi.
  exists (set d1 "SNMP" (PBool true)), cfg. split; [exact Hgi |]. split.
  - intros k key Hk Hkey.
    destruct (seed_absent pingStatus k key Hk Hkey) as [_ Hne'].
    rewrite get_set_other by congruence. now apply Hget.
  - apply get_set_same.
Qed.

(** Six values for the ten identifiers: the sixth field is set, the seventh
    is absent. *)
Lemma C6_witness :
  exists d budget,
    general_info 256 six_values ";" 256 (seed true) = (Ok (d, budget), [GetGeneral]%list) /\
    get d "Location" = Ok (PStr "Lab") /\
    get d "Description" = Ok PNone /\
    get d "SNMP" = Ok (PBool true).
Proof.
  destruct (C6_partial_response 256 six_values ";" 256 true) as (d & budget & Hrun & Hget & Hflag).
  - reflexivity.
  - simpl. lia.
  - exists d, budget. split; [exact Hrun |]. split; [| split; [| exact Hflag]].
    + apply (Hget 5%nat "Location"); [lia | reflexivity].
    + apply (Hget 6%nat "Description"); [lia | reflexivity].
Defined.

(** C6, as stated, fails: of six returned values the second is empty, and
    the second field is left absent instead of being set. *)
Lemma C6_counterexample :
  exists d,
    general_info 256 six_values_one_empty ";" 256 (seed true)
      = (Ok (d, 256), [GetGeneral]%list) /\
    ~ fills_positionally
        (map (fun vb => sanitize ";" (snd vb)) (varBinds (general six_values_one_empty))) d.
Proof.
  eexists. split; [vm_compute; reflexivity |].
  intros H. specialize (H 1%nat "Manufacturer" "" eq_refl eq_refl).
  vm_compute in H. discriminate.
Qed.

(** After a good general reply the walk budget is the configured one:
    what the positional loop stores is text, never an integer. *)
Lemma general_info_budget (cfg : Z) (agent : Agent) (delim : string) (B : Z)
    (pingStatus : bool) (d : dict) (budget : Z) (log : list Request) :
  is_good (general agent) = true ->
  varBinds (general agent) <> []%list ->
  general_info cfg agent delim B (seed pingStatus) = (Ok (d, budget), log) ->
  budget = cfg.
Proof.
  intros Hgood Hne Hrun.
  rewrite (general_info_good cfg agent delim B (seed pingStatus) Hgood Hne) in Hrun.
  cbv zeta in Hrun.
  set (d1 := fill_spec _ _ _) in Hrun.
  assert (Hcount : exists c, get d1 "Interfaces Count" = Ok c /\ as_int c = None).
  { unfold d1.
    rewrite (get_fill_spec _ _ _ 9%nat "Interfaces Count"
               (template_keys_NoDup pingStatus) eq_refl).
    destruct (nth_error _ 9) as [v |].
    - destruct (0 <? Z.of_nat (String.length v)).
      + now exists (PStr v).
      + now exists PNone.
    - now exists PNone. }
  destruct Hcount as (c & Hc & Hint). rewrite Hc, Hint in Hrun.
  injection Hrun as _ Hb _. now symmetry.
Qed.

(** C3 (code defect). The switch declares four interfaces; the configured
    budget is 256. After the general step the budget is still 256 and the
    stored count is the text 4; the physical walk then calls [next] five
    times, the logical walk with the same budget. *)
Theorem C3_budget_ignores_interface_count :
  (exists d,
     general_info 256 four_ports ";" 256 (seed true) = (Ok (d, 256), [GetGeneral]%list) /\
     get d "Interfaces Count" = Ok (PStr "4")) /\
  issued NextPhysical
    (snd (snmpAudit str_int 256 four_ports true dataDictTemplate ";" 256)) = 5%nat.
Proof.
  split.
  - eexists. split; vm_compute; reflexivity.
  - vm_compute. reflexivity.
Qed.

(** ** MAC rendering *)

Lemma replace_char (s : string) (a b : ascii) :
  replace s (String a "") (String b "")
  = map_chars (fun c => if Ascii.eqb a c then b else c) s.
Proof.
  unfold replace. induction s as [| c s IH]; simpl.
  - reflexivity.
  - destruct (Ascii.eqb a c); simpl; now rewrite IH.
Qed.

Lemma map_chars_app (f : ascii -> ascii) (s t : string) :
  map_chars f (s ++ t) = (map_chars f s ++ map_chars f t)%string.
Proof. induction s as [| c s IH]; simpl; [reflexivity | now rewrite IH]. Qed.

Lemma map_chars_compose (f h : ascii -> ascii) (s : string) :
  map_chars f (map_chars h s) = map_chars (fun c => f (h c)) s.
Proof. induction s as [| c s IH]; simpl; [reflexivity | now rewrite IH]. Qed.

Lemma map_chars_concat (f : ascii -> ascii) (sep : string) (l : list string) :
  map_chars f (String.concat sep l)
  = String.concat (map_chars f sep) (map (map_chars f) l).
Proof.
  induction l as [| x l IH]; simpl; [reflexivity |].
  destruct l as [| y l]; [reflexivity |].
  rewrite !map_chars_app. now rewrite IH.
Qed.

Lemma hex_octet_lower (c : ascii) :
  map_chars (fun x => lower_char (if Ascii.eqb "-" x then ":"%char else x)) (hex_octet c)
  = lower_hex_octet c.
Proof. destruct c as [[] [] [] [] [] [] [] []]; vm_compute; reflexivity. Qed.

Lemma render_mac_colon_hex (octets : string) :
  String.length octets = 6%nat -> render_mac octets = Ok (colon_hex octets).
Proof.
  intros Hlen. unfold render_mac, str_MAC. rewrite Hlen.
  change (6 =? 6)%nat with true. cbv iota. unfold rbind.
  f_equal. unfold lower, colon_hex.
  rewrite (replace_char _ "-" ":"), map_chars_compose, map_chars_concat.
  simpl map_chars. f_equal. rewrite map_map.
  apply map_ext. intros c. apply hex_octet_lower.
Qed.

Lemma unhex_octet (c : ascii) (rest : string) :
  octets_of_colon_hex (lower_hex_octet c ++ rest)
  = String c (match rest with
              | String _ rest' => octets_of_colon_hex rest'
              | EmptyString => EmptyString
              end).
Proof. destruct c as [[] [] [] [] [] [] [] []]; cbn; reflexivity. Qed.

Lemma append_empty_r (s : string) : (s ++ "")%string = s.
Proof. induction s as [| c s IH]; simpl; [reflexivity | now rewrite IH]. Qed.

Lemma colon_hex_read_back (octets : string) :
  octets_of_colon_hex (colon_hex octets) = octets.
Proof.
  unfold colon_hex. induction octets as [| c s IH]; [reflexivity |].
  cbn [list_ascii_of_string map].
  destruct (list_ascii_of_string s) as [| c' l] eqn:El.
  - cbn [map String.concat]. destruct s; [| discriminate].
    rewrite <- (append_empty_r (lower_hex_octet c)). now rewrite unhex_octet.
  - cbn [map String.concat] in *. rewrite unhex_octet.
    cbn [append]. f_equal. exact IH.
Qed.

(** C9. Six octets obtained by the MAC-address walk are stored as their
    lower-case hexadecimal pairs separated by colons, and the stored text
    determines the octets (reading it back returns them). *)
Theorem C9_mac_rendering (agent : Agent) (d : dict) (name octets : string) :
  String.length octets = 6%nat ->
  macWalk agent 0%nat = Some (good [(name, octets)]%list) ->
  exists d',
    mac_address agent d = (Ok d', [NextMac]%list) /\
    get d' "MAC Address" = Ok (PStr (colon_hex octets)) /\
    octets_of_colon_hex (colon_hex octets) = octets.
Proof.
  intros Hlen Hrow.
  exists (set (set d "MAC Address" (PStr (colon_hex octets))) "SNMP" (PBool true)).
  split; [| split].
  - unfold mac_address. rewrite Hrow. cbn [good errorIndication errorStatus varBinds].
    change (negb (0 =? 0)) with false. cbv iota.
    cbn [foldM snd]. rewrite (render_mac_colon_hex octets Hlen). reflexivity.
  - rewrite get_set_other by discriminate. apply get_set_same.
  - apply colon_hex_read_back.
Qed.

(** The octets AA BB CC 00 11 22 are stored as aa:bb:cc:00:11:22. *)
Lemma C9_witness :
  exists d',
    mac_address mac_only (seed true) = (Ok d', [NextMac]%list) /\
    get d' "MAC Address" = Ok (PStr "aa:bb:cc:00:11:22").
Proof.
  destruct (C9_mac_rendering mac_only (seed true) "IF-MIB::ifPhysAddress.1" sample_mac
              eq_refl eq_refl) as (d' & Hrun & Hmac & _).
  exists d'. split; [exact Hrun | exact Hmac].
Defined.

(** ** The interface dictionary *)

Local Open Scope list_scope.

Lemma if_get_None (ifs : IfDict) (k : Z) :
  if_get ifs k = None -> ~ In k (map fst ifs).
Proof.
  induction ifs as [| [k' r'] ifs IH]; simpl; [tauto |].
  destruct (k' =? k) eqn:E; [discriminate |].
  intros H [F | F]; [lia | now apply IH].
Qed.

Lemma if_get_app (ifs ifs' : IfDict) (k : Z) :
  if_get (ifs ++ ifs') k =
  match if_get ifs k with
  | Some r => Some r
  | None => if_get ifs' k
  end.
Proof.
  induction ifs as [| [k' r'] ifs IH]; simpl; [reflexivity |].
  now destruct (k' =? k).
Qed.

Lemma if_modify_keys (ifs : IfDict) (k : Z) (f : InterfaceRecord -> InterfaceRecord) :
  map fst (if_modify ifs k f) = map fst ifs.
Proof.
  induction ifs as [| [k' r'] ifs IH]; simpl; [reflexivity |].
  destruct (k' =? k); simpl; [reflexivity | now rewrite IH].
Qed.

Lemma if_get_modify (ifs : IfDict) (k k' : Z) (f : InterfaceRecord -> InterfaceRecord) :
  if_get (if_modify ifs k f) k' =
  if k =? k' then option_map f (if_get ifs k') else if_get ifs k'.
Proof.
  induction ifs as [| [k0 r0] ifs IH]; simpl.
  - now destruct (k =? k').
  - destruct (k0 =? k) eqn:E0; simpl.
    + assert (k0 = k) by lia. subst k0.
      destruct (k =? k') eqn:E; simpl; reflexivity.
    + destruct (k0 =? k') eqn:E1; simpl.
      * assert (k0 = k') by lia. subst k0.
        rewrite Z.eqb_sym in E0. now rewrite E0.
      * exact IH.
Qed.

Lemma if_get_open (ifs : IfDict) (k k' : Z) :
  if_get (open_interface ifs k) k' =
  match if_get ifs k' with
  | Some r => Some r
  | None => if k =? k' then Some (set_Index (Some k) interfaceDictTemplate) else None
  end.
Proof.
  unfold open_interface. destruct (if_get ifs k) as [r |] eqn:E.
  - destruct (if_get ifs k') as [r' |] eqn:E'; [reflexivity |].
    destruct (k =? k') eqn:Ek; [| reflexivity].
    assert (k = k') by lia. congruence.
  - rewrite if_get_app. simpl. now destruct (if_get ifs k').
Qed.

Lemma well_keyed_open (ifs : IfDict) (k : Z) :
  well_keyed ifs -> well_keyed (open_interface ifs k).
Proof.
  intros [Hnd Hidx]. split.
  - unfold open_interface. destruct (if_get ifs k) eqn:E; [exact Hnd |].
    rewrite map_app. simpl.
    apply NoDup_app; [exact Hnd | constructor; [simpl; tauto | constructor] |].
    intros x Hx [<- | []]. now apply (if_get_None ifs k).
  - intros k' r. rewrite if_get_open.
    destruct (if_get ifs k') as [r' |] eqn:E.
    + intros H. inversion H. subst. now apply Hidx.
    + destruct (k =? k') eqn:Ek; [| discriminate].
      intros H. inversion H. simpl. f_equal. lia.
Qed.

Lemma item_update_ok (ifs ifs' : IfDict) (key : option Z)
    (f : InterfaceRecord -> InterfaceRecord) :
  item_update ifs key f = Ok ifs' ->
  exists n r, key = Some n /\ if_get ifs n = Some r /\ ifs' = if_modify ifs n f.
Proof.
  unfold item_update, item. destruct key as [n |]; simpl; [| discriminate].
  destruct (if_get ifs n) as [r |] eqn:E; simpl; [| discriminate].
  intros H. inversion H. now exists n, r.
Qed.

Lemma records_for_unique (ifs : IfDict) (k : Z) (r : InterfaceRecord) :
  NoDup (map fst ifs) -> if_get ifs k = Some r -> records_for k ifs = [r]%list.
Proof.
  unfold records_for.
  induction ifs as [| [k' r'] ifs IH]; simpl; [discriminate |].
  intros Hnd. inversion Hnd as [| ? ? Hnotin Hnd']. subst.
  destruct (k' =? k) eqn:E; simpl.
  - intros H. inversion H. subst. f_equal.
    assert (k' = k) by lia. subst k'.
    clear -Hnotin. induction ifs as [| [k0 r0] ifs IH]; simpl; [reflexivity |].
    simpl in Hnotin. destruct (k0 =? k) eqn:E0.
    + exfalso. apply Hnotin. left. lia.
    + apply IH. tauto.
  - intros H. now apply IH.
Qed.

(** ** CIDR texts *)

Lemma netmask_of_prefix_ok (p : Z) :
  0 <= p <= 32 ->
  is_netmask (netmask_of_prefix p) = true /\
  network_prefixlen (Some (netmask_of_prefix p)) = Ok p.
Proof.
  intros Hp.
  assert (H : forallb
                (fun n : nat =>
                   is_netmask (netmask_of_prefix (Z.of_nat n)) &&
                   match network_prefixlen (Some (netmask_of_prefix (Z.of_nat n))) with
                   | Ok q => q =? Z.of_nat n
                   | Raise _ => false
                   end) (seq 0 33) = true) by (vm_compute; reflexivity).
  rewrite forallb_forall in H. specialize (H (Z.to_nat p)).
  rewrite Z2Nat.id in H by lia.
  assert (Hin : In (Z.to_nat p) (seq 0 33)) by (apply in_seq; lia).
  apply H in Hin. apply andb_true_iff in Hin. destruct Hin as [H1 H2].
  split; [exact H1 |].
  destruct (network_prefixlen (Some (netmask_of_prefix p))) as [q | e];
    [f_equal; lia | discriminate].
Qed.

Lemma item_update_found (ifs : IfDict) (n : Z) (r : InterfaceRecord)
    (f : InterfaceRecord -> InterfaceRecord) :
  if_get ifs n = Some r -> item_update ifs (Some n) f = Ok (if_modify ifs n f).
Proof. intros H. unfold item_update, item. now rewrite H. Qed.

Lemma if_get_open_same (ifs : IfDict) (k : Z) :
  exists r, if_get (open_interface ifs k) k = Some r.
Proof.
  rewrite if_get_open. destruct (if_get ifs k) as [r |]; [now exists r |].
  rewrite Z.eqb_refl. eauto.
Qed.

(** C4 (amended). A good reply of the logical walk that carries an interface
    index, an address whose bit pattern is not that of a netmask, and a
    netmask of [p] leading one bits appends exactly one text to the
    IP-address list: the dotted address, a slash, and [p]. *)
Theorem C4_cidr_appended
    (d : dict) (ifs : IfDict) (i : local) (l : list string)
    (n1 n2 n3 : string) (idx : Z) (a1 a2 a3 a4 m1 m2 m3 m4 : ascii) (p : Z) :
  get d "IP Addresses" = Ok (PList l) ->
  is_netmask (IPv4Address a1 a2 a3 a4) = false ->
  0 <= p <= 32 ->
  IPv4Address m1 m2 m3 m4 = netmask_of_prefix p ->
  exists d' ifs',
    logical_row (d, ifs, i)
      (good [(n1, Integer32 idx); (n2, IpAddress a1 a2 a3 a4);
             (n3, IpAddress m1 m2 m3 m4)])
    = Ok (d', ifs', Bound (Some idx)) /\
    get d' "IP Addresses"
    = Ok (PList (l ++ [(str_ip (IPv4Address a1 a2 a3 a4) ++ "/" ++ str_int p)%string])).
Proof.
  intros Hlist Haddr Hp Hmask.
  destruct (netmask_of_prefix_ok p Hp) as [Hism Hlen].
  destruct (if_get_open_same ifs idx) as [r0 Hr0].
  set (A := IPv4Address a1 a2 a3 a4) in *.
  set (ifs1 := open_interface ifs idx) in *.
  set (ifs2 := if_modify ifs1 idx (set_IP_Address (Some A))).
  set (ifs3 := if_modify ifs2 idx (set_Netmask (Some (netmask_of_prefix p)))).
  assert (H2 : if_get ifs2 idx = Some (set_IP_Address (Some A) r0)).
  { unfold ifs2. now rewrite if_get_modify, Z.eqb_refl, Hr0. }
  assert (H3 : if_get ifs3 idx
               = Some (set_Netmask (Some (netmask_of_prefix p))
                         (set_IP_Address (Some A) r0))).
  { unfold ifs3. now rewrite if_get_modify, Z.eqb_refl, H2. }
  exists (set d "IP Addresses"
            (PList (l ++ [(str_ip A ++ "/" ++ str_int p)%string]))), ifs3.
  split; [| apply get_set_same].
  unfold logical_row. cbn [good errorIndication errorStatus varBinds].
  change (negb (0 =? 0)) with false. cbv iota.
  cbn [foldM]. unfold logical_varBind at 1. cbn [snd rbind].
  unfold logical_varBind at 1. cbn [snd]. fold A. fold ifs1.
  rewrite Haddr. cbn [read rbind].
  rewrite (item_update_found ifs1 idx r0 _ Hr0). fold ifs2. cbn [rbind].
  unfold logical_varBind at 1. cbn [snd]. rewrite Hmask, Hism. cbn [read rbind].
  rewrite (item_update_found ifs2 idx _ _ H2). fold ifs3. cbn [rbind].
  rewrite Hlist. cbn [rbind append].
  unfold cidr. cbn [read rbind]. unfold item. rewrite H3. cbn [rbind].
  cbn [Netmask set_Netmask IP_Address set_IP_Address]. rewrite Hlen.
  reflexivity.
Qed.

(** Address 192.0.2.10 with mask 255.255.255.0 gives 192.0.2.10/24. *)
Lemma C4_witness :
  exists d' ifs',
    logical_row (seed true, [], Unbound) address_row = Ok (d', ifs', Bound (Some 2)) /\
    get d' "IP Addresses" = Ok (PList ["192.0.2.10/24"%string]).
Proof.
  apply (C4_cidr_appended (seed true) [] Unbound [] _ _ _ 2
           (oct 192) (oct 0) (oct 2) (oct 10) (oct 255) (oct 255) (oct 255) (oct 0) 24).
  - reflexivity.
  - reflexivity.
  - lia.
  - reflexivity.
Defined.

(** C4, as stated, fails. A row whose address is 0.0.0.0 has that address
    taken for a mask, and the text appended has no address; a row without a
    mask raises instead of giving the prefix length 0. *)
Lemma C4_counterexample :
  (exists d' ifs' i',
     logical_row (seed true, [], Unbound) unnumbered_row = Ok (d', ifs', i') /\
     get d' "IP Addresses" = Ok (PList ["None/24"%string])) /\
  logical_row (seed true, [], Unbound) address_row_no_mask = Raise ValueError.
Proof.
  split.
  - do 3 eexists. split; vm_compute; reflexivity.
  - vm_compute. reflexivity.
Qed.

(** ** One record per interface index: the two walks merge *)

Lemma last_write_app {A : Type} (field : Write -> option A) (idx : Z)
    (ws ws' : list (Z * Write)) :
  last_write field idx (ws ++ ws') =
  match last_write field idx ws' with
  | Some a => Some a
  | None => last_write field idx ws
  end.
Proof.
  induction ws as [| [k w] ws IH]; simpl.
  - now destruct (last_write field idx ws').
  - rewrite IH. now destruct (last_write field idx ws').
Qed.

Lemma last_write_none {A : Type} (field : Write -> option A) (idx : Z)
    (ws : list (Z * Write)) :
  (forall w, In (idx, w) ws -> field w = None) -> last_write field idx ws = None.
Proof.
  induction ws as [| [k w] ws IH]; simpl; [reflexivity |].
  intros H. rewrite IH by (intros w' Hw'; apply H; now right).
  destruct (Z.eqb_spec k idx) as [-> | _]; [| reflexivity].
  apply H. now left.
Qed.

Lemma record_of_other (idx k : Z) (ws : list (Z * Write)) (l : list Write) :
  k <> idx -> record_of idx (ws ++ map (pair k) l) = record_of idx ws.
Proof.
  intros Hk. unfold record_of.
  assert (H : forall A (field : Write -> option A),
            last_write field idx (ws ++ map (pair k) l) = last_write field idx ws).
  { intros A field. rewrite last_write_app, last_write_none; [reflexivity |].
    intros w Hw. apply in_map_iff in Hw. destruct Hw as (w' & Hw' & _).
    inversion Hw'. congruence. }
  now rewrite !H.
Qed.

Lemma record_of_written (idx : Z) (ws : list (Z * Write)) (w : Write) :
  record_of idx (ws ++ [(idx, w)]) =
  match w with
  | Described text => set_Description (Some text) (record_of idx ws)
  | Typed text => set_Type (Some text) (record_of idx ws)
  | Addressed address => set_IP_Address (Some address) (record_of idx ws)
  | Masked mask => set_Netmask (Some mask) (record_of idx ws)
  end.
Proof.
  unfold record_of. rewrite !last_write_app. cbn [last_write].
  rewrite Z.eqb_refl. now destruct w.
Qed.

Lemma holds_writes_keyed (ifs : IfDict) (seen : list Z) (ws : list (Z * Write)) :
  holds_writes ifs seen ws -> well_keyed ifs.
Proof.
  intros (Hnd & Hin & Hout & _). split; [exact Hnd |].
  intros k r Hr. destruct (in_dec Z.eq_dec k seen) as [Hk | Hk].
  - rewrite (Hin k Hk) in Hr. inversion Hr. reflexivity.
  - rewrite (Hout k Hk) in Hr. discriminate.
Qed.

(** Reading an index opens its record, once. *)
Lemma holds_writes_open (ifs : IfDict) (seen : list Z) (ws : list (Z * Write)) (n : Z) :
  holds_writes ifs seen ws -> holds_writes (open_interface ifs n) (seen ++ [n]) ws.
Proof.
  intros H. pose proof (holds_writes_keyed _ _ _ H) as Hwk.
  destruct H as (Hnd & Hin & Hout & Hws).
  split; [exact (proj1 (well_keyed_open ifs n Hwk)) |].
  split; [| split].
  - intros idx Hidx. rewrite if_get_open.
    destruct (in_dec Z.eq_dec idx seen) as [Hs | Hs]; [now rewrite (Hin idx Hs) |].
    rewrite (Hout idx Hs). apply in_app_or in Hidx.
    destruct Hidx as [Hidx | [<- | []]]; [contradiction |].
    rewrite Z.eqb_refl. f_equal. unfold record_of.
    rewrite !last_write_none; [reflexivity | | | |];
      intros w Hw; elim Hs; exact (Hws n w Hw).
  - intros idx Hidx. rewrite if_get_open.
    rewrite Hout by (intros Hs; apply Hidx, in_or_app; now left).
    destruct (Z.eqb_spec n idx) as [-> | _]; [| reflexivity].
    elim Hidx. apply in_or_app. right. now left.
  - intros k w Hw. apply in_or_app. left. exact (Hws k w Hw).
Qed.

(** A field written under a key goes to the record of that key and to no
    other. *)
Lemma holds_writes_update (ifs ifs' : IfDict) (seen : list Z) (ws : list (Z * Write))
    (key : option Z) (f : InterfaceRecord -> InterfaceRecord) (w : Write) :
  (forall idx, record_of idx (ws ++ [(idx, w)]) = f (record_of idx ws)) ->
  holds_writes ifs seen ws ->
  item_update ifs key f = Ok ifs' ->
  exists k, key = Some k /\ In k seen /\ holds_writes ifs' seen (ws ++ [(k, w)]).
Proof.
  intros Hf (Hnd & Hin & Hout & Hws) Hup.
  destruct (item_update_ok _ _ _ _ Hup) as (n & r & -> & Hr & ->).
  assert (Hn : In n seen).
  { destruct (in_dec Z.eq_dec n seen) as [Hn | Hn]; [exact Hn |].
    rewrite (Hout n Hn) in Hr. discriminate. }
  exists n. split; [reflexivity |]. split; [exact Hn |].
  split; [now rewrite if_modify_keys |]. split; [| split].
  - intros idx Hidx. rewrite if_get_modify, (Hin idx Hidx).
    destruct (Z.eqb_spec n idx) as [-> | Hne]; simpl.
    + now rewrite Hf.
    + f_equal. symmetry. exact (record_of_other idx n ws [w] Hne).
  - intros idx Hidx. rewrite if_get_modify, (Hout idx Hidx).
    now destruct (n =? idx).
  - intros k w' Hw'. apply in_app_or in Hw'.
    destruct Hw' as [Hw' | [Hw' | []]]; [exact (Hws k w' Hw') |].
    inversion Hw'. now subst.
Qed.

(** One binding of the physical walk. *)
Lemma physical_varBind_holds (prettyPrint : Z -> string)
    (ifs ifs' : IfDict) (cur cur' : option Z) (seen : list Z) (ws : list (Z * Write))
    (vb : string * SnmpValue) :
  holds_writes ifs seen ws ->
  (forall k, cur = Some k -> In k seen) ->
  physical_varBind prettyPrint (ifs, cur) vb = Ok (ifs', cur') ->
  cur' = physical_current cur vb /\
  holds_writes ifs' (seen ++ physical_index vb)
    (ws ++ match physical_current cur vb with
           | Some k => map (pair k) (physical_write prettyPrint vb)
           | None => []
           end) /\
  (forall k, cur' = Some k -> In k (seen ++ physical_index vb)).
Proof.
  intros Hh Hcur. destruct vb as [name value].
  unfold physical_varBind, physical_current, physical_index, physical_write.
  cbn [fst snd].
  assert (Hdescr : forall text idx,
            record_of idx (ws ++ [(idx, Described text)])
            = set_Description (Some text) (record_of idx ws))
    by (intros; apply record_of_written).
  destruct value as [n | s | o1 o2 o3 o4 | t];
    cbn [is_OctetString andb octet_length str_value app].
  - (* an integer: an index, a type, or neither *)
    destruct (contains "ifIndex" name) eqn:Eidx; cbn [rbind].
    + pose proof (holds_writes_open ifs seen ws n Hh) as Hopen.
      destruct (contains "ifType" name) eqn:Etype.
      * destruct (item_update (open_interface ifs n) (Some n)
                    (set_Type (Some (prettyPrint n)))) as [ifsC |] eqn:EC;
          cbn [rbind]; [| discriminate].
        intros H. inversion H. subst ifs' cur'. split; [reflexivity |].
        destruct (holds_writes_update _ _ _ _ _ _ (Typed (prettyPrint n))
                    (fun idx => record_of_written idx ws (Typed (prettyPrint n)))
                    Hopen EC) as (k & Hk & _ & Hc).
        inversion Hk. subst k. split; [exact Hc |].
        intros k Hk'. inversion Hk'. subst k. apply in_or_app. right. now left.
      * intros H. inversion H. subst ifs' cur'. split; [reflexivity |].
        cbn [map]. rewrite app_nil_r. split; [exact Hopen |].
        intros k Hk'. inversion Hk'. subst k. apply in_or_app. right. now left.
    + destruct (contains "ifType" name) eqn:Etype.
      * destruct (item_update ifs cur (set_Type (Some (prettyPrint n))))
          as [ifsC |] eqn:EC; cbn [rbind]; [| discriminate].
        intros H. inversion H. subst ifs' cur'. split; [reflexivity |].
        destruct (holds_writes_update _ _ _ _ _ _ (Typed (prettyPrint n))
                    (fun idx => record_of_written idx ws (Typed (prettyPrint n)))
                    Hh EC) as (k & -> & Hk & Hc).
        rewrite app_nil_r. split; [exact Hc |].
        intros k' Hk'. inversion Hk'. now subst k'.
      * intros H. inversion H. subst ifs' cur'. split; [reflexivity |].
        rewrite app_nil_r.
        split; [| exact Hcur].
        destruct cur; cbn [map]; now rewrite app_nil_r.
  - (* an octet string: a description when it is not empty *)
    rewrite app_nil_r.
    destruct (contains "ifDescr" name && (0 <? Z.of_nat (String.length s))) eqn:Ed.
    + destruct (item_update ifs cur (set_Description (Some s))) as [ifsB |] eqn:EB;
        cbn [rbind]; [| discriminate].
      intros H. inversion H. subst ifs' cur'. split; [reflexivity |].
      destruct (holds_writes_update _ _ _ _ _ _ (Described s) (Hdescr s) Hh EB)
        as (k & -> & Hk & Hc).
      rewrite app_nil_r. split; [exact Hc |].
      intros k' Hk'. inversion Hk'. now subst k'.
    + cbn [rbind]. intros H. inversion H. subst ifs' cur'. split; [reflexivity |].
      rewrite app_nil_r. split; [| exact Hcur].
      destruct cur; cbn [map]; now rewrite app_nil_r.
  - (* an address, which is an octet string of four octets *)
    rewrite app_nil_r.
    destruct (contains "ifDescr" name && (0 <? 4)) eqn:Ed.
    + destruct (item_update ifs cur
                  (set_Description
                     (Some (String o1 (String o2 (String o3 (String o4 ""))))))
               ) as [ifsB |] eqn:EB; cbn [rbind]; [| discriminate].
      intros H. inversion H. subst ifs' cur'. split; [reflexivity |].
      destruct (holds_writes_update _ _ _ _ _ _
                  (Described (String o1 (String o2 (String o3 (String o4 "")))))
                  (Hdescr _) Hh EB) as (k & -> & Hk & Hc).
      rewrite app_nil_r. split; [exact Hc |].
      intros k' Hk'. inversion Hk'. now subst k'.
    + cbn [rbind]. intros H. inversion H. subst ifs' cur'. split; [reflexivity |].
      rewrite app_nil_r. split; [| exact Hcur].
      destruct cur; cbn [map]; now rewrite app_nil_r.
  - cbn [rbind]. intros H. inversion H. subst ifs' cur'. split; [reflexivity |].
    rewrite app_nil_r. split; [| exact Hcur].
    destruct cur; cbn [map]; now rewrite app_nil_r.
Qed.

(** The bindings of one reply of the physical walk. *)
Lemma physical_bindings_hold (prettyPrint : Z -> string) (vbs : list (string * SnmpValue)) :
  forall (ifs ifs' : IfDict) (cur cur' : option Z) (seen : list Z) (ws : list (Z * Write)),
  holds_writes ifs seen ws ->
  (forall k, cur = Some k -> In k seen) ->
  foldM (physical_varBind prettyPrint) vbs (ifs, cur) = Ok (ifs', cur') ->
  holds_writes ifs' (seen ++ flat_map physical_index vbs)
    (ws ++ physical_bindings prettyPrint cur vbs) /\
  cur' = fold_left physical_current vbs cur /\
  (forall k, cur' = Some k -> In k (seen ++ flat_map physical_index vbs)).
Proof.
  induction vbs as [| vb vbs IH]; intros ifs ifs' cur cur' seen ws Hh Hcur;
    cbn [foldM flat_map physical_bindings fold_left].
  - intros H. inversion H. subst ifs' cur'. rewrite !app_nil_r.
    split; [exact Hh | split; [reflexivity | exact Hcur]].
  - destruct (physical_varBind prettyPrint (ifs, cur) vb) as [[ifs1 cur1] |] eqn:E1;
      cbn [rbind]; [| discriminate].
    intros H.
    destruct (physical_varBind_holds prettyPrint _ _ _ _ _ _ _ Hh Hcur E1)
      as (Hc1 & Hh1 & Hin1).
    destruct (IH _ _ _ _ _ _ Hh1 Hin1 H) as (Hh2 & Hc2 & Hin2).
    subst cur1. rewrite !app_assoc. split; [exact Hh2 | split; [exact Hc2 | exact Hin2]].
Qed.

(** One reply of the physical walk. *)
Lemma physical_row_holds (prettyPrint : Z -> string)
    (ifs ifs' : IfDict) (i i' : local) (seen : list Z) (ws : list (Z * Write))
    (r : Reply SnmpValue) :
  holds_writes ifs seen ws -> in_force i seen ->
  physical_row prettyPrint (ifs, i) r = Ok (ifs', i') ->
  holds_writes ifs' (seen ++ physical_indices r)
    (ws ++ (if is_good r then physical_bindings prettyPrint None (varBinds r) else [])) /\
  i' = (if is_good r then Bound (fold_left physical_current (varBinds r) None) else i) /\
  in_force i' (seen ++ physical_indices r).
Proof.
  intros Hh Hi. unfold physical_row, physical_indices, is_good. cbn [fst].
  assert (Hsame : Ok (ifs, i) = Ok (ifs', i') ->
            holds_writes ifs' (seen ++ []) (ws ++ []) /\ i' = i /\ in_force i' (seen ++ [])).
  { intros H. inversion H. subst ifs' i'. rewrite !app_nil_r. now split. }
  destruct (errorIndication r); [exact Hsame |].
  destruct (errorStatus r =? 0); cbn [negb].
  - destruct (foldM (physical_varBind prettyPrint) (varBinds r) (ifs, None))
      as [[ifsB n] |] eqn:E; cbn [rbind]; [| discriminate].
    intros H. inversion H. subst ifs' i'.
    destruct (physical_bindings_hold prettyPrint _ _ _ _ _ _ ws Hh
                (fun k (H0 : None = Some k) => match H0 with end) E)
      as (Hh' & Hn & Hin); [].
    split; [exact Hh' |]. split; [now rewrite Hn |].
    intros k Hk. inversion Hk. now apply Hin.
  - destruct (report_errorStatus r); cbn [rbind]; [exact Hsame | discriminate].
Qed.

(** The physical walk, reply after reply. *)
Lemma physical_rows_hold (prettyPrint : Z -> string) (rs : list (Reply SnmpValue)) :
  forall (ifs ifs' : IfDict) (i i' : local) (seen : list Z) (ws : list (Z * Write)),
  holds_writes ifs seen ws -> in_force i seen ->
  foldM (physical_row prettyPrint) rs (ifs, i) = Ok (ifs', i') ->
  holds_writes ifs' (seen ++ flat_map physical_indices rs)
    (ws ++ physical_writes prettyPrint rs) /\
  i' = fold_left (fun (intNumber : local) r =>
                    if is_good r
                    then Bound (fold_left physical_current (varBinds r) None)
                    else intNumber) rs i /\
  in_force i' (seen ++ flat_map physical_indices rs).
Proof.
  unfold physical_writes.
  induction rs as [| r rs IH]; intros ifs ifs' i i' seen ws Hh Hi;
    cbn [foldM flat_map fold_left].
  - intros H. inversion H. subst ifs' i'. rewrite !app_nil_r.
    split; [exact Hh | split; [reflexivity | exact Hi]].
  - destruct (physical_row prettyPrint (ifs, i) r) as [[ifs1 i1] |] eqn:E1;
      cbn [rbind]; [| discriminate].
    intros H.
    destruct (physical_row_holds prettyPrint _ _ _ _ _ _ _ Hh Hi E1) as (Hh1 & Hi1 & Hin1).
    destruct (IH _ _ _ _ _ _ Hh1 Hin1 H) as (Hh2 & Hi2 & Hin2).
    subst i1. rewrite !app_assoc. split; [exact Hh2 | split; [exact Hi2 | exact Hin2]].
Qed.

(** One binding of the logical walk. *)
Lemma logical_varBind_holds
    (ifs ifs' : IfDict) (i i' : local) (seen : list Z) (ws : list (Z * Write))
    (vb : string * SnmpValue) :
  holds_writes ifs seen ws -> in_force i seen ->
  logical_varBind (ifs, i) vb = Ok (ifs', i') ->
  i' = logical_current i vb /\
  holds_writes ifs' (seen ++ logical_index vb)
    (ws ++ match logical_current i vb with
           | Bound (Some k) => map (pair k) (logical_write vb)
           | _ => []
           end) /\
  in_force i' (seen ++ logical_index vb).
Proof.
  intros Hh Hi. destruct vb as [name value].
  unfold logical_varBind, logical_current, logical_index, logical_write. cbn [fst snd].
  assert (Hsame : Ok (ifs, i) = Ok (ifs', i') ->
            i' = i /\
            holds_writes ifs' (seen ++ [])
              (ws ++ match i with Bound (Some k) => map (pair k) [] | _ => [] end) /\
            in_force i' (seen ++ [])).
  { intros H. inversion H. subst ifs' i'. rewrite !app_nil_r.
    split; [reflexivity |]. split; [| exact Hi].
    destruct i as [| [k |]]; cbn [map]; now rewrite app_nil_r. }
  destruct value as [n | s | o1 o2 o3 o4 | t]; try exact Hsame.
  - intros H. inversion H. subst ifs' i'. split; [reflexivity |].
    cbn [map]. rewrite app_nil_r. split; [now apply holds_writes_open |].
    intros k Hk. inversion Hk. subst k. apply in_or_app. right. now left.
  - destruct i as [| key]; cbn [read rbind]; [discriminate |].
    set (a := IPv4Address o1 o2 o3 o4).
    destruct (item_update ifs key
                (if is_netmask a
                 then set_Netmask match key with Some _ => Some a | None => None end
                 else set_IP_Address match key with Some _ => Some a | None => None end))
      as [ifsB |] eqn:EB; cbn [rbind]; [| discriminate].
    intros H. inversion H. subst ifs' i'. split; [reflexivity |].
    destruct (item_update_ok _ _ _ _ EB) as (k & r & -> & _ & _).
    destruct (holds_writes_update ifs ifsB seen ws (Some k)
                (if is_netmask a then set_Netmask (Some a) else set_IP_Address (Some a))
                (if is_netmask a then Masked a else Addressed a)) as (k' & Hk' & Hin & Hc).
    { intros idx. rewrite record_of_written. now destruct (is_netmask a). }
    { exact Hh. }
    { exact EB. }
    inversion Hk'. subst k'. rewrite app_nil_r. cbn [map].
    split; [exact Hc |]. intros k' Hk''. inversion Hk''. now subst k'.
Qed.

(** The bindings of one reply of the logical walk. *)
Lemma logical_bindings_hold (vbs : list (string * SnmpValue)) :
  forall (ifs ifs' : IfDict) (i i' : local) (seen : list Z) (ws : list (Z * Write)),
  holds_writes ifs seen ws -> in_force i seen ->
  foldM logical_varBind vbs (ifs, i) = Ok (ifs', i') ->
  holds_writes ifs' (seen ++ flat_map logical_index vbs)
    (ws ++ logical_bindings i vbs) /\
  i' = fold_left logical_current vbs i /\
  in_force i' (seen ++ flat_map logical_index vbs).
Proof.
  induction vbs as [| vb vbs IH]; intros ifs ifs' i i' seen ws Hh Hi;
    cbn [foldM flat_map logical_bindings fold_left].
  - intros H. inversion H. subst ifs' i'. rewrite !app_nil_r.
    split; [exact Hh | split; [reflexivity | exact Hi]].
  - destruct (logical_varBind (ifs, i) vb) as [[ifs1 i1] |] eqn:E1;
      cbn [rbind]; [| discriminate].
    intros H.
    destruct (logical_varBind_holds _ _ _ _ _ _ _ Hh Hi E1) as (Hi1 & Hh1 & Hin1).
    destruct (IH _ _ _ _ _ _ Hh1 Hin1 H) as (Hh2 & Hi2 & Hin2).
    subst i1. rewrite !app_assoc. split; [exact Hh2 | split; [exact Hi2 | exact Hin2]].
Qed.

(** One reply of the logical walk. *)
Lemma logical_row_holds (d d' : dict)
    (ifs ifs' : IfDict) (i i' : local) (seen : list Z) (ws : list (Z * Write))
    (r : Reply SnmpValue) :
  holds_writes ifs seen ws -> in_force i seen ->
  logical_row (d, ifs, i) r = Ok (d', ifs', i') ->
  holds_writes ifs' (seen ++ logical_indices r)
    (ws ++ (if is_good r then logical_bindings i (varBinds r) else [])) /\
  i' = (if is_good r then fold_left logical_current (varBinds r) i else i) /\
  in_force i' (seen ++ logical_indices r).
Proof.
  intros Hh Hi. unfold logical_row, logical_indices, is_good.
  assert (Hsame : Ok (d, ifs, i) = Ok (d', ifs', i') ->
            holds_writes ifs' (seen ++ []) (ws ++ []) /\ i' = i /\ in_force i' (seen ++ [])).
  { intros H. inversion H. subst d' ifs' i'. rewrite !app_nil_r. now split. }
  destruct (errorIndication r); [exact Hsame |].
  destruct (errorStatus r =? 0); cbn [negb].
  - destruct (foldM logical_varBind (varBinds r) (ifs, i)) as [[ifsB iB] |] eqn:E;
      cbn [rbind]; [| discriminate].
    destruct (get d "IP Addresses") as [addresses |]; cbn [rbind]; [| discriminate].
    destruct (append addresses) as [push |]; cbn [rbind]; [| discriminate].
    destruct (cidr ifsB iB) as [text |]; cbn [rbind]; [| discriminate].
    intros H. inversion H. subst d' ifs' i'.
    exact (logical_bindings_hold _ _ _ _ _ _ _ Hh Hi E).
  - destruct (report_errorStatus r); cbn [rbind]; [exact Hsame | discriminate].
Qed.

(** The logical walk, reply after reply. *)
Lemma logical_rows_hold (rs : list (Reply SnmpValue)) :
  forall (d d' : dict) (ifs ifs' : IfDict) (i i' : local) (seen : list Z)
         (ws : list (Z * Write)),
  holds_writes ifs seen ws -> in_force i seen ->
  foldM logical_row rs (d, ifs, i) = Ok (d', ifs', i') ->
  holds_writes ifs' (seen ++ flat_map logical_indices rs) (ws ++ logical_writes i rs).
Proof.
  induction rs as [| r rs IH]; intros d d' ifs ifs' i i' seen ws Hh Hi;
    cbn [foldM flat_map logical_writes].
  - intros H. inversion H. subst d' ifs' i'. now rewrite !app_nil_r.
  - destruct (logical_row (d, ifs, i) r) as [[[d1 ifs1] i1] |] eqn:E1;
      cbn [rbind]; [| discriminate].
    intros H.
    destruct (logical_row_holds _ _ _ _ _ _ _ _ _ Hh Hi E1) as (Hh1 & Hi1 & Hin1).
    pose proof (IH _ _ _ _ _ _ _ _ Hh1 Hin1 H) as Hh2.
    subst i1. destruct (is_good r); rewrite ?app_nil_r in Hh2; rewrite ?app_assoc;
      exact Hh2.
Qed.

(** What the physical walk writes is a description or a type; what the
    logical walk writes is an address or a mask. *)
Lemma physical_writes_kind (prettyPrint : Z -> string) (rs : list (Reply SnmpValue))
    (k : Z) (w : Write) :
  In (k, w) (physical_writes prettyPrint rs) -> addressed w = None /\ masked w = None.
Proof.
  assert (Hb : forall vbs cur, In (k, w) (physical_bindings prettyPrint cur vbs) ->
                 addressed w = None /\ masked w = None).
  { induction vbs as [| vb vbs IH]; intros cur; cbn [physical_bindings]; [intros [] |].
    rewrite in_app_iff. intros [Hw | Hw]; [| exact (IH _ Hw)].
    destruct (physical_current cur vb) as [n |]; [| destruct Hw].
    apply in_map_iff in Hw. destruct Hw as (w' & Hw' & Hin). inversion Hw'. subst n w'.
    unfold physical_write in Hin. apply in_app_or in Hin.
    destruct Hin as [Hin | Hin].
    - destruct (_ && _); [| destruct Hin]. destruct Hin as [<- | []]. now split.
    - destruct (snd vb); try destruct Hin.
      destruct (contains "ifType" (fst vb)); [| destruct Hin].
      destruct Hin as [<- | []]. now split. }
  unfold physical_writes. rewrite in_flat_map. intros (r & _ & Hw).
  destruct (is_good r); [exact (Hb _ _ Hw) | destruct Hw].
Qed.

Lemma logical_writes_kind (rs : list (Reply SnmpValue)) :
  forall (i : local) (k : Z) (w : Write),
  In (k, w) (logical_writes i rs) -> described w = None /\ typed w = None.
Proof.
  assert (Hb : forall vbs i k w, In (k, w) (logical_bindings i vbs) ->
                 described w = None /\ typed w = None).
  { induction vbs as [| vb vbs IH]; intros i k w; cbn [logical_bindings]; [intros [] |].
    rewrite in_app_iff. intros [Hw | Hw]; [| exact (IH _ _ _ Hw)].
    destruct (logical_current i vb) as [| [n |]]; try destruct Hw.
    apply in_map_iff in Hw. destruct Hw as (w' & Hw' & Hin). inversion Hw'. subst n w'.
    unfold logical_write in Hin.
    destruct (snd vb) as [z | s | o1 o2 o3 o4 | t];
      [destruct Hin | destruct Hin | | destruct Hin].
    destruct Hin as [<- | []]. now destruct (is_netmask _). }
  induction rs as [| r rs IH]; intros i k w; cbn [logical_writes]; [intros [] |].
  destruct (is_good r); [| apply IH].
  rewrite in_app_iff. intros [Hw | Hw]; [exact (Hb _ _ _ _ Hw) | exact (IH _ _ _ Hw)].
Qed.

Lemma record_of_merged (prettyPrint : Z -> string) (physical logical : list (Reply SnmpValue))
    (i : local) (idx : Z) :
  record_of idx (physical_writes prettyPrint physical ++ logical_writes i logical)
  = merged_record idx (physical_writes prettyPrint physical) (logical_writes i logical).
Proof.
  unfold record_of, merged_record. rewrite !last_write_app.
  rewrite (last_write_none typed idx (logical_writes i logical))
    by (intros w Hw; exact (proj2 (logical_writes_kind _ _ _ _ Hw))).
  rewrite (last_write_none described idx (logical_writes i logical))
    by (intros w Hw; exact (proj1 (logical_writes_kind _ _ _ _ Hw))).
  rewrite (last_write_none addressed idx (physical_writes prettyPrint physical))
    by (intros w Hw; exact (proj1 (physical_writes_kind _ _ _ _ Hw))).
  rewrite (last_write_none masked idx (physical_writes prettyPrint physical))
    by (intros w Hw; exact (proj2 (physical_writes_kind _ _ _ _ Hw))).
  now destruct (last_write addressed idx (logical_writes i logical)),
              (last_write masked idx (logical_writes i logical)).
Qed.

(** The two walks in sequence, from the empty interface dictionary. *)
Lemma walks_hold_writes
    (prettyPrint : Z -> string) (agent : Agent) (B : Z) (d d2 : dict)
    (ifs1 ifs2 : IfDict) (i1 i2 : local) (log1 log2 : list Request) :
  physical_walk prettyPrint agent B ([], Unbound) = (Ok (ifs1, i1), log1) ->
  logical_walk agent B (d, ifs1, i1) = (Ok (d2, ifs2, i2), log2) ->
  holds_writes ifs1
    (flat_map physical_indices (replies (physicalWalk agent) (Z.to_nat B) 0))
    (physical_writes prettyPrint (replies (physicalWalk agent) (Z.to_nat B) 0)) /\
  holds_writes ifs2
    (flat_map physical_indices (replies (physicalWalk agent) (Z.to_nat B) 0) ++
     flat_map logical_indices (replies (logicalWalk agent) (Z.to_nat B) 0))
    (physical_writes prettyPrint (replies (physicalWalk agent) (Z.to_nat B) 0) ++
     logical_writes (physical_local (replies (physicalWalk agent) (Z.to_nat B) 0))
       (replies (logicalWalk agent) (Z.to_nat B) 0)).
Proof.
  intros Hphys Hlog. apply walk_ok in Hphys. apply walk_ok in Hlog.
  assert (H0 : holds_writes [] [] []).
  { split; [constructor |]. split; [intros idx [] |]. split; [reflexivity | intros k w []]. }
  assert (Hi0 : in_force Unbound []) by (intros k Hk; discriminate).
  destruct (physical_rows_hold prettyPrint _ _ _ _ _ _ _ H0 Hi0 Hphys) as (Hh1 & Hi1 & Hin1).
  cbn [app] in Hh1, Hin1.
  fold (physical_local (replies (physicalWalk agent) (Z.to_nat B) 0)) in Hi1.
  subst i1. split; [exact Hh1 |].
  exact (logical_rows_hold _ _ _ _ _ _ _ _ _ Hh1 Hin1 Hlog).
Qed.

Lemma records_for_absent (ifs : IfDict) (k : Z) :
  if_get ifs k = None -> records_for k ifs = [].
Proof.
  unfold records_for. induction ifs as [| [k' r] ifs IH]; simpl; [reflexivity |].
  destruct (k' =? k); [discriminate | exact IH].
Qed.

(** C5. When the two interface walks complete, the interface dictionary
    holds exactly one record for every index either walk observed and none
    for any other index, and no index is stored twice. The record of an
    index is the merge of what the walks contributed to it: the index, the
    description and the type the physical walk wrote for it last, the
    address and the mask the logical walk wrote for it last, and the other
    fields as in the template. What the physical walk put in a record
    (description, type) is still there after the logical walk has touched
    the same index. *)
Theorem C5_one_record_per_index
    (prettyPrint : Z -> string) (agent : Agent) (B : Z) (d d2 : dict)
    (ifs1 ifs2 : IfDict) (i1 i2 : local) (log1 log2 : list Request) :
  physical_walk prettyPrint agent B ([], Unbound) = (Ok (ifs1, i1), log1) ->
  logical_walk agent B (d, ifs1, i1) = (Ok (d2, ifs2, i2), log2) ->
  let physical := replies (physicalWalk agent) (Z.to_nat B) 0 in
  let logical := replies (logicalWalk agent) (Z.to_nat B) 0 in
  (forall idx,
     In idx (flat_map physical_indices physical) \/
     In idx (flat_map logical_indices logical) ->
     exists r, records_for idx ifs2 = [r] /\ Index r = Some idx /\
               r = merged_record idx (physical_writes prettyPrint physical)
                     (logical_writes (physical_local physical) logical)) /\
  (forall idx,
     ~ (In idx (flat_map physical_indices physical) \/
        In idx (flat_map logical_indices logical)) ->
     records_for idx ifs2 = []) /\
  (forall idx r1, if_get ifs1 idx = Some r1 ->
     exists r2, if_get ifs2 idx = Some r2 /\
                Index r2 = Index r1 /\ Description r2 = Description r1 /\
                Type_ r2 = Type_ r1) /\
  NoDup (map fst ifs2).
Proof.
  intros Hphys Hlog physical logical.
  destruct (walks_hold_writes _ _ _ _ _ _ _ _ _ _ _ Hphys Hlog)
    as ((_ & Hin1 & Hout1 & _) & (Hnd & Hin & Hout & _)).
  fold physical in Hin1, Hout1, Hin, Hout. fold logical in Hin, Hout.
  split; [| split; [| split; [| exact Hnd]]].
  - intros idx Hidx. eexists. split; [| split; [| reflexivity]]; [| reflexivity].
    rewrite <- record_of_merged. apply records_for_unique; [exact Hnd |].
    apply Hin, in_or_app. exact Hidx.
  - intros idx Hidx. apply records_for_absent, Hout.
    intros H. apply Hidx. now apply in_app_or.
  - intros idx r1 Hr1.
    destruct (in_dec Z.eq_dec idx (flat_map physical_indices physical)) as [Hs | Hs];
      [| rewrite (Hout1 idx Hs) in Hr1; discriminate].
    rewrite (Hin1 idx Hs) in Hr1. inversion Hr1. subst r1.
    exists (merged_record idx (physical_writes prettyPrint physical)
              (logical_writes (physical_local physical) logical)).
    split; [| now repeat split].
    rewrite <- record_of_merged. apply Hin, in_or_app. now left.
Qed.

(** A device with two rows in its interface table and two addresses, one of
    them on an interface the interface table did not list. Interface 2 is
    seen by both walks and has one record with the fields of both;
    interface 1 is seen by the physical walk only, interface 7 by the logical
    walk only; nothing is stored for interface 3. *)
Lemma C5_witness :
  exists ifs1 i1 log1 d2 ifs2 i2 log2,
    physical_walk str_int two_tables 8 ([], Unbound) = (Ok (ifs1, i1), log1) /\
    logical_walk two_tables 8 (seed true, ifs1, i1) = (Ok (d2, ifs2, i2), log2) /\
    records_for 1 ifs2
    = [mkInterface (Some 1) None None (Some "6"%string) None None None None
         (Some "lo"%string) false false] /\
    records_for 2 ifs2
    = [mkInterface (Some 2) None None (Some "6"%string) None None
         (Some 3221225994) (Some 4294967040) (Some "eth0"%string) false false] /\
    records_for 7 ifs2
    = [mkInterface (Some 7) None None None None None
         (Some 3325256705) (Some 4294967292) None false false] /\
    records_for 3 ifs2 = [] /\
    NoDup (map fst ifs2).
Proof.
  destruct (physical_walk str_int two_tables 8 ([], Unbound)) as [[[ifs1 i1] | e] log1] eqn:E1;
    [| vm_compute in E1; discriminate].
  destruct (logical_walk two_tables 8 (seed true, ifs1, i1))
    as [[[[d2 ifs2] i2] | e] log2] eqn:E2;
    [| vm_compute in E1; inversion E1; subst; vm_compute in E2; discriminate].
  destruct (C5_one_record_per_index str_int two_tables 8 (seed true) d2 ifs1 ifs2 i1 i2
              log1 log2 E1 E2) as (Hone & Hnone & _ & Hnd).
  exists ifs1, i1, log1, d2, ifs2, i2, log2.
  split; [reflexivity |]. split; [exact E2 |].
  split; [| split; [| split; [| split; [| exact Hnd]]]].
  - destruct (Hone 1) as (r & Hr & _ & ->); [left; vm_compute; tauto | exact Hr].
  - destruct (Hone 2) as (r & Hr & _ & ->); [left; vm_compute; tauto | exact Hr].
  - destruct (Hone 7) as (r & Hr & _ & ->); [right; vm_compute; tauto | exact Hr].
  - apply Hnone. vm_compute. intros [H | H]; repeat (destruct H as [H | H]; [discriminate |]);
      exact H.
Defined.

(** ** Where the code leaves what is claimed of it *)

Local Open Scope string_scope.
Local Open Scope Z_scope.

(** C1 (code defect). The manufacturer is Fortinet and the logical-entity
    description came back empty, so the comment is still absent when it is
    searched for the product name: a TypeError escapes [snmpAudit] right
    after the general request, and no record is returned. *)
Theorem C1_absent_comment_raises :
  snmpAudit str_int 256 fortigate_no_comment true dataDictTemplate ";" 256
  = (Raise TypeError, [GetGeneral]%list).
Proof. vm_compute. reflexivity. Qed.

(** A host that answers nothing does get its record: every field absent,
    the ping flag as given, the SNMP flag false. *)
Lemma snmpAudit_silent_host (cfg B : Z) (prettyPrint : Z -> string) (delim : string) :
  fst (snmpAudit prettyPrint cfg silent false dataDictTemplate delim B)
  = Ok (dataDictTemplate, []%list).
Proof.
  unfold snmpAudit, physical_walk, logical_walk. cbn.
  destruct (Z.to_nat B) as [| [| n]]; reflexivity.
Qed.

(** C2 (code defect). The interface table is read with success (its row
    is good and its description is stored), nothing else answers: the SNMP
    flag of the returned record is false. *)
Theorem C2_physical_walk_not_flagged :
  exists d ifs log,
    snmpAudit str_int 256 interfaces_only true dataDictTemplate ";" 256
      = (Ok (d, ifs), log) /\
    get d "SNMP" = Ok (PBool false) /\
    option_map is_good (physicalWalk interfaces_only 0%nat) = Some true /\
    option_map Description (if_get ifs 1) = Some (Some "eth0").
Proof.
  do 3 eexists. split; [vm_compute; reflexivity |].
  repeat split; vm_compute; reflexivity.
Qed.

(** C7 (code defect). The firmware text of the vendor reply is stored with
    its delimiter and its carriage return; the general step would have
    replaced both. *)
Theorem C7_vendor_text_not_sanitized :
  exists d ifs log,
    snmpAudit str_int 256 fortigate true dataDictTemplate ";" 256 = (Ok (d, ifs), log) /\
    get d "FW" = Ok (PStr vendor_firmware) /\
    contains ";" vendor_firmware = true /\
    contains CR vendor_firmware = true /\
    sanitize ";" (OctetString vendor_firmware) = "v7.0.1 build0157 ".
Proof.
  do 3 eexists. split; [vm_compute; reflexivity |].
  repeat split; vm_compute; reflexivity.
Qed.

(** C8 (code defect). After the general step the manufacturer is Fortinet
    and the firmware field contains FortiGate, but the comment is absent:
    the vendor step raises TypeError and sends no vendor request. *)
Theorem C8_absent_comment_no_vendor_fetch :
  exists d budget,
    general_info 256 fortigate_no_comment ";" 256 (seed true)
      = (Ok (d, budget), [GetGeneral]%list) /\
    get d "Manufacturer" = Ok (PStr "Fortinet") /\
    get d "FW" = Ok (PStr "FortiGate-60E v6.4.9") /\
    contains "FortiGate" "FortiGate-60E v6.4.9" = true /\
    get d "Comment" = Ok PNone /\
    vendor_info fortigate_no_comment d = (Raise TypeError, []%list).
Proof.
  do 2 eexists. split; [vm_compute; reflexivity |].
  repeat split; vm_compute; reflexivity.
Qed.

(** ** What the general step does to a text *)

Lemma contains_char_map (a : ascii) (f : ascii -> ascii) (s : string) :
  (forall x, Ascii.eqb a (f x) = false) ->
  contains (String a "") (map_chars f s) = false.
Proof.
  intros Hf. induction s as [| c s IH]; simpl.
  - reflexivity.
  - now rewrite Hf, IH.
Qed.

(** With a one-character delimiter other than the space, a sanitised text
    holds no line feed, no carriage return and no delimiter. *)
Lemma sanitize_clean (c : ascii) (v : SnmpValue) :
  c <> " "%char ->
  contains LF (sanitize (String c "") v) = false /\
  contains CR (sanitize (String c "") v) = false /\
  contains (String c "") (sanitize (String c "") v) = false.
Proof.
  intros Hc. unfold sanitize, LF, CR.
  set (x := replace (str_value v) _ " ").
  rewrite !(replace_char _ _ " "), !map_chars_compose.
  assert (Hsp : Ascii.eqb c " " = false) by now apply Ascii.eqb_neq.
  repeat split; apply contains_char_map; intros y.
  - destruct (Ascii.eqb (ascii_of_nat 10) y) eqn:E1.
    + change (Ascii.eqb (ascii_of_nat 13) " ") with false. cbv iota.
      rewrite Hsp. reflexivity.
    + destruct (Ascii.eqb (ascii_of_nat 13) y) eqn:E2.
      * rewrite Hsp. reflexivity.
      * destruct (Ascii.eqb c y); [reflexivity | exact E1].
  - destruct (Ascii.eqb (ascii_of_nat 10) y) eqn:E1.
    + change (Ascii.eqb (ascii_of_nat 13) " ") with false. cbv iota.
      rewrite Hsp. reflexivity.
    + destruct (Ascii.eqb (ascii_of_nat 13) y) eqn:E2.
      * rewrite Hsp. reflexivity.
      * destruct (Ascii.eqb c y); [reflexivity | exact E2].
  - destruct (Ascii.eqb (ascii_of_nat 10) y) eqn:E1.
    + change (Ascii.eqb (ascii_of_nat 13) " ") with false. cbv iota.
      rewrite Hsp. exact Hsp.
    + destruct (Ascii.eqb (ascii_of_nat 13) y) eqn:E2.
      * rewrite Hsp. exact Hsp.
      * destruct (Ascii.eqb c y) eqn:E3; [exact Hsp | exact E3].
Qed.

(** ** The vendor step when comment and firmware are texts *)

Lemma is_FortiGate_texts (d : dict) (m : value) (c f : string) :
  get d "Manufacturer" = Ok m ->
  get d "Comment" = Ok (PStr c) ->
  get d "FW" = Ok (PStr f) ->
  is_FortiGate d
  = Ok (eq_str m "Fortinet" && (contains "FortiGate" c || contains "FortiGate" f)).
Proof.
  intros Hm Hc Hf. unfold is_FortiGate. rewrite Hm. cbn [rbind].
  destruct (eq_str m "Fortinet"); [| reflexivity].
  rewrite Hc. cbn [rbind str_in].
  destruct (contains "FortiGate" c); [reflexivity |].
  rewrite Hf. reflexivity.
Qed.

(** No vendor request unless the manufacturer is Fortinet and one of the
    two texts names the product. *)
Lemma vendor_info_skipped (agent : Agent) (d : dict) (m : value) (c f : string) :
  get d "Manufacturer" = Ok m ->
  get d "Comment" = Ok (PStr c) ->
  get d "FW" = Ok (PStr f) ->
  eq_str m "Fortinet" && (contains "FortiGate" c || contains "FortiGate" f) = false ->
  vendor_info agent d = (Ok d, []%list).
Proof.
  intros Hm Hc Hf Hno. unfold vendor_info.
  rewrite (is_FortiGate_texts d m c f Hm Hc Hf), Hno. reflexivity.
Qed.

(** Otherwise exactly one vendor request, and each of the two fields is
    overwritten only by a non-empty returned text. *)
Lemma vendor_info_fetched (agent : Agent) (d : dict) (m : value) (c f : string)
    (n0 n1 : string) (v0 v1 : SnmpValue) (rest : list (string * SnmpValue)) :
  get d "Manufacturer" = Ok m ->
  get d "Comment" = Ok (PStr c) ->
  get d "FW" = Ok (PStr f) ->
  eq_str m "Fortinet" && (contains "FortiGate" c || contains "FortiGate" f) = true ->
  is_good (vendor agent) = true ->
  varBinds (vendor agent) = ((n0, v0) :: (n1, v1) :: rest)%list ->
  let fw := replace (str_value v0) LF " " in
  let sn := replace (str_value v1) LF " " in
  let d1 := if 0 <? Z.of_nat (String.length fw) then set d "FW" (PStr fw) else d in
  let d2 := if 0 <? Z.of_nat (String.length sn) then set d1 "S/N" (PStr sn) else d1 in
  vendor_info agent d = (Ok d2, [GetVendor]%list).
Proof.
  intros Hm Hc Hf Hyes Hgood Hvb fw sn d1 d2.
  destruct (is_good_true _ Hgood) as [Hind Hstat].
  assert (Hfill : refill (map (fun vb : string * SnmpValue =>
                                  replace (str_value (snd vb)) LF " ")
                               (varBinds (vendor agent))) d = Ok d2).
  { rewrite Hvb. unfold refill, keysDictionary. cbn [map foldM snd].
    fold fw. fold sn.
    set (values := (fw :: sn :: map _ rest)%list).
    assert (H0 : index values 0 = Ok fw)
      by (apply (index_nth values 0%nat fw); reflexivity).
    assert (H1 : index values 1 = Ok sn)
      by (apply (index_nth values 1%nat sn); reflexivity).
    rewrite H0. cbn [rbind]. fold d1. rewrite H1. reflexivity. }
  unfold vendor_info.
  rewrite (is_FortiGate_texts d m c f Hm Hc Hf), Hyes.
  unfold vendor_fetch. rewrite Hind, Hstat, Hfill. reflexivity.
Qed.

(** ** The SNMP flag of the returned record *)

Lemma refill_other (values : list string) (d d' : dict) (key : string) :
  key <> "FW" -> key <> "S/N" -> refill values d = Ok d' -> get d' key = get d key.
Proof.
  intros H1 H2. unfold refill, keysDictionary. cbn [foldM].
  destruct (index values 0) as [v0 |]; cbn [rbind]; [| discriminate].
  destruct (index values 1) as [v1 |]; cbn [rbind]; [| discriminate].
  intros H. inversion H. subst d'.
  destruct (0 <? Z.of_nat (String.length v1));
    [rewrite get_set_other by congruence |];
    (destruct (0 <? Z.of_nat (String.length v0));
     [rewrite get_set_other by congruence |]); reflexivity.
Qed.

Lemma vendor_info_other (agent : Agent) (d d' : dict) (log : list Request) (key : string) :
  key <> "FW" -> key <> "S/N" ->
  vendor_info agent d = (Ok d', log) -> get d' key = get d key.
Proof.
  intros H1 H2. unfold vendor_info.
  destruct (is_FortiGate d) as [[|] |]; cbn [lift bind]; try discriminate.
  - unfold vendor_fetch. cbn [send bind].
    destruct (errorIndication (vendor agent)).
    { cbn [ret]. intros H. now inversion H. }
    destruct (negb (errorStatus (vendor agent) =? 0)).
    { destruct (report_errorStatus (vendor agent)); cbn [lift bind ret];
        [| discriminate]. intros H. now inversion H. }
    destruct (refill _ d) as [d1 |] eqn:E; cbn [lift]; [| discriminate].
    intros H. inversion H. subst d'. eapply refill_other; eauto.
  - cbn [ret]. intros H. now inversion H.
Qed.

Lemma mac_fold_other (l : list (string * string)) (d d' : dict) (key : string) :
  key <> "MAC Address" ->
  foldM (fun d (varBind : string * string) =>
           mac <- render_mac (snd varBind) ;; Ok (set d "MAC Address" (PStr mac))) l d
  = Ok d' ->
  get d' key = get d key.
Proof.
  intros Hk. revert d. induction l as [| vb l IH]; intros d; cbn [foldM].
  - intros H. now inversion H.
  - destruct (render_mac (snd vb)) as [mac |]; cbn [rbind]; [| discriminate].
    intros H. rewrite (IH _ H). now apply get_set_other.
Qed.

Lemma mac_address_flag (agent : Agent) (d d' : dict) (log : list Request) (b : bool) :
  get d "SNMP" = Ok (PBool b) ->
  mac_address agent d = (Ok d', log) ->
  get d' "SNMP" = Ok (PBool (b || mac_good agent)) /\
  get d' "IP Addresses" = get d "IP Addresses".
Proof.
  intros Hb. unfold mac_address, mac_good, is_good. cbn [send bind].
  destruct (macWalk agent 0%nat) as [r |]; [| discriminate].
  destruct (errorIndication r).
  { cbn [ret]. intros H. inversion H. subst. now rewrite orb_false_r. }
  destruct (errorStatus r =? 0); cbn [negb].
  - destruct (foldM _ (varBinds r) d) as [d1 |] eqn:E; cbn [lift bind ret];
      [| discriminate].
    intros H. inversion H. subst d'. rewrite orb_true_r. split.
    + apply get_set_same.
    + rewrite get_set_other by discriminate.
      now apply (mac_fold_other (varBinds r) d).
  - destruct (report_errorStatus r); cbn [lift bind ret]; [| discriminate].
    intros H. inversion H. subst. now rewrite orb_false_r.
Qed.

Lemma logical_rows_addresses (rows : list (Reply SnmpValue))
    (d d' : dict) (ifs ifs' : IfDict) (i i' : local) (l : list string) :
  get d "IP Addresses" = Ok (PList l) ->
  foldM logical_row rows (d, ifs, i) = Ok (d', ifs', i') ->
  (exists l', get d' "IP Addresses" = Ok (PList (l ++ l')%list) /\
              List.length l' = List.length (filter is_good rows)) /\
  get d' "SNMP" = get d "SNMP".
Proof.
  revert d ifs i l. induction rows as [| r rows IH]; intros d ifs i l Hl; cbn [foldM].
  - intros H. inversion H. subst. split; [| reflexivity].
    exists []%list. now rewrite app_nil_r.
  - unfold logical_row at 1. cbn [filter].
    destruct (errorIndication r) eqn:Ei.
    { assert (Hg : is_good r = false) by (unfold is_good; now rewrite Ei).
      rewrite Hg. cbn [rbind]. intros H. apply (IH _ _ _ _ Hl H). }
    destruct (errorStatus r =? 0) eqn:Es; cbn [negb].
    + assert (Hg : is_good r = true) by (unfold is_good; now rewrite Ei).
      rewrite Hg.
      destruct (foldM logical_varBind (varBinds r) (ifs, i)) as [[ifs1 i1] |];
        cbn [rbind]; [| discriminate].
      rewrite Hl. cbn [rbind append].
      destruct (cidr ifs1 i1) as [text |]; cbn [rbind]; [| discriminate].
      intros H.
      destruct (IH _ _ _ (l ++ [text])%list (get_set_same _ _ _) H)
        as [(l' & Hl' & Hlen) Hflag].
      split.
      * exists (text :: l')%list. rewrite <- app_assoc in Hl'. split; [exact Hl' |].
        simpl. now rewrite Hlen.
      * rewrite Hflag. now apply get_set_other.
    + assert (Hg : is_good r = false) by (unfold is_good; now rewrite Ei).
      rewrite Hg.
      destruct (report_errorStatus r); cbn [rbind]; [| discriminate].
      intros H. apply (IH _ _ _ _ Hl H).
Qed.

Lemma general_info_flag (cfg : Z) (agent : Agent) (delim : string) (B : Z)
    (pingStatus : bool) (d : dict) (budget : Z) (log : list Request) :
  (List.length (varBinds (general agent)) <= 10)%nat ->
  general_info cfg agent delim B (seed pingStatus) = (Ok (d, budget), log) ->
  get d "SNMP" = Ok (PBool (is_good (general agent))) /\
  get d "IP Addresses" = Ok (PList []%list) /\
  budget = (if is_good (general agent) then cfg else B).
Proof.
  intros Hlen Hrun. destruct (is_good (general agent)) eqn:Hgood.
  - destruct (is_good_true _ Hgood) as [Hind Hstat].
    destruct (varBinds (general agent)) as [| vb vbs] eqn:Hvb.
    { unfold general_info in Hrun. rewrite Hind, Hstat, Hvb in Hrun.
      vm_compute in Hrun. discriminate. }
    assert (Hne : varBinds (general agent) <> []%list) by (rewrite Hvb; discriminate).
    pose proof (general_info_budget cfg agent delim B pingStatus d budget log
                  Hgood Hne Hrun) as Hb.
    rewrite (general_info_good cfg agent delim B (seed pingStatus) Hgood Hne) in Hrun.
    cbv zeta in Hrun.
    set (values := map _ (varBinds (general agent))) in Hrun.
    set (d1 := fill_spec _ values _) in Hrun.
    destruct (get d1 "Interfaces Count") as [count |]; [| discriminate].
    injection Hrun as Hd _ _. subst d.
    split; [apply get_set_same |]. split; [| exact Hb].
    rewrite get_set_other by discriminate. unfold d1.
    rewrite (get_fill_spec _ values _ 11%nat "IP Addresses"
               (template_keys_NoDup pingStatus) eq_refl).
    assert (Hnone : nth_error values 11 = None).
    { apply nth_error_None. unfold values. rewrite length_map, Hvb.
      apply (Nat.le_trans _ 10); [exact Hlen | repeat constructor]. }
    rewrite Hnone. reflexivity.
  - unfold general_info, is_good in *. cbn [send bind] in Hrun.
    destruct (errorIndication (general agent)).
    { cbn [ret] in Hrun. inversion Hrun. subst. repeat split. }
    rewrite Hgood in Hrun. cbn [negb] in Hrun.
    destruct (report_errorStatus (general agent)); cbn [lift bind ret] in Hrun;
      [| discriminate].
    inversion Hrun. subst. repeat split.
Qed.

(** The flag the record comes back with, when the general reply has no
    more values than were asked for: it is set exactly when the general
    reply is good, or the first reply of the MAC walk is good, or the
    logical walk read a good reply. The physical walk has no part in it. *)
Lemma snmp_flag_characterised
    (prettyPrint : Z -> string) (cfg : Z) (agent : Agent) (pingStatus : bool)
    (delim : string) (B : Z) (d : dict) (ifs : IfDict) (log : list Request) :
  (List.length (varBinds (general agent)) <= 10)%nat ->
  snmpAudit prettyPrint cfg agent pingStatus dataDictTemplate delim B = (Ok (d, ifs), log) ->
  get d "SNMP"
  = Ok (PBool (is_good (general agent) || mac_good agent ||
               negb (Nat.eqb (List.length
                                (logical_good_rows agent
                                   (if is_good (general agent) then cfg else B))) 0))).
Proof.
  intros Hlen Hrun. unfold snmpAudit in Hrun. fold (seed pingStatus) in Hrun.
  apply bind_ok in Hrun. destruct Hrun as ([d1 budget] & lg1 & lg1' & Hgen & Hrun & _).
  apply bind_ok in Hrun. destruct Hrun as (d2 & lg2 & lg2' & Hven & Hrun & _).
  apply bind_ok in Hrun. destruct Hrun as (d3 & lg3 & lg3' & Hmac & Hrun & _).
  apply bind_ok in Hrun. destruct Hrun as ([ifs1 i1] & lg4 & lg4' & Hphy & Hrun & _).
  apply bind_ok in Hrun.
  destruct Hrun as ([[d4 ifs2] i2] & lg5 & lg5' & Hlog & Hrun & _).
  apply bind_ok in Hrun. destruct Hrun as (d5 & lg6 & lg6' & Hfin & Hrun & _).
  apply lift_ok in Hfin. destruct Hfin as [Hfin _].
  unfold ret in Hrun. inversion Hrun. subst d5 ifs2.
  destruct (general_info_flag cfg agent delim B pingStatus d1 budget lg1 Hlen Hgen)
    as (Hf1 & Ha1 & Hb).
  assert (Hf2 : get d2 "SNMP" = Ok (PBool (is_good (general agent)))).
  { rewrite <- Hf1. eapply vendor_info_other; [| | exact Hven]; discriminate. }
  assert (Ha2 : get d2 "IP Addresses" = Ok (PList []%list)).
  { rewrite <- Ha1. eapply vendor_info_other; [| | exact Hven]; discriminate. }
  destruct (mac_address_flag agent d2 d3 lg3 _ Hf2 Hmac) as [Hf3 Ha3].
  rewrite Ha2 in Ha3.
  unfold logical_walk in Hlog. apply walk_ok in Hlog.
  destruct (logical_rows_addresses _ _ _ _ _ _ _ _ Ha3 Hlog) as [(l' & Ha4 & Hlen') Hf4].
  rewrite Hf3 in Hf4. subst budget. unfold logical_good_rows. rewrite <- Hlen'.
  unfold finalize in Hfin. rewrite Ha4 in Hfin. cbn [rbind len app] in Hfin.
  destruct l' as [| a l'].
  - cbn [List.length Z.of_nat Z.eqb] in Hfin. inversion Hfin. subst d.
    rewrite get_set_other by discriminate. rewrite Hf4.
    cbn [List.length Nat.eqb negb]. now rewrite orb_false_r.
  - assert (Hz : (Z.of_nat (List.length (a :: l')) =? 0) = false)
      by (apply Z.eqb_neq; cbn [List.length]; lia).
    rewrite Hz in Hfin. inversion Hfin. subst d.
    rewrite get_set_same. cbn [List.length Nat.eqb negb]. now rewrite orb_true_r.
Qed.

(** ** The requests of a whole scan *)

Lemma bind_snd {A B : Type} (m : M A) (f : A -> M B) :
  snd (bind m f)
  = (snd m ++ match fst m with
              | Ok a => snd (f a)
              | Raise _ => []
              end)%list.
Proof.
  destruct m as [[a | e] log]; simpl.
  - now destruct (f a).
  - now rewrite app_nil_r.
Qed.

Lemma general_info_log (cfg : Z) (agent : Agent) (delim : string) (B : Z) (d : dict) :
  snd (general_info cfg agent delim B d) = [GetGeneral]%list.
Proof.
  unfold general_info. rewrite bind_snd. cbn [send fst snd app].
  destruct (errorIndication (general agent)); [reflexivity |].
  destruct (negb (errorStatus (general agent) =? 0)).
  - rewrite bind_snd. cbn [lift fst snd app]. now destruct (report_errorStatus _).
  - rewrite bind_snd. cbn [lift fst snd app].
    destruct (fill _ _ 0 d) as [d1 |]; [| reflexivity].
    rewrite bind_snd. cbn [lift fst snd app]. now destruct (get d1 "Interfaces Count").
Qed.

Lemma vendor_info_log (agent : Agent) (d : dict) :
  snd (vendor_info agent d) = []%list \/ snd (vendor_info agent d) = [GetVendor]%list.
Proof.
  unfold vendor_info. rewrite bind_snd. cbn [lift fst snd app].
  destruct (is_FortiGate d) as [[|] |]; [right | now left | now left].
  unfold vendor_fetch. rewrite bind_snd. cbn [send fst snd app].
  destruct (errorIndication (vendor agent)); [reflexivity |].
  destruct (negb (errorStatus (vendor agent) =? 0)); [| reflexivity].
  rewrite bind_snd. cbn [lift fst snd app]. now destruct (report_errorStatus _).
Qed.

Lemma mac_address_log (agent : Agent) (d : dict) :
  snd (mac_address agent d) = [NextMac]%list.
Proof.
  unfold mac_address. rewrite bind_snd. cbn [send fst snd app].
  destruct (macWalk agent 0%nat) as [r |]; [| reflexivity].
  destruct (errorIndication r); [reflexivity |].
  destruct (negb (errorStatus r =? 0)).
  - rewrite bind_snd. cbn [lift fst snd app]. now destruct (report_errorStatus _).
  - rewrite bind_snd. cbn [lift fst snd app]. now destruct (foldM _ _ d).
Qed.

Lemma walk_log_only {V St : Type} (q : Request) (row : St -> Reply V -> result St)
    (g : Generator V) (remaining pos : nat) (st : St) (q' : Request) :
  Request_eqb q' q = false ->
  issued q' (snd (walk q row g remaining pos st)) = 0%nat.
Proof.
  intros Hq. revert pos st. induction remaining as [| n IH]; intros pos st; simpl.
  - reflexivity.
  - destruct (g pos) as [r |]; simpl.
    + destruct (row st r) as [st' | e]; simpl.
      * specialize (IH (S pos) st').
        destruct (walk q row g n (S pos) st') as [res log]. simpl in *.
        unfold issued in *. simpl. now rewrite Hq.
      * unfold issued. simpl. now rewrite Hq.
    + unfold issued. simpl. now rewrite Hq.
Qed.

Lemma general_info_budget_cases (cfg : Z) (agent : Agent) (delim : string) (B : Z)
    (pingStatus : bool) (d : dict) (budget : Z) :
  fst (general_info cfg agent delim B (seed pingStatus)) = Ok (d, budget) ->
  budget = B \/ budget = cfg.
Proof.
  destruct (general_info cfg agent delim B (seed pingStatus)) as [r log] eqn:E.
  simpl. intros ->.
  destruct (is_good (general agent)) eqn:Hgood.
  - right. destruct (is_good_true _ Hgood) as [Hind Hstat].
    destruct (varBinds (general agent)) as [| vb vbs] eqn:Hvb.
    { unfold general_info in E. rewrite Hind, Hstat, Hvb in E.
      vm_compute in E. discriminate. }
    eapply general_info_budget; [exact Hgood | | exact E]. rewrite Hvb. discriminate.
  - left. unfold general_info, is_good in *. cbn [send bind] in E.
    destruct (errorIndication (general agent)).
    { cbn [ret] in E. now inversion E. }
    rewrite Hgood in E. cbn [negb] in E.
    destruct (report_errorStatus (general agent)); cbn [lift bind ret] in E;
      [| discriminate].
    now inversion E.
Qed.

(** Rewrites with a fact [H : forall q, Request_eqb q q0 = false -> _ = 0]
    at every request it applies to. *)
Ltac no_requests H :=
  rewrite ?(H GetGeneral eq_refl), ?(H GetVendor eq_refl), ?(H NextMac eq_refl),
          ?(H NextPhysical eq_refl), ?(H NextLogical eq_refl).

(** In one scan from the template: one general request, at most one vendor
    request, one call of [next] on the MAC walk, and on each of the two
    interface walks no more calls than the larger of the budget passed in
    and the configured one. *)
Lemma snmpAudit_requests
    (prettyPrint : Z -> string) (cfg : Z) (agent : Agent) (pingStatus : bool)
    (delim : string) (B : Z) :
  let log := snd (snmpAudit prettyPrint cfg agent pingStatus dataDictTemplate delim B) in
  issued GetGeneral log = 1%nat /\
  (issued GetVendor log <= 1)%nat /\
  (issued NextMac log <= 1)%nat /\
  (issued NextPhysical log <= Z.to_nat (Z.max B cfg))%nat /\
  (issued NextLogical log <= Z.to_nat (Z.max B cfg))%nat.
Proof.
  intros log. subst log. unfold snmpAudit. fold (seed pingStatus).
  rewrite bind_snd, general_info_log.
  destruct (fst (general_info cfg agent delim B (seed pingStatus)))
    as [[d1 budget] |] eqn:Egen.
  2:{ cbn [issued filter Request_eqb List.length app]. repeat split; lia. }
  apply general_info_budget_cases in Egen.
  rewrite bind_snd.
  assert (Hv : forall q, Request_eqb q GetVendor = false ->
                         issued q (snd (vendor_info agent d1)) = 0%nat).
  { intros q Hq. destruct (vendor_info_log agent d1) as [-> | ->];
      [reflexivity | unfold issued; simpl; now rewrite Hq]. }
  assert (Hv1 : (issued GetVendor (snd (vendor_info agent d1)) <= 1)%nat).
  { destruct (vendor_info_log agent d1) as [-> | ->];
      cbn [issued filter Request_eqb List.length]; lia. }
  destruct (fst (vendor_info agent d1)) as [d2 |].
  2:{ rewrite app_nil_r, !issued_app. no_requests Hv.
      set (nv := issued GetVendor (snd (vendor_info agent d1))) in *.
      cbn [issued filter Request_eqb List.length app Nat.add]. repeat split; lia. }
  rewrite bind_snd, mac_address_log.
  destruct (fst (mac_address agent d2)) as [d3 |].
  2:{ rewrite app_nil_r, !issued_app. no_requests Hv.
      set (nv := issued GetVendor (snd (vendor_info agent d1))) in *.
      cbn [issued filter Request_eqb List.length app Nat.add]. repeat split; lia. }
  rewrite bind_snd. unfold physical_walk.
  set (wp := walk NextPhysical (physical_row prettyPrint) (physicalWalk agent)
               (Z.to_nat budget) 0 ([], Unbound)).
  pose proof (walk_log_budget NextPhysical (physical_row prettyPrint)
                (physicalWalk agent) (Z.to_nat budget) 0 ([], Unbound)) as Hpb.
  pose proof (walk_log_own NextPhysical (physical_row prettyPrint)
                (physicalWalk agent) (Z.to_nat budget) 0 ([], Unbound)) as Hpo.
  assert (Hp : forall q, Request_eqb q NextPhysical = false -> issued q (snd wp) = 0%nat).
  { intros q Hq. now apply walk_log_only. }
  fold wp in Hpb, Hpo.
  destruct (fst wp) as [[ifs1 i1] |].
  2:{ rewrite app_nil_r, !issued_app. no_requests Hv. no_requests Hp.
      set (nv := issued GetVendor (snd (vendor_info agent d1))) in *.
      set (np := issued NextPhysical (snd wp)) in *.
      cbn [issued filter Request_eqb List.length app Nat.add]. repeat split; lia. }
  rewrite bind_snd. unfold logical_walk.
  set (wl := walk NextLogical logical_row (logicalWalk agent)
               (Z.to_nat budget) 0 (d3, ifs1, i1)).
  pose proof (walk_log_budget NextLogical logical_row
                (logicalWalk agent) (Z.to_nat budget) 0 (d3, ifs1, i1)) as Hlb.
  pose proof (walk_log_own NextLogical logical_row
                (logicalWalk agent) (Z.to_nat budget) 0 (d3, ifs1, i1)) as Hlo.
  assert (Hl : forall q, Request_eqb q NextLogical = false -> issued q (snd wl) = 0%nat).
  { intros q Hq. now apply walk_log_only. }
  fold wl in Hlb, Hlo.
  destruct (fst wl) as [[[d4 ifs2] i2] |].
  - rewrite bind_snd. cbn [lift fst snd].
    assert (Hfin : match finalize d4 with
                   | Ok a => snd (ret (A := dict * IfDict) (a, ifs2))
                   | Raise _ => []
                   end = []%list) by now destruct (finalize d4).
    rewrite Hfin, !app_nil_r, !issued_app.
    no_requests Hv. no_requests Hp. no_requests Hl.
    set (nv := issued GetVendor (snd (vendor_info agent d1))) in *.
    set (np := issued NextPhysical (snd wp)) in *.
    set (nl := issued NextLogical (snd wl)) in *.
    cbn [issued filter Request_eqb List.length app Nat.add]. repeat split; lia.
  - rewrite !app_nil_r, !issued_app.
    no_requests Hv. no_requests Hp. no_requests Hl.
    set (nv := issued GetVendor (snd (vendor_info agent d1))) in *.
    set (np := issued NextPhysical (snd wp)) in *.
    set (nl := issued NextLogical (snd wl)) in *.
    cbn [issued filter Request_eqb List.length app Nat.add]. repeat split; lia.
Qed.

(** ** Texts: suffixes and joins *)

Lemma length_app (s t : string) :
  String.length (s ++ t) = (String.length s + String.length t)%nat.
Proof. induction s as [| c s IH]; simpl; [reflexivity | now rewrite IH]. Qed.

Lemma app_assoc_string (s t u : string) : (s ++ t) ++ u = s ++ t ++ u.
Proof. induction s as [| c s IH]; simpl; [reflexivity | now rewrite IH]. Qed.

Lemma drop_app (s t : string) : drop (String.length s) (s ++ t) = t.
Proof. induction s as [| c s IH]; simpl; [now destruct t | exact IH]. Qed.

Lemma take_app (s t : string) : take (String.length s) (s ++ t) = s.
Proof. induction s as [| c s IH]; simpl; [now destruct t | now rewrite IH]. Qed.

Lemma removesuffix_app (s t : string) : removesuffix (s ++ t) t = s.
Proof.
  unfold removesuffix, endswith. rewrite length_app.
  replace (String.length s + String.length t - String.length t)%nat
    with (String.length s) by lia.
  rewrite drop_app, take_app, String.eqb_refl.
  destruct (String.length t =? 0)%nat eqn:E; simpl.
  - apply Nat.eqb_eq in E. destruct t; [apply append_empty_r | discriminate].
  - assert (H : (String.length t <=? String.length s + String.length t)%nat = true)
      by (apply Nat.leb_le; lia).
    now rewrite H.
Qed.

Lemma removesuffix_empty (t : string) : removesuffix "" t = "".
Proof. unfold removesuffix. now destruct (_ && _). Qed.

Lemma accumulate_from (sep : string) (items : list string) (acc : string) :
  fold_left (fun acc item => acc ++ item ++ sep) items acc
  = acc ++ accumulate sep items.
Proof.
  unfold accumulate. revert acc. induction items as [| x l IH]; intros acc; simpl.
  - now rewrite append_empty_r.
  - rewrite IH, (IH (x ++ sep)). now rewrite !app_assoc_string.
Qed.

Lemma accumulate_cons (sep x : string) (l : list string) :
  accumulate sep (x :: l) = x ++ sep ++ accumulate sep l.
Proof.
  unfold accumulate at 1. simpl. rewrite accumulate_from.
  now rewrite app_assoc_string.
Qed.

Lemma accumulate_concat (sep x : string) (l : list string) :
  accumulate sep (x :: l) = String.concat sep (x :: l) ++ sep.
Proof.
  revert x. induction l as [| y l IH]; intros x.
  - rewrite accumulate_cons. unfold accumulate. cbn [fold_left String.concat].
    now rewrite append_empty_r.
  - rewrite accumulate_cons, IH.
    change (String.concat sep (x :: y :: l)) with (x ++ sep ++ String.concat sep (y :: l)).
    now rewrite !app_assoc_string.
Qed.

(** Appending the separator after every item and removing it once at the
    end is joining the items with the separator, whatever the separator. *)
Lemma removesuffix_accumulate (sep : string) (l : list string) :
  removesuffix (accumulate sep l) sep = String.concat sep l.
Proof.
  destruct l as [| x l].
  - apply removesuffix_empty.
  - rewrite accumulate_concat. apply removesuffix_app.
Qed.

(** ** The report *)

Section ReportFacts.

Variable str_list : list string -> string.

Lemma cells_from (emptyValue : string) (record : dict) (acc : list string) :
  foldM (fun acc (entry : string * value) =>
           v <- element_value str_list emptyValue (fst entry) (snd entry) ;;
           Ok (acc ++ [v])%list) record acc
  = (cs <- cells str_list emptyValue record ;; Ok (acc ++ cs)%list).
Proof.
  unfold cells. revert acc. induction record as [| [k v] record IH]; intros acc; simpl.
  - now rewrite app_nil_r.
  - destruct (element_value str_list emptyValue k v) as [t |]; simpl; [| reflexivity].
    rewrite IH, (IH [t]%list).
    destruct (foldM _ record []%list) as [cs |]; simpl; [| reflexivity].
    now rewrite <- app_assoc.
Qed.

Lemma row_loop (emptyValue sep : string) (record : dict) (acc : string) :
  foldM (fun acc (entry : string * value) =>
           elementValue <- element_value str_list emptyValue (fst entry) (snd entry) ;;
           Ok (acc ++ elementValue ++ sep)) record acc
  = (cs <- cells str_list emptyValue record ;; Ok (acc ++ accumulate sep cs)).
Proof.
  revert acc. induction record as [| [k v] record IH]; intros acc.
  - simpl. now rewrite append_empty_r.
  - unfold cells. cbn [foldM fst snd].
    destruct (element_value str_list emptyValue k v) as [t |]; cbn [rbind];
      [| reflexivity].
    rewrite IH. change ([]%list ++ [t])%list with [t]%list. rewrite cells_from.
    destruct (cells str_list emptyValue record) as [cs |]; cbn [rbind]; [| reflexivity].
    cbn [app]. rewrite accumulate_cons. now rewrite !app_assoc_string.
Qed.

End ReportFacts.

(** Every row of the report is the network, the host and the cells of the
    record joined by the delimiter and ended by a line feed: there is no
    delimiter after the last cell, and an empty delimiter is no exception. A
    cell that cannot be printed makes the row raise. *)
Lemma csv_row_join (str_list : list string -> string)
    (netAddress host : string) (record : dict) (csvDelimeter emptyValue : string) :
  csv_row str_list netAddress host record csvDelimeter emptyValue
  = (cs <- cells str_list emptyValue record ;;
     Ok (String.concat csvDelimeter (netAddress :: host :: cs) ++ LF)).
Proof.
  unfold csv_row. rewrite row_loop.
  destruct (cells str_list emptyValue record) as [cs |]; cbn [rbind]; [| reflexivity].
  f_equal. f_equal.
  rewrite <- (removesuffix_accumulate csvDelimeter (netAddress :: host :: cs)).
  f_equal. rewrite !accumulate_cons. cbn [append]. now rewrite !app_assoc_string.
Qed.

(** The cell of the address list is its addresses joined by a comma and a
    space; an absent list is printed as the empty-value text. *)
Theorem address_cell_is_join (str_list : list string -> string)
    (emptyValue : string) (addresses : list string) :
  element_value str_list emptyValue "IP Addresses" (PList addresses)
  = Ok (String.concat ", " addresses) /\
  element_value str_list emptyValue "IP Addresses" PNone = Ok emptyValue.
Proof.
  split; [| reflexivity].
  unfold element_value. cbn [String.eqb Ascii.eqb Bool.eqb andb iterate rbind].
  now rewrite removesuffix_accumulate.
Qed.

Lemma report_loop (str_list : list string -> string) (netAddress sep emptyValue : string)
    (hosts : list (string * dict)) (css : list (list string)) (acc : string) :
  Forall2 (fun (e : string * dict) cs => cells str_list emptyValue (snd e) = Ok cs)
          hosts css ->
  foldM (fun reportContent (entry : string * dict) =>
           csvRowData <- csv_row str_list netAddress (fst entry) (snd entry)
                           sep emptyValue ;;
           Ok (reportContent ++ csvRowData)) hosts acc
  = Ok (acc ++
        fold_right String.append ""
          (map (fun p : (string * dict) * list string =>
                  String.concat sep (netAddress :: fst (fst p) :: snd p) ++ LF)
               (combine hosts css))).
Proof.
  intros H. revert acc. induction H as [| e cs hosts css Hcs _ IH]; intros acc.
  - simpl. now rewrite append_empty_r.
  - cbn [foldM combine map fold_right fst snd].
    rewrite csv_row_join, Hcs. cbn [rbind]. rewrite IH.
    now rewrite !app_assoc_string.
Qed.

(** The report is the header row followed by one row per host, in the order
    of the hosts; the header is Network, Host and the keys of the template
    joined by the delimiter. *)
Theorem generateCSVReport_structure (str_list : list string -> string)
    (hosts : list (string * dict)) (css : list (list string))
    (netAddress : string) (entry : string * value) (entries : dict)
    (csvDelimeter emptyValue : string) :
  Forall2 (fun (e : string * dict) cs => cells str_list emptyValue (snd e) = Ok cs)
          hosts css ->
  generateCSVReport str_list (Some hosts) netAddress (Some (entry :: entries)%list)
    csvDelimeter emptyValue
  = Ok (String.concat csvDelimeter
          ("Network" :: "Host" :: keys (entry :: entries)%list) ++ LF ++
        fold_right String.append ""
          (map (fun p : (string * dict) * list string =>
                  String.concat csvDelimeter (netAddress :: fst (fst p) :: snd p) ++ LF)
               (combine hosts css))).
Proof.
  intros H. unfold generateCSVReport, csv_header.
  rewrite removesuffix_accumulate.
  rewrite (report_loop str_list netAddress csvDelimeter emptyValue hosts css _ H).
  cbn [append]. now rewrite !app_assoc_string.
Qed.

(** One host that did not answer, template as header. *)
Lemma generateCSVReport_structure_witness :
  generateCSVReport (fun _ => "") (Some [("192.0.2.1", unreached false)]%list)
    "192.0.2.0/30" (Some dataDictTemplate) ";" "N/A"
  = Ok ("Network;Host;Sysname;Manufacturer;Model;FW;S/N;Location;Description;Contact;Comment;Interfaces Count;MAC Address;IP Addresses;PING;SNMP"
        ++ LF ++
        "192.0.2.0/30;192.0.2.1;N/A;N/A;N/A;N/A;N/A;N/A;N/A;N/A;N/A;N/A;N/A;N/A;False;False"
        ++ LF).
Proof.
  apply (generateCSVReport_structure (fun _ => "") [("192.0.2.1", unreached false)]%list
           [["N/A"; "N/A"; "N/A"; "N/A"; "N/A"; "N/A"; "N/A"; "N/A"; "N/A"; "N/A";
             "N/A"; "N/A"; "False"; "False"]]%list
           "192.0.2.0/30" ("Sysname", PNone) (tl dataDictTemplate) ";" "N/A").
  constructor; [reflexivity | constructor].
Defined.

(** ** Columns *)

Lemma count_char_app (c : ascii) (s t : string) :
  count_char c (s ++ t) = (count_char c s + count_char c t)%nat.
Proof. induction s as [| x s IH]; simpl; [reflexivity | rewrite IH; lia]. Qed.

Lemma count_char_concat (c : ascii) (x : string) (l : list string) :
  Forall (fun t => count_char c t = 0%nat) (x :: l)%list ->
  count_char c (String.concat (String c "") (x :: l)) = List.length l.
Proof.
  revert x. induction l as [| y l IH]; intros x H.
  - simpl. now inversion H.
  - change (String.concat (String c "") (x :: y :: l))
      with (x ++ String c "" ++ String.concat (String c "") (y :: l)).
    inversion H as [| ? ? Hx Hrest]. subst.
    rewrite !count_char_app, Hx, (IH y Hrest). simpl.
    rewrite Ascii.eqb_refl. reflexivity.
Qed.

Lemma cells_ok (str_list : list string -> string) (emptyValue : string)
    (record : dict) (cs : list string) :
  cells str_list emptyValue record = Ok cs ->
  Forall2 (fun (e : string * value) t =>
             element_value str_list emptyValue (fst e) (snd e) = Ok t) record cs.
Proof.
  revert cs. induction record as [| [k v] record IH]; intros cs.
  - unfold cells. simpl. intros H. inversion H. constructor.
  - unfold cells. cbn [foldM fst snd].
    destruct (element_value str_list emptyValue k v) as [t |] eqn:E; cbn [rbind];
      [| discriminate].
    change ([]%list ++ [t])%list with [t]%list. rewrite cells_from.
    destruct (cells str_list emptyValue record) as [cs' |]; cbn [rbind]; [| discriminate].
    intros H. inversion H. subst cs. constructor; [exact E | now apply IH].
Qed.

(** With a one-character delimiter that occurs in no name and in no cell, a
    row of a record that has as many entries as the template holds exactly as
    many delimiters as the header row: the columns line up. *)
Theorem csv_columns_line_up (str_list : list string -> string)
    (netAddress host : string) (record template : dict)
    (c : ascii) (emptyValue row : string) :
  csv_row str_list netAddress host record (String c "") emptyValue = Ok row ->
  List.length record = List.length template ->
  template <> []%list ->
  count_char c LF = 0%nat ->
  count_char c "Network" = 0%nat -> count_char c "Host" = 0%nat ->
  count_char c netAddress = 0%nat -> count_char c host = 0%nat ->
  Forall (fun key => count_char c key = 0%nat) (keys template) ->
  (forall k v t, In (k, v) record ->
     element_value str_list emptyValue k v = Ok t -> count_char c t = 0%nat) ->
  count_char c row = count_char c (csv_header (Some template) (String c "")) /\
  count_char c row = S (List.length template).
Proof.
  intros Hrow Hlen Hne HLF Hn Hh Hnet Hhost Hkeys Hcells.
  rewrite csv_row_join in Hrow.
  destruct (cells str_list emptyValue record) as [cs |] eqn:Ecs; cbn [rbind] in Hrow;
    [| discriminate].
  assert (Hr : String.concat (String c "") (netAddress :: host :: cs) ++ LF = row)
    by congruence.
  clear Hrow. subst row.
  apply cells_ok in Ecs.
  assert (Hclean : Forall (fun t => count_char c t = 0%nat) cs).
  { clear -Ecs Hcells. induction Ecs as [| [k v] t record cs Ht _ IH]; constructor.
    - apply (Hcells k v t); [now left | exact Ht].
    - apply IH. intros k' v' t' Hin. apply Hcells. now right. }
  assert (Hcs : List.length cs = List.length record).
  { clear -Ecs. induction Ecs; simpl; congruence. }
  assert (Hrowcount : count_char c (String.concat (String c "") (netAddress :: host :: cs)
                                    ++ LF) = S (List.length template)).
  { rewrite count_char_app, HLF, count_char_concat by (repeat constructor; assumption).
    simpl. rewrite Hcs, Hlen. lia. }
  split; [| exact Hrowcount]. rewrite Hrowcount.
  unfold csv_header. destruct template as [| e es]; [congruence |].
  rewrite removesuffix_accumulate, count_char_app, HLF.
  rewrite count_char_concat
    by (constructor; [exact Hn | constructor; [exact Hh | exact Hkeys]]).
  unfold keys. cbn [List.length]. rewrite length_map. cbn [List.length]. lia.
Qed.

Lemma csv_columns_line_up_witness :
  exists row,
    csv_row (fun _ => "") "192.0.2.0/30" "192.0.2.1" (unreached true) ";" "N/A" = Ok row /\
    count_char ";" row = 15%nat.
Proof.
  exists ("192.0.2.0/30;192.0.2.1;N/A;N/A;N/A;N/A;N/A;N/A;N/A;N/A;N/A;N/A;N/A;N/A;True;False"
          ++ LF).
  split; [reflexivity |].
  refine (proj2 (csv_columns_line_up (fun _ => "") "192.0.2.0/30" "192.0.2.1"
                   (unreached true) dataDictTemplate ";" "N/A" _
                   eq_refl eq_refl _ eq_refl eq_refl eq_refl eq_refl eq_refl _ _)).
  - discriminate.
  - unfold keys. simpl. repeat constructor.
  - intros k v t Hin Ht. simpl in Hin.
    repeat (destruct Hin as [Hin | Hin];
            [inversion Hin; subst k v; inversion Ht; reflexivity |]).
    destruct Hin.
Defined.

(** ** A host that only gives error indications *)

Lemma walk_idle {V St : Type} (q : Request) (row : St -> Reply V -> result St)
    (g : Generator V) (st : St) (remaining pos : nat) :
  (forall k r, g k = Some r -> row st r = Ok st) ->
  fst (walk q row g remaining pos st) = Ok st.
Proof.
  intros Hrow. revert pos. induction remaining as [| n IH]; intros pos; simpl.
  - reflexivity.
  - destruct (g pos) as [r |] eqn:Hg; simpl; [| reflexivity].
    rewrite (Hrow pos r Hg). simpl.
    specialize (IH (S pos)). now destruct (walk q row g n (S pos) st).
Qed.

Lemma snmpAudit_idle
    (prettyPrint : Z -> string) (cfg : Z) (agent : Agent) (pingStatus : bool)
    (delim : string) (B : Z) :
  only_indications agent ->
  fst (snmpAudit prettyPrint cfg agent pingStatus dataDictTemplate delim B)
  = Ok (unreached pingStatus, []%list).
Proof.
  intros (Hgen & (r0 & Hmac & Hmac') & Hphys & Hlog).
  unfold snmpAudit. fold (seed pingStatus).
  assert (H1 : general_info cfg agent delim B (seed pingStatus)
               = (Ok (seed pingStatus, B), [GetGeneral]%list)).
  { unfold general_info. destruct (errorIndication (general agent)); [| congruence].
    reflexivity. }
  rewrite H1. cbn [bind].
  assert (H2 : vendor_info agent (seed pingStatus) = (Ok (seed pingStatus), []%list))
    by reflexivity.
  rewrite H2. cbn [bind].
  assert (H3 : mac_address agent (seed pingStatus)
               = (Ok (seed pingStatus), [NextMac]%list)).
  { unfold mac_address. rewrite Hmac. destruct (errorIndication r0); [| congruence].
    reflexivity. }
  rewrite H3. cbn [bind].
  pose proof (walk_idle NextPhysical (physical_row prettyPrint) (physicalWalk agent)
                ([]%list, Unbound) (Z.to_nat B) 0) as Hp.
  unfold physical_walk.
  destruct (walk NextPhysical (physical_row prettyPrint) (physicalWalk agent)
              (Z.to_nat B) 0 ([]%list, Unbound)) as [rp logp].
  cbn [fst] in Hp. rewrite Hp.
  2:{ intros k r Hk. unfold physical_row. specialize (Hphys k r Hk).
      now destruct (errorIndication r). }
  cbn [bind].
  pose proof (walk_idle NextLogical logical_row (logicalWalk agent)
                (seed pingStatus, ([]%list : IfDict), Unbound) (Z.to_nat B) 0) as Hl.
  unfold logical_walk.
  destruct (walk NextLogical logical_row (logicalWalk agent) (Z.to_nat B) 0
              (seed pingStatus, ([]%list : IfDict), Unbound)) as [rl logl].
  cbn [fst] in Hl. rewrite Hl.
  2:{ intros k r Hk. unfold logical_row. specialize (Hlog k r Hk).
      now destruct (errorIndication r). }
  reflexivity.
Qed.

(** When every reply of the device is an error indication (a timeout, say),
    the scan returns the record it started from, whatever the budget: every
    field absent, the address list absent, the ping flag as given, the SNMP
    flag false; and the interface dictionary is empty. *)
Theorem snmpAudit_only_indications
    (prettyPrint : Z -> string) (cfg : Z) (agent : Agent) (pingStatus : bool)
    (delim : string) (B : Z) :
  only_indications agent ->
  fst (snmpAudit prettyPrint cfg agent pingStatus dataDictTemplate delim B)
  = Ok (unreached pingStatus, []%list).
Proof.
  exact (snmpAudit_idle prettyPrint cfg agent pingStatus delim B).
Qed.

Lemma snmpAudit_only_indications_witness :
  fst (snmpAudit str_int 256 silent true dataDictTemplate ";" 256)
  = Ok (unreached true, []%list).
Proof.
  apply (snmpAudit_only_indications str_int 256 silent true ";" 256).
  split; [discriminate |]. split; [| split].
  - exists timed_out. split; [reflexivity | discriminate].
  - intros k r Hk. destruct k as [| k]; simpl in Hk;
      [inversion Hk; discriminate | destruct k; discriminate].
  - intros k r Hk. destruct k as [| k]; simpl in Hk;
      [inversion Hk; discriminate | destruct k; discriminate].
Defined.

(** A host that gave only error indications is printed as a row in which
    every field is the empty-value text and both flags are their Python
    names. *)
Theorem unanswered_host_row (str_list : list string -> string)
    (prettyPrint : Z -> string) (cfg : Z) (agent : Agent) (pingStatus : bool)
    (B : Z) (netAddress host delim emptyValue : string) :
  only_indications agent ->
  exists d ifs,
    fst (snmpAudit prettyPrint cfg agent pingStatus dataDictTemplate delim B)
      = Ok (d, ifs) /\
    csv_row str_list netAddress host d delim emptyValue
    = Ok (String.concat delim
            (netAddress :: host ::
             repeat emptyValue 12 ++
             [if pingStatus then "True" else "False"; "False"])%list ++ LF).
Proof.
  intros H. exists (unreached pingStatus), []%list.
  split; [now apply snmpAudit_idle |].
  rewrite csv_row_join. now destruct pingStatus.
Qed.

Lemma unanswered_host_row_witness :
  exists d ifs,
    fst (snmpAudit str_int 256 silent false dataDictTemplate ";" 256) = Ok (d, ifs) /\
    csv_row (fun _ => "") "192.0.2.0/30" "192.0.2.1" d ";" "N/A"
    = Ok ("192.0.2.0/30;192.0.2.1;N/A;N/A;N/A;N/A;N/A;N/A;N/A;N/A;N/A;N/A;N/A;N/A;False;False"
          ++ LF).
Proof.
  apply (unanswered_host_row (fun _ => "") str_int 256 silent false 256
           "192.0.2.0/30" "192.0.2.1" ";" "N/A").
  split; [discriminate |]. split; [| split].
  - exists timed_out. split; [reflexivity | discriminate].
  - intros k r Hk. destruct k as [| k]; simpl in Hk;
      [inversion Hk; discriminate | destruct k; discriminate].
  - intros k r Hk. destruct k as [| k]; simpl in Hk;
      [inversion Hk; discriminate | destruct k; discriminate].
Defined.

(** ** The steps of a scan that returned *)

Lemma snmpAudit_steps
    (prettyPrint : Z -> string) (cfg : Z) (agent : Agent) (pingStatus : bool)
    (delim : string) (B : Z) (d : dict) (ifs : IfDict) (log : list Request) :
  snmpAudit prettyPrint cfg agent pingStatus dataDictTemplate delim B = (Ok (d, ifs), log) ->
  exists d1 budget d2 d3 ifs1 i1 d4 i2 lg1 lg2 lg3 lg4 lg5,
    general_info cfg agent delim B (seed pingStatus) = (Ok (d1, budget), lg1) /\
    vendor_info agent d1 = (Ok d2, lg2) /\
    mac_address agent d2 = (Ok d3, lg3) /\
    physical_walk prettyPrint agent budget ([]%list, Unbound) = (Ok (ifs1, i1), lg4) /\
    logical_walk agent budget (d3, ifs1, i1) = (Ok (d4, ifs, i2), lg5) /\
    finalize d4 = Ok d.
Proof.
  intros Hrun. unfold snmpAudit in Hrun. fold (seed pingStatus) in Hrun.
  apply bind_ok in Hrun. destruct Hrun as ([d1 budget] & lg1 & lg1' & Hgen & Hrun & _).
  apply bind_ok in Hrun. destruct Hrun as (d2 & lg2 & lg2' & Hven & Hrun & _).
  apply bind_ok in Hrun. destruct Hrun as (d3 & lg3 & lg3' & Hmac & Hrun & _).
  apply bind_ok in Hrun. destruct Hrun as ([ifs1 i1] & lg4 & lg4' & Hphy & Hrun & _).
  apply bind_ok in Hrun.
  destruct Hrun as ([[d4 ifs2] i2] & lg5 & lg5' & Hlog & Hrun & _).
  apply bind_ok in Hrun. destruct Hrun as (d5 & lg6 & lg6' & Hfin & Hrun & _).
  apply lift_ok in Hfin. destruct Hfin as [Hfin _].
  unfold ret in Hrun. inversion Hrun. subst d5 ifs2.
  exists d1, budget, d2, d3, ifs1, i1, d4, i2, lg1, lg2, lg3, lg4, lg5.
  repeat split; assumption.
Qed.

(** The budget of the two interface walks after the general step: the
    configured one when the general reply was good, the one passed in
    otherwise; never the interface count the device declared. *)
Theorem walk_budget_after_general_step
    (cfg : Z) (agent : Agent) (delim : string) (B : Z) (pingStatus : bool)
    (d : dict) (budget : Z) (log : list Request) :
  general_info cfg agent delim B (seed pingStatus) = (Ok (d, budget), log) ->
  budget = (if is_good (general agent) then cfg else B).
Proof.
  intros Hrun. destruct (is_good (general agent)) eqn:Hgood.
  - destruct (is_good_true _ Hgood) as [Hind Hstat].
    destruct (varBinds (general agent)) as [| vb vbs] eqn:Hvb.
    { unfold general_info in Hrun. rewrite Hind, Hstat, Hvb in Hrun.
      vm_compute in Hrun. discriminate. }
    eapply general_info_budget; [exact Hgood | | exact Hrun]. rewrite Hvb. discriminate.
  - unfold general_info, is_good in *. cbn [send bind] in Hrun.
    destruct (errorIndication (general agent)).
    { cbn [ret] in Hrun. now inversion Hrun. }
    rewrite Hgood in Hrun. cbn [negb] in Hrun.
    destruct (report_errorStatus (general agent)); cbn [lift bind ret] in Hrun;
      [| discriminate].
    now inversion Hrun.
Qed.

Lemma walk_budget_after_general_step_witness :
  exists d,
    general_info 256 four_ports ";" 64 (seed true) = (Ok (d, 256), [GetGeneral]%list).
Proof.
  destruct (general_info 256 four_ports ";" 64 (seed true)) as [[[d budget] | e] log] eqn:E;
    [| vm_compute in E; discriminate].
  pose proof (walk_budget_after_general_step 256 four_ports ";" 64 true d budget log E)
    as Hb.
  exists d. vm_compute in Hb. subst budget.
  vm_compute in E. inversion E. reflexivity.
Defined.

(** A good general reply without any value makes the scan raise IndexError,
    whatever dictionary it was given: the positional loop reads the first
    value before it looks at the number of values. *)
Theorem snmpAudit_empty_reply_raises
    (prettyPrint : Z -> string) (cfg : Z) (agent : Agent) (pingStatus : bool)
    (dataDict : dict) (delim : string) (B : Z) :
  is_good (general agent) = true ->
  varBinds (general agent) = []%list ->
  snmpAudit prettyPrint cfg agent pingStatus dataDict delim B
  = (Raise IndexError, [GetGeneral]%list).
Proof.
  intros Hgood Hvb. destruct (is_good_true _ Hgood) as [Hind Hstat].
  unfold snmpAudit, general_info. rewrite Hind, Hstat, Hvb.
  cbn [negb Z.eqb map].
  set (d0 := set (set dataDict "IP Addresses" (PList [])) "PING" (PBool pingStatus)).
  assert (Hk : exists key rest, keys d0 = (key :: rest)%list).
  { unfold d0. destruct (set dataDict "IP Addresses" (PList [])) as [| [k v] l] eqn:E.
    - destruct dataDict as [| [k v] l]; simpl in E; [discriminate |].
      destruct (String.eqb k "IP Addresses"); discriminate.
    - simpl. destruct (String.eqb k "PING"); simpl; eauto. }
  destruct Hk as (key & rest & ->). reflexivity.
Qed.

Lemma snmpAudit_empty_reply_raises_witness :
  snmpAudit str_int 256
    (mkAgent (good []%list) timed_out (gen_of_list []%list) (gen_of_list []%list)
             (gen_of_list []%list))
    true dataDictTemplate ";" 256
  = (Raise IndexError, [GetGeneral]%list).
Proof.
  apply snmpAudit_empty_reply_raises; reflexivity.
Defined.

(** A first physical address that is not six octets long makes the MAC step
    raise ValueError: the record is not returned. *)
Theorem mac_address_wrong_length (agent : Agent) (d : dict) (r : Reply string) :
  macWalk agent 0%nat = Some r ->
  is_good r = true ->
  Exists (fun vb : string * string => String.length (snd vb) <> 6%nat) (varBinds r) ->
  mac_address agent d = (Raise ValueError, [NextMac]%list).
Proof.
  intros Hmac Hgood Hbad. destruct (is_good_true _ Hgood) as [Hind Hstat].
  unfold mac_address. rewrite Hmac, Hind, Hstat. cbn [negb Z.eqb].
  assert (Hfold : foldM (fun d (varBind : string * string) =>
                           mac <- render_mac (snd varBind) ;;
                           Ok (set d "MAC Address" (PStr mac))) (varBinds r) d
                  = Raise ValueError).
  { clear -Hbad. revert d. induction (varBinds r) as [| vb l IH]; intros d.
    - inversion Hbad.
    - cbn [foldM]. unfold render_mac at 1, str_MAC.
      destruct (String.length (snd vb) =? 6)%nat eqn:E; cbn [rbind].
      + apply IH. inversion Hbad as [? ? Hvb | ? ? Hl]; subst; [| exact Hl].
        apply Nat.eqb_eq in E. contradiction.
      + reflexivity. }
  rewrite Hfold. reflexivity.
Qed.

Lemma mac_address_wrong_length_witness :
  mac_address
    (mkAgent timed_out timed_out
             (gen_of_list [good [("IF-MIB::ifPhysAddress.1", "")]]%list)
             (gen_of_list []%list) (gen_of_list []%list))
    (seed true)
  = (Raise ValueError, [NextMac]%list).
Proof.
  eapply mac_address_wrong_length.
  - reflexivity.
  - reflexivity.
  - left. discriminate.
Defined.

(** ** The address list and the ping flag of the returned record *)

(** The address list of the returned record has one entry per good reply the
    logical walk read; when there was none the list is absent, never empty. *)
Theorem address_list_counts_good_rows
    (prettyPrint : Z -> string) (cfg : Z) (agent : Agent) (pingStatus : bool)
    (delim : string) (B : Z) (d : dict) (ifs : IfDict) (log : list Request) :
  (List.length (varBinds (general agent)) <= 10)%nat ->
  snmpAudit prettyPrint cfg agent pingStatus dataDictTemplate delim B = (Ok (d, ifs), log) ->
  let rows := logical_good_rows agent (if is_good (general agent) then cfg else B) in
  match rows with
  | [] => get d "IP Addresses" = Ok PNone
  | _ :: _ =>
      exists l, get d "IP Addresses" = Ok (PList l) /\
                List.length l = List.length rows /\ l <> []
  end%list.
Proof.
  intros Hlen Hrun rows.
  destruct (snmpAudit_steps _ _ _ _ _ _ _ _ _ Hrun)
    as (d1 & budget & d2 & d3 & ifs1 & i1 & d4 & i2 & lg1 & lg2 & lg3 & lg4 & lg5 &
        Hgen & Hven & Hmac & Hphy & Hlog & Hfin).
  destruct (general_info_flag cfg agent delim B pingStatus d1 budget lg1 Hlen Hgen)
    as (Hf1 & Ha1 & Hb).
  assert (Hf2 : get d2 "SNMP" = Ok (PBool (is_good (general agent)))).
  { rewrite <- Hf1. eapply vendor_info_other; [| | exact Hven]; discriminate. }
  assert (Ha2 : get d2 "IP Addresses" = Ok (PList []%list)).
  { rewrite <- Ha1. eapply vendor_info_other; [| | exact Hven]; discriminate. }
  destruct (mac_address_flag agent d2 d3 lg3 _ Hf2 Hmac) as [_ Ha3].
  rewrite Ha2 in Ha3.
  unfold logical_walk in Hlog. apply walk_ok in Hlog.
  destruct (logical_rows_addresses _ _ _ _ _ _ _ _ Ha3 Hlog) as [(l' & Ha4 & Hlen') _].
  subst budget. fold (logical_good_rows agent (if is_good (general agent) then cfg else B))
    in Hlen'. fold rows in Hlen'.
  unfold finalize in Hfin. rewrite Ha4 in Hfin. cbn [rbind len app] in Hfin.
  destruct l' as [| a l'].
  - destruct rows; [| discriminate].
    cbn [List.length Z.of_nat Z.eqb] in Hfin. inversion Hfin. apply get_set_same.
  - destruct rows as [| r rows']; [discriminate |].
    assert (Hz : (Z.of_nat (List.length (a :: l')) =? 0) = false)
      by (apply Z.eqb_neq; cbn [List.length]; lia).
    rewrite Hz in Hfin. inversion Hfin. subst d.
    exists (a :: l')%list. split; [| split; [exact Hlen' | discriminate]].
    rewrite get_set_other by discriminate. exact Ha4.
Qed.

Lemma address_list_counts_good_rows_witness :
  exists d l,
    fst (snmpAudit str_int 256 two_tables true dataDictTemplate ";" 256) = Ok (d, l) /\
    exists a, get d "IP Addresses" = Ok (PList a) /\ List.length a = 2%nat.
Proof.
  destruct (snmpAudit str_int 256 two_tables true dataDictTemplate ";" 256)
    as [[[d ifs] | e] log] eqn:E; [| vm_compute in E; discriminate].
  pose proof (address_list_counts_good_rows str_int 256 two_tables true ";" 256 d ifs log)
    as H.
  exists d, ifs. split; [reflexivity |].
  assert (Hlen : (List.length (varBinds (general two_tables)) <= 10)%nat)
    by (simpl; lia).
  specialize (H Hlen E). vm_compute in H.
  destruct H as (a & Ha & Hl & _). exists a. split; [| exact Hl].
  vm_compute. exact Ha.
Defined.

Lemma mac_address_other (agent : Agent) (d d' : dict) (log : list Request) (key : string) :
  key <> "MAC Address" -> key <> "SNMP" ->
  mac_address agent d = (Ok d', log) -> get d' key = get d key.
Proof.
  intros H1 H2. unfold mac_address. cbn [send bind].
  destruct (macWalk agent 0%nat) as [r |]; [| discriminate].
  destruct (errorIndication r).
  { cbn [ret]. intros H. now inversion H. }
  destruct (negb (errorStatus r =? 0)).
  - destruct (report_errorStatus r); cbn [lift bind ret]; [| discriminate].
    intros H. now inversion H.
  - destruct (foldM _ (varBinds r) d) as [d1 |] eqn:E; cbn [lift bind ret];
      [| discriminate].
    intros H. inversion H. subst d'.
    rewrite get_set_other by congruence.
    now apply (mac_fold_other (varBinds r) d).
Qed.

Lemma logical_rows_other (rows : list (Reply SnmpValue))
    (d d' : dict) (ifs ifs' : IfDict) (i i' : local) (key : string) :
  key <> "IP Addresses" ->
  foldM logical_row rows (d, ifs, i) = Ok (d', ifs', i') ->
  get d' key = get d key.
Proof.
  intros Hk. revert d ifs i. induction rows as [| r rows IH]; intros d ifs i; cbn [foldM].
  - intros H. now inversion H.
  - unfold logical_row at 1.
    destruct (errorIndication r).
    { cbn [rbind]. apply IH. }
    destruct (negb (errorStatus r =? 0)).
    + destruct (report_errorStatus r); cbn [rbind]; [| discriminate]. apply IH.
    + destruct (foldM logical_varBind (varBinds r) (ifs, i)) as [[ifs1 i1] |];
        cbn [rbind]; [| discriminate].
      destruct (get d "IP Addresses") as [addresses |]; cbn [rbind]; [| discriminate].
      destruct (append addresses) as [push |]; cbn [rbind]; [| discriminate].
      destruct (cidr ifs1 i1) as [text |]; cbn [rbind]; [| discriminate].
      intros H. rewrite (IH _ _ _ H). apply get_set_other. congruence.
Qed.

(** The ping flag of the returned record is the one the caller passed in:
    no step of the scan writes it (for a general reply of at most ten
    values). *)
Theorem ping_flag_kept
    (prettyPrint : Z -> string) (cfg : Z) (agent : Agent) (pingStatus : bool)
    (delim : string) (B : Z) (d : dict) (ifs : IfDict) (log : list Request) :
  (List.length (varBinds (general agent)) <= 10)%nat ->
  snmpAudit prettyPrint cfg agent pingStatus dataDictTemplate delim B = (Ok (d, ifs), log) ->
  get d "PING" = Ok (PBool pingStatus).
Proof.
  intros Hlen Hrun.
  destruct (snmpAudit_steps _ _ _ _ _ _ _ _ _ Hrun)
    as (d1 & budget & d2 & d3 & ifs1 & i1 & d4 & i2 & lg1 & lg2 & lg3 & lg4 & lg5 &
        Hgen & Hven & Hmac & Hphy & Hlog & Hfin).
  assert (H1 : get d1 "PING" = Ok (PBool pingStatus)).
  { destruct (is_good (general agent)) eqn:Hgood.
    - destruct (is_good_true _ Hgood) as [Hind Hstat].
      destruct (varBinds (general agent)) as [| vb vbs] eqn:Hvb.
      { unfold general_info in Hgen. rewrite Hind, Hstat, Hvb in Hgen.
        vm_compute in Hgen. discriminate. }
      assert (Hne : varBinds (general agent) <> []%list) by (rewrite Hvb; discriminate).
      rewrite (general_info_good cfg agent delim B (seed pingStatus) Hgood Hne) in Hgen.
      cbv zeta in Hgen.
      set (values := map _ (varBinds (general agent))) in Hgen.
      set (dd := fill_spec _ values _) in Hgen.
      destruct (get dd "Interfaces Count") as [count |]; [| discriminate].
      injection Hgen as Hd _ _. subst d1.
      rewrite get_set_other by discriminate. unfold dd.
      rewrite (get_fill_spec _ values _ 12%nat "PING"
                 (template_keys_NoDup pingStatus) eq_refl).
      assert (Hnone : nth_error values 12 = None).
      { apply nth_error_None. unfold values. rewrite length_map, Hvb.
        apply (Nat.le_trans _ 10); [exact Hlen | repeat constructor]. }
      rewrite Hnone. reflexivity.
    - unfold general_info, is_good in *. cbn [send bind] in Hgen.
      destruct (errorIndication (general agent)).
      { cbn [ret] in Hgen. inversion Hgen. subst. reflexivity. }
      rewrite Hgood in Hgen. cbn [negb] in Hgen.
      destruct (report_errorStatus (general agent)); cbn [lift bind ret] in Hgen;
        [| discriminate].
      inversion Hgen. subst. reflexivity. }
  assert (H2 : get d2 "PING" = Ok (PBool pingStatus)).
  { rewrite <- H1. eapply vendor_info_other; [| | exact Hven]; discriminate. }
  assert (H3 : get d3 "PING" = Ok (PBool pingStatus)).
  { rewrite <- H2. eapply mac_address_other; [| | exact Hmac]; discriminate. }
  unfold logical_walk in Hlog. apply walk_ok in Hlog.
  assert (H4 : get d4 "PING" = Ok (PBool pingStatus)).
  { rewrite <- H3. eapply logical_rows_other; [| exact Hlog]. discriminate. }
  unfold finalize in Hfin.
  destruct (get d4 "IP Addresses") as [a |]; cbn [rbind] in Hfin; [| discriminate].
  destruct (len a) as [n |]; cbn [rbind] in Hfin; [| discriminate].
  destruct (n =? 0); inversion Hfin; subst d;
    rewrite get_set_other by discriminate; exact H4.
Qed.

Lemma ping_flag_kept_witness :
  exists d ifs,
    fst (snmpAudit str_int 256 four_ports true dataDictTemplate ";" 256) = Ok (d, ifs) /\
    get d "PING" = Ok (PBool true).
Proof.
  destruct (snmpAudit str_int 256 four_ports true dataDictTemplate ";" 256)
    as [[[d ifs] | e] log] eqn:E; [| vm_compute in E; discriminate].
  exists d, ifs. split; [reflexivity |].
  apply (ping_flag_kept str_int 256 four_ports true ";" 256 d ifs log); [| exact E].
  simpl. lia.
Defined.

(** ** What is classified as a netmask has a prefix length *)

Lemma land_pred_pow2 (n : Z) :
  0 < n -> Z.land n (n - 1) = 0 -> n = 2 ^ Z.log2 n.
Proof.
  intros Hpos Hland.
  destruct (Z.log2_spec n Hpos) as [Hlo Hhi].
  destruct (Z.eq_dec n (2 ^ Z.log2 n)) as [| Hne]; [assumption | exfalso].
  assert (Hlog : Z.log2 (n - 1) = Z.log2 n).
  { apply Z.log2_unique; [apply Z.log2_nonneg | lia]. }
  assert (Hb1 : Z.testbit n (Z.log2 n) = true) by now apply Z.bit_log2.
  assert (Hb2 : Z.testbit (n - 1) (Z.log2 n) = true).
  { rewrite <- Hlog. apply Z.bit_log2.
    pose proof (Z.pow_pos_nonneg 2 (Z.log2 n) ltac:(lia) (Z.log2_nonneg n)). lia. }
  assert (Hb : Z.testbit (Z.land n (n - 1)) (Z.log2 n) = true)
    by now rewrite Z.land_spec, Hb1, Hb2.
  rewrite Hland, Z.bits_0 in Hb. discriminate.
Qed.

Lemma lxor_all_ones_bounds (a : Z) :
  0 <= a < 2 ^ 32 -> 0 <= Z.lxor a ALL_ONES < 2 ^ 32.
Proof.
  intros Ha. assert (H0 : 0 <= Z.lxor a ALL_ONES).
  { apply Z.lxor_nonneg. unfold ALL_ONES. split; intros _; lia. }
  split; [exact H0 |].
  destruct (Z.eq_dec (Z.lxor a ALL_ONES) 0) as [-> | Hne]; [reflexivity |].
  apply Z.log2_lt_pow2; [lia |].
  pose proof (Z.log2_lxor a ALL_ONES ltac:(lia) ltac:(unfold ALL_ONES; lia)) as Hl.
  assert (Hla : Z.log2 a < 32).
  { destruct (Z.eq_dec a 0) as [-> | Hz]; [reflexivity |].
    apply Z.log2_lt_pow2; lia. }
  change (Z.log2 ALL_ONES) with 31 in Hl. lia.
Qed.

Lemma is_netmask_shape (a : Z) :
  0 <= a < 2 ^ 32 -> is_netmask a = true ->
  exists p, 0 <= p <= 32 /\ a = netmask_of_prefix p.
Proof.
  intros Ha Hm. unfold is_netmask in Hm. cbv zeta in Hm. apply Z.eqb_eq in Hm.
  pose proof (lxor_all_ones_bounds a Ha) as Hb.
  set (m := Z.lxor a ALL_ONES) in *.
  pose proof (land_pred_pow2 (m + 1) ltac:(lia) Hm) as Hpow.
  set (k := Z.log2 (m + 1)) in *.
  assert (Hk0 : 0 <= k) by apply Z.log2_nonneg.
  assert (Hk32 : k <= 32).
  { change 32 with (Z.log2 (2 ^ 32)). apply Z.log2_le_mono. lia. }
  assert (Hinv : a = Z.lxor (Z.ones k) ALL_ONES).
  { rewrite Z.ones_equiv, <- Hpow. replace (Z.pred (m + 1)) with m by lia.
    unfold m. now rewrite Z.lxor_assoc, Z.lxor_nilpotent, Z.lxor_0_r. }
  exists (32 - k). split; [lia |]. rewrite Hinv.
  assert (Hall : forallb (fun n : nat =>
                            Z.lxor (Z.ones (Z.of_nat n)) ALL_ONES
                            =? netmask_of_prefix (32 - Z.of_nat n)) (seq 0 33) = true)
    by (vm_compute; reflexivity).
  rewrite forallb_forall in Hall. specialize (Hall (Z.to_nat k)).
  rewrite Z2Nat.id in Hall by lia. apply Z.eqb_eq, Hall, in_seq. lia.
Qed.

Lemma IPv4Address_bounds (o1 o2 o3 o4 : ascii) :
  0 <= IPv4Address o1 o2 o3 o4 < 2 ^ 32.
Proof.
  unfold IPv4Address.
  assert (Hb : forall c, 0 <= Z.of_nat (nat_of_ascii c) < 256).
  { intros c. pose proof (nat_ascii_bounded c). lia. }
  assert (Hlor : forall x y, 0 <= x < 2 ^ 32 -> 0 <= y < 2 ^ 32 ->
                             0 <= Z.lor x y < 2 ^ 32).
  { intros x y Hx Hy. assert (H0 : 0 <= Z.lor x y) by (apply Z.lor_nonneg; lia).
    split; [exact H0 |].
    destruct (Z.eq_dec (Z.lor x y) 0) as [-> | Hne]; [reflexivity |].
    apply Z.log2_lt_pow2; [lia |]. rewrite Z.log2_lor by lia.
    assert (Hlx : Z.log2 x < 32).
    { destruct (Z.eq_dec x 0) as [-> | ?]; [reflexivity | apply Z.log2_lt_pow2; lia]. }
    assert (Hly : Z.log2 y < 32).
    { destruct (Z.eq_dec y 0) as [-> | ?]; [reflexivity | apply Z.log2_lt_pow2; lia]. }
    lia. }
  pose proof (Hb o1). pose proof (Hb o2). pose proof (Hb o3). pose proof (Hb o4).
  apply Hlor; [rewrite Z.shiftl_mul_pow2 by lia; lia |].
  apply Hlor; [rewrite Z.shiftl_mul_pow2 by lia; lia |].
  apply Hlor; [rewrite Z.shiftl_mul_pow2 by lia; lia | lia].
Qed.

(** Whatever address value the logical walk classifies as a netmask is a
    run of leading one bits, and its prefix length is found: the CIDR text
    of a row can only fail for want of a mask, never because of the mask
    that was stored. *)
Theorem classified_netmask_has_prefix (o1 o2 o3 o4 : ascii) :
  is_netmask (IPv4Address o1 o2 o3 o4) = true ->
  exists p, 0 <= p <= 32 /\
            IPv4Address o1 o2 o3 o4 = netmask_of_prefix p /\
            network_prefixlen (Some (IPv4Address o1 o2 o3 o4)) = Ok p.
Proof.
  intros Hm.
  destruct (is_netmask_shape _ (IPv4Address_bounds o1 o2 o3 o4) Hm) as (p & Hp & Ha).
  exists p. split; [exact Hp |]. split; [exact Ha |].
  rewrite Ha. now apply netmask_of_prefix_ok.
Qed.

Lemma classified_netmask_has_prefix_witness :
  exists p, 0 <= p <= 32 /\
            network_prefixlen
              (Some (IPv4Address (oct 255) (oct 255) (oct 255) (oct 0))) = Ok p.
Proof.
  destruct (classified_netmask_has_prefix (oct 255) (oct 255) (oct 255) (oct 0) eq_refl)
    as (p & Hp & _ & Hlen).
  exists p. split; [exact Hp | exact Hlen].
Defined.

(** ** Instances of the facts about the flag, the texts and the vendor step *)

(** The interface table answers, nothing else does: the flag is false. *)
Lemma snmp_flag_characterised_witness :
  exists d ifs,
    fst (snmpAudit str_int 256 interfaces_only true dataDictTemplate ";" 256)
      = Ok (d, ifs) /\
    get d "SNMP" = Ok (PBool false).
Proof.
  destruct (snmpAudit str_int 256 interfaces_only true dataDictTemplate ";" 256)
    as [[[d ifs] | e] log] eqn:E; [| vm_compute in E; discriminate].
  exists d, ifs. split; [reflexivity |].
  assert (Hlen : (List.length (varBinds (general interfaces_only)) <= 10)%nat)
    by (simpl; lia).
  exact (snmp_flag_characterised str_int 256 interfaces_only true ";" 256 d ifs log
           Hlen E).
Defined.

(** A text with the delimiter, a line feed and a carriage return. *)
Lemma sanitize_clean_witness :
  contains ";" (sanitize ";" (OctetString ("a;b" ++ LF ++ "c" ++ CR))) = false.
Proof.
  refine (proj2 (proj2 (sanitize_clean ";" (OctetString ("a;b" ++ LF ++ "c" ++ CR)) _))).
  discriminate.
Defined.

(** Another manufacturer: no vendor request. *)
Lemma vendor_info_skipped_witness :
  vendor_info fortigate
    (set (set (set (seed true) "Manufacturer" (PStr "Acme")) "Comment" (PStr "switch"))
         "FW" (PStr "1.0"))
  = (Ok (set (set (set (seed true) "Manufacturer" (PStr "Acme")) "Comment" (PStr "switch"))
             "FW" (PStr "1.0")), []%list).
Proof.
  apply (vendor_info_skipped fortigate _ (PStr "Acme") "switch" "1.0");
    reflexivity.
Defined.

(** A FortiGate: one vendor request, firmware and serial number replaced. *)
Lemma vendor_info_fetched_witness :
  exists d,
    vendor_info fortigate
      (set (set (set (seed true) "Manufacturer" (PStr "Fortinet"))
                "Comment" (PStr "FortiGate firewall")) "FW" (PStr "v6"))
    = (Ok d, [GetVendor]%list) /\
    get d "S/N" = Ok (PStr "FGT60E4Q16000001").
Proof.
  eexists. split.
  - apply (vendor_info_fetched fortigate _ (PStr "Fortinet") "FortiGate firewall" "v6"
             "SNMPv2-SMI::enterprises.12356.101.4.1.1.0"
             "SNMPv2-SMI::enterprises.12356.100.1.1.1.0"
             (OctetString vendor_firmware) (OctetString "FGT60E4Q16000001") []%list);
      reflexivity.
  - reflexivity.
Defined.

(** ** The hosts of a network *)

Lemma filter_all {A : Type} (f : A -> bool) (l : list A) :
  (forall x, In x l -> f x = true) -> filter f l = l.
Proof.
  induction l as [| a l IH]; intros H; simpl; [reflexivity |].
  rewrite (H a (or_introl eq_refl)). f_equal. apply IH. intros x Hx. apply H. now right.
Qed.

Lemma host_span_length (netAddress : Z) (m : nat) :
  List.length
    (filter (fun hostAddress =>
               negb (hostAddress =? netAddress) &&
               negb (hostAddress =? netAddress + Z.of_nat (S (S m)) - 1))
            (map (fun k => netAddress + Z.of_nat k) (seq 0 (S (S m)))))
  = m.
Proof.
  replace (S (S m)) with (S (m + 1)) by lia.
  cbn [seq]. rewrite seq_app. cbn [seq map].
  rewrite map_app. cbn [map filter].
  replace (netAddress + Z.of_nat 0 =? netAddress) with true
    by (symmetry; apply Z.eqb_eq; lia).
  cbn [negb andb]. rewrite filter_app. cbn [filter].
  replace (netAddress + Z.of_nat (1 + m) =? netAddress + Z.of_nat (S (m + 1)) - 1)
    with true by (symmetry; apply Z.eqb_eq; lia).
  rewrite andb_false_r, app_nil_r.
  rewrite filter_all.
  - now rewrite length_map, length_seq.
  - intros x Hx. apply in_map_iff in Hx. destruct Hx as (k & <- & Hk).
    apply in_seq in Hk. apply andb_true_iff. split; apply negb_true_iff, Z.eqb_neq; lia.
Qed.

(** The scan covers as many hosts as the script announces (one for a /32,
    the size of the network less two otherwise, which is none for a /31), and
    below /32 they are exactly the addresses strictly between the network
    address and the broadcast address. *)
Theorem host_addresses_count (netAddress netPrefixLen : Z) :
  0 <= netPrefixLen <= 32 ->
  Z.of_nat (List.length (host_addresses netAddress netPrefixLen))
  = netAddressesCount netPrefixLen /\
  (netPrefixLen <> 32 ->
   forall a, In a (host_addresses netAddress netPrefixLen) <->
             netAddress < a < netAddress + 2 ^ (32 - netPrefixLen) - 1).
Proof.
  intros Hp. unfold host_addresses, netAddressesCount.
  destruct (netPrefixLen =? 32) eqn:E.
  - split; [reflexivity | intros H; apply Z.eqb_eq in E; contradiction].
  - apply Z.eqb_neq in E. cbv zeta.
    assert (Hn : 2 <= 2 ^ (32 - netPrefixLen)).
    { change 2 with (2 ^ 1) at 1. apply Z.pow_le_mono_r; lia. }
    split.
    + destruct (Z.to_nat (2 ^ (32 - netPrefixLen))) as [| [| m]] eqn:En; try lia.
      assert (HN : 2 ^ (32 - netPrefixLen) = Z.of_nat (S (S m))) by lia.
      rewrite HN, host_span_length. lia.
    + intros _ a. rewrite filter_In, in_map_iff. split.
      * intros [(k & <- & Hk) Hf]. apply in_seq in Hk.
        apply andb_true_iff in Hf. destruct Hf as [H1 H2].
        apply negb_true_iff, Z.eqb_neq in H1. apply negb_true_iff, Z.eqb_neq in H2. lia.
      * intros Ha. split.
        -- exists (Z.to_nat (a - netAddress)). split; [lia |]. apply in_seq. lia.
        -- apply andb_true_iff. split; apply negb_true_iff, Z.eqb_neq; lia.
Qed.

(** The network 192.0.2.0/30 has the two hosts 192.0.2.1 and 192.0.2.2. *)
Lemma host_addresses_count_witness :
  Z.of_nat (List.length (host_addresses 3221225984 30)) = 2 /\
  In 3221225985 (host_addresses 3221225984 30).
Proof.
  destruct (host_addresses_count 3221225984 30 ltac:(lia)) as [Hlen Hin].
  split; [exact Hlen |]. apply Hin; [discriminate | simpl; lia].
Defined.

(** ** The scan of the hosts *)

Lemma host_get_In (nd : HostDict) (h : string) :
  In h (map fst nd) -> exists d, host_get nd h = Ok d.
Proof.
  induction nd as [| [h' d'] nd IH]; simpl; [tauto |].
  destruct (String.eqb h' h) eqn:E; [eauto |].
  intros [-> | Hin]; [rewrite String.eqb_refl in E; discriminate | auto].
Qed.

Lemma host_get_ok (nd : HostDict) (h : string) (d : dict) :
  host_get nd h = Ok d -> In h (map fst nd).
Proof.
  induction nd as [| [h' d'] nd IH]; simpl; [discriminate |].
  destruct (String.eqb h' h) eqn:E; [apply String.eqb_eq in E; auto | auto].
Qed.

Lemma host_set_keys (nd : HostDict) (h : string) (d : dict) :
  In h (map fst nd) -> map fst (host_set nd h d) = map fst nd.
Proof.
  induction nd as [| [h' d'] nd IH]; simpl; [tauto |].
  destruct (String.eqb h' h) eqn:E; simpl; [reflexivity |].
  intros [-> | Hin]; [rewrite String.eqb_refl in E; discriminate |].
  now rewrite IH.
Qed.

Lemma host_set_same (nd : HostDict) (h : string) (d : dict) :
  host_get nd h = Ok d -> host_set nd h d = nd.
Proof.
  induction nd as [| [h' d'] nd IH]; simpl; [discriminate |].
  destruct (String.eqb h' h) eqn:E.
  - intros H. now inversion H.
  - intros H. now rewrite IH.
Qed.

Lemma host_set_new (nd : HostDict) (h : string) (d : dict) :
  ~ In h (map fst nd) -> host_set nd h d = (nd ++ [(h, d)])%list.
Proof.
  induction nd as [| [h' d'] nd IH]; simpl; [reflexivity |].
  intros Hn. destruct (String.eqb h' h) eqn:E.
  - apply String.eqb_eq in E. tauto.
  - rewrite IH by tauto. reflexivity.
Qed.

Lemma generate_from (hosts : list string) (nd : HostDict) :
  NoDup (map fst nd ++ hosts) ->
  fold_left (fun nd host => host_set nd host dataDictTemplate) hosts nd
  = (nd ++ map (fun h => (h, dataDictTemplate)) hosts)%list.
Proof.
  revert nd. induction hosts as [| h hosts IH]; intros nd Hnd; simpl.
  - now rewrite app_nil_r.
  - assert (Hfresh : ~ In h (map fst nd)).
    { intros Hin. apply NoDup_remove_2 in Hnd. apply Hnd, in_or_app. now left. }
    rewrite host_set_new by assumption. rewrite IH.
    + now rewrite <- app_assoc.
    + rewrite map_app. simpl. now rewrite <- app_assoc.
Qed.

(** Distinct addresses give one template record each, in their order. *)
Lemma generate_hosts_distinct (hosts : list string) :
  NoDup hosts ->
  generate_hosts hosts = map (fun h => (h, dataDictTemplate)) hosts.
Proof. intros H. unfold generate_hosts. now rewrite generate_from. Qed.

Section ScanFacts.

Variable prettyPrint : Z -> string.
Variable snmpIterMaxCount : Z.
Variable csvReportDelimeter : string.
Variable ignorePingFlag : bool.
Variable answers_ping : string -> bool.
Variable agent_at : string -> Agent.

Lemma scan_host_keys (nd nd' : HostDict) (h : string) (log : list Request) :
  scan_host prettyPrint snmpIterMaxCount csvReportDelimeter ignorePingFlag
    answers_ping agent_at nd h = (Ok nd', log) -> map fst nd' = map fst nd /\ In h (map fst nd).
Proof.
  unfold scan_host.
  destruct (host_get nd h) as [record |] eqn:Hget; cbn [lift bind]; [| discriminate].
  pose proof (host_get_ok nd h record Hget) as Hin.
  set (nd1 := host_set nd h (set record "PING" (PBool (answers_ping h)))).
  assert (H1 : map fst nd1 = map fst nd) by now apply host_set_keys.
  destruct (answers_ping h || ignorePingFlag).
  - destruct (snmpAudit _ _ _ _ _ _ _) as [[[d ifs] |] lg]; cbn [bind ret];
      [| discriminate].
    intros H. inversion H. subst nd'. split; [| exact Hin].
    rewrite host_set_keys; [exact H1 | now rewrite H1].
  - cbn [ret]. intros H. inversion H. subst nd'. now split.
Qed.

Lemma scan_hosts_keys (hs : list string) (nd nd' : HostDict) (log : list Request) :
  scan_hosts prettyPrint snmpIterMaxCount csvReportDelimeter ignorePingFlag
    answers_ping agent_at hs nd = (Ok nd', log) -> map fst nd' = map fst nd.
Proof.
  revert nd log. induction hs as [| h hs IH]; intros nd log; cbn [scan_hosts].
  - unfold ret. intros H. now inversion H.
  - intros H. apply bind_ok in H. destruct H as (nd1 & l1 & l2 & H1 & H2 & _).
    apply scan_host_keys in H1. destruct H1 as [H1 _].
    rewrite (IH _ _ H2). exact H1.
Qed.

Lemma scan_hosts_app (hs1 hs2 : list string) (nd : HostDict) :
  scan_hosts prettyPrint snmpIterMaxCount csvReportDelimeter ignorePingFlag
    answers_ping agent_at (hs1 ++ hs2)%list nd
  = (nd1 <~ scan_hosts prettyPrint snmpIterMaxCount csvReportDelimeter ignorePingFlag
             answers_ping agent_at hs1 nd ;;
     scan_hosts prettyPrint snmpIterMaxCount csvReportDelimeter ignorePingFlag
       answers_ping agent_at hs2 nd1).
Proof.
  revert nd. induction hs1 as [| h hs1 IH]; intros nd; cbn [scan_hosts app].
  - unfold ret, bind. now destruct (scan_hosts prettyPrint snmpIterMaxCount csvReportDelimeter ignorePingFlag
     answers_ping agent_at hs2 nd).
  - destruct (scan_host prettyPrint snmpIterMaxCount csvReportDelimeter ignorePingFlag
     answers_ping agent_at nd h) as [[nd1 | e] l1]; cbn [bind]; [| reflexivity].
    rewrite IH. destruct (scan_hosts prettyPrint snmpIterMaxCount csvReportDelimeter ignorePingFlag
     answers_ping agent_at hs1 nd1) as [[nd2 | e] l2]; cbn [bind];
      [| reflexivity].
    destruct (scan_hosts prettyPrint snmpIterMaxCount csvReportDelimeter ignorePingFlag
     answers_ping agent_at hs2 nd2) as [r l3]. now rewrite app_assoc.
Qed.

(** A scan that ends returns one record per host address, in the order of
    the addresses. *)
Theorem scan_keeps_hosts (hosts : list string) (nd : HostDict) (log : list Request) :
  NoDup hosts ->
  scan prettyPrint snmpIterMaxCount csvReportDelimeter ignorePingFlag
       answers_ping agent_at hosts = (Ok nd, log) ->
  map fst nd = hosts.
Proof.
  intros Hnd Hscan. unfold scan in Hscan. apply scan_hosts_keys in Hscan.
  rewrite Hscan, generate_hosts_distinct by assumption.
  rewrite map_map. simpl. apply map_id.
Qed.

(** Without the ignore-ping flag, a network in which no host answers the
    ping is scanned without a single SNMP request, and every host keeps the
    template as its record. *)
Theorem scan_silent_network (hosts : list string) :
  NoDup hosts ->
  ignorePingFlag = false ->
  (forall h, In h hosts -> answers_ping h = false) ->
  scan prettyPrint snmpIterMaxCount csvReportDelimeter ignorePingFlag
       answers_ping agent_at hosts
  = (Ok (map (fun h => (h, dataDictTemplate)) hosts), []%list).
Proof.
  intros Hnd Hflag Hping. unfold scan.
  rewrite generate_hosts_distinct by assumption.
  set (nd := map (fun h => (h, dataDictTemplate)) hosts).
  assert (Hrec : forall h, In h hosts -> host_get nd h = Ok dataDictTemplate).
  { intros h Hin. unfold nd. clear -Hin.
    induction hosts as [| h' hs IH]; simpl in *; [tauto |].
    destruct (String.eqb h' h) eqn:E; [reflexivity |].
    destruct Hin as [-> | Hin]; [rewrite String.eqb_refl in E; discriminate | auto]. }
  assert (Hkeys : map fst nd = hosts).
  { unfold nd. rewrite map_map. simpl. apply map_id. }
  rewrite Hkeys.
  assert (Hgo : forall hs, (forall h, In h hs -> In h hosts) ->
                           scan_hosts prettyPrint snmpIterMaxCount csvReportDelimeter
                             ignorePingFlag answers_ping agent_at hs nd
                           = (Ok nd, []%list)).
  { induction hs as [| h hs IH]; intros Hsub; cbn [scan_hosts]; [reflexivity |].
    assert (Hin : In h hosts) by (apply Hsub; now left).
    assert (Hsh : scan_host prettyPrint snmpIterMaxCount csvReportDelimeter
                    ignorePingFlag answers_ping agent_at nd h = (Ok nd, []%list)).
    { unfold scan_host. rewrite (Hrec h Hin), (Hping h Hin), Hflag.
      cbn [lift bind orb ret].
      change (set dataDictTemplate "PING" (PBool false)) with dataDictTemplate.
      now rewrite (host_set_same nd h dataDictTemplate (Hrec h Hin)). }
    rewrite Hsh. cbn [bind].
    rewrite IH by (intros x Hx; apply Hsub; now right). reflexivity. }
  apply Hgo. auto.
Qed.

(** When the audit of a host raises, the scan raises the same exception
    there: the hosts after it are not probed, and no record is returned for
    any host. *)
Theorem scan_aborts_on_raise (before after : list string) (h : string)
    (nd1 : HostDict) (log1 logh : list Request) (e : exn) :
  scan_hosts prettyPrint snmpIterMaxCount csvReportDelimeter ignorePingFlag
    answers_ping agent_at before (generate_hosts (before ++ h :: after)%list)
  = (Ok nd1, log1) ->
  NoDup (before ++ h :: after)%list ->
  answers_ping h || ignorePingFlag = true ->
  snmpAudit prettyPrint snmpIterMaxCount (agent_at h) (answers_ping h)
            dataDictTemplate csvReportDelimeter snmpIterMaxCount = (Raise e, logh) ->
  scan prettyPrint snmpIterMaxCount csvReportDelimeter ignorePingFlag
       answers_ping agent_at (before ++ h :: after)%list
  = (Raise e, (log1 ++ logh)%list).
Proof.
  intros Hbefore Hnd Hprobe Haudit. unfold scan.
  assert (Hkeys : map fst (generate_hosts (before ++ h :: after)%list)
                  = (before ++ h :: after)%list).
  { rewrite generate_hosts_distinct by assumption. rewrite map_map. simpl. apply map_id. }
  rewrite Hkeys at 1. rewrite scan_hosts_app, Hbefore. cbn [bind scan_hosts].
  assert (Hin : In h (map fst nd1)).
  { rewrite (scan_hosts_keys _ _ _ _ Hbefore), Hkeys. apply in_or_app. right. now left. }
  destruct (host_get_In nd1 h Hin) as [record Hget].
  unfold scan_host at 1. rewrite Hget, Hprobe, Haudit. reflexivity.
Qed.

End ScanFacts.

(** Proves that a list of distinct literal texts has no duplicate. *)
Ltac distinct_literals :=
  repeat (constructor;
          [simpl; intros H; repeat (destruct H as [H | H]; [discriminate |]); exact H |]);
  constructor.

(** Two hosts, of which the first answers the ping and no SNMP request. *)
Lemma scan_keeps_hosts_witness :
  exists nd log,
    scan str_int 256 ";" false (String.eqb "192.0.2.1") (fun _ => silent)
         ["192.0.2.1"; "192.0.2.2"]%list = (Ok nd, log) /\
    map fst nd = ["192.0.2.1"; "192.0.2.2"]%list.
Proof.
  destruct (scan str_int 256 ";" false (String.eqb "192.0.2.1") (fun _ => silent)
              ["192.0.2.1"; "192.0.2.2"]%list) as [[nd | e] log] eqn:E;
    [| vm_compute in E; discriminate].
  exists nd, log. split; [reflexivity |].
  apply (scan_keeps_hosts str_int 256 ";" false (String.eqb "192.0.2.1")
           (fun _ => silent) _ nd log); [distinct_literals | exact E].
Defined.

(** Two hosts that do not answer the ping. *)
Lemma scan_silent_network_witness :
  scan str_int 256 ";" false (fun _ => false) (fun _ => fortigate)
       ["192.0.2.1"; "192.0.2.2"]%list
  = (Ok [("192.0.2.1", dataDictTemplate); ("192.0.2.2", dataDictTemplate)]%list, []%list).
Proof.
  apply (scan_silent_network str_int 256 ";" false (fun _ => false) (fun _ => fortigate)
           ["192.0.2.1"; "192.0.2.2"]%list).
  - distinct_literals.
  - reflexivity.
  - reflexivity.
Defined.

(** Three hosts: the first does not answer the ping, the audit of the second
    raises, the third is never reached. *)
Lemma scan_aborts_on_raise_witness :
  scan str_int 256 ";" false (String.eqb "192.0.2.2") (fun _ => fortigate_no_comment)
       ["192.0.2.1"; "192.0.2.2"; "192.0.2.3"]%list
  = (Raise TypeError, [GetGeneral]%list).
Proof.
  apply (scan_aborts_on_raise str_int 256 ";" false (String.eqb "192.0.2.2")
           (fun _ => fortigate_no_comment)
           ["192.0.2.1"]%list ["192.0.2.3"]%list "192.0.2.2"
           (generate_hosts ["192.0.2.1"; "192.0.2.2"; "192.0.2.3"]%list)
           []%list [GetGeneral]%list TypeError).
  - reflexivity.
  - distinct_literals.
  - reflexivity.
  - vm_compute. reflexivity.
Defined.

(** ** Line feeds *)

Lemma no_line_feed_app (s t : string) :
  no_line_feed s -> no_line_feed t -> no_line_feed (s ++ t).
Proof. unfold no_line_feed. intros Hs Ht. rewrite count_char_app. lia. Qed.

Lemma no_line_feed_concat (sep : string) (l : list string) :
  no_line_feed sep -> Forall no_line_feed l -> no_line_feed (String.concat sep l).
Proof.
  intros Hsep Hl. induction Hl as [| x l Hx Hl IH]; [reflexivity |].
  destruct l as [| y l]; [exact Hx |].
  change (String.concat sep (x :: y :: l)) with (x ++ sep ++ String.concat sep (y :: l)).
  repeat apply no_line_feed_app; assumption.
Qed.

Lemma replace_from_keeps (c : ascii) (old new : string) (skip : nat) (s : string) :
  count_char c new = 0%nat -> count_char c s = 0%nat ->
  count_char c (replace_from old new skip s) = 0%nat.
Proof.
  intros Hnew. revert skip. induction s as [| x s IH]; intros skip Hs; [reflexivity |].
  simpl in Hs. assert (Hx : (if Ascii.eqb c x then 1 else 0)%nat = 0%nat) by lia.
  assert (Hs' : count_char c s = 0%nat) by lia.
  cbn [replace_from]. destruct skip as [| k]; [| now apply IH].
  destruct (startswith old (String x s)).
  - rewrite count_char_app, Hnew. now apply IH.
  - simpl. rewrite Hx. now apply IH.
Qed.

(** [replace] brings in no character that neither the text nor the
    replacement holds. *)
Lemma replace_keeps (c : ascii) (s old new : string) :
  count_char c new = 0%nat -> count_char c s = 0%nat ->
  count_char c (replace s old new) = 0%nat.
Proof.
  intros Hnew Hs. unfold replace. destruct old as [| a old].
  - induction s as [| x s IH]; simpl; [exact Hnew |].
    simpl in Hs. rewrite count_char_app, Hnew. simpl.
    assert (Hx : (if Ascii.eqb c x then 1 else 0)%nat = 0%nat) by lia.
    rewrite Hx. apply IH. lia.
  - now apply replace_from_keeps.
Qed.

Lemma replace_char_gone (c b : ascii) (s : string) :
  Ascii.eqb c b = false ->
  count_char c (replace s (String c "") (String b "")) = 0%nat.
Proof.
  intros Hcb. rewrite replace_char.
  induction s as [| x s IH]; [reflexivity |].
  cbn [map_chars count_char]. rewrite IH.
  destruct (Ascii.eqb c x) eqn:E; [now rewrite Hcb | now rewrite E].
Qed.

Lemma replace_line_feed (s : string) : no_line_feed (replace s LF " ").
Proof. apply (replace_char_gone lf_char " " s). reflexivity. Qed.

Lemma sanitize_line_feed (delim : string) (v : SnmpValue) :
  no_line_feed (sanitize delim v).
Proof.
  unfold sanitize. unfold no_line_feed.
  apply replace_keeps; [reflexivity |].
  apply replace_keeps; [reflexivity |].
  apply replace_line_feed.
Qed.

Lemma string_of_uint_line_feed (d : Decimal.uint) :
  no_line_feed (NilEmpty.string_of_uint d).
Proof. induction d; simpl; try reflexivity; exact IHd. Qed.

Lemma str_int_line_feed (n : Z) : no_line_feed (str_int n).
Proof.
  unfold str_int, NilZero.string_of_int.
  destruct (Z.to_int n) as [d | d]; unfold NilZero.string_of_uint.
  - destruct d; try reflexivity; apply string_of_uint_line_feed.
  - change (no_line_feed ("-" ++ match d with
                                 | Decimal.Nil => "0"
                                 | _ => NilEmpty.string_of_uint d
                                 end)).
    apply no_line_feed_app; [reflexivity |].
    destruct d; try reflexivity; apply string_of_uint_line_feed.
Qed.

Lemma str_ip_line_feed (a : Z) : no_line_feed (str_ip a).
Proof.
  unfold str_ip. cbv zeta.
  repeat (apply no_line_feed_app; [apply str_int_line_feed |]);
    repeat (apply no_line_feed_app; [reflexivity |]);
    repeat (apply no_line_feed_app; [apply str_int_line_feed |]);
    repeat (apply no_line_feed_app; [reflexivity |]);
    repeat (apply no_line_feed_app; [apply str_int_line_feed |]);
    repeat (apply no_line_feed_app; [reflexivity |]);
    apply str_int_line_feed.
Qed.

Lemma lower_hex_octet_line_feed (c : ascii) : no_line_feed (lower_hex_octet c).
Proof. destruct c as [[] [] [] [] [] [] [] []]; reflexivity. Qed.

Lemma render_mac_line_feed (octets mac : string) :
  render_mac octets = Ok mac -> no_line_feed mac.
Proof.
  intros H. assert (Hlen : String.length octets = 6%nat).
  { unfold render_mac, str_MAC in H.
    destruct (String.length octets =? 6)%nat eqn:E; [now apply Nat.eqb_eq | discriminate]. }
  rewrite (render_mac_colon_hex octets Hlen) in H. inversion H.
  unfold colon_hex. apply no_line_feed_concat; [reflexivity |].
  apply Forall_forall. intros x Hx. apply in_map_iff in Hx.
  destruct Hx as (c & <- & _). apply lower_hex_octet_line_feed.
Qed.

Lemma set_on_one_line (d : dict) (k : string) (v : value) :
  record_on_one_line d -> value_on_one_line v -> record_on_one_line (set d k v).
Proof.
  intros Hd Hv. induction d as [| [k' v'] d IH]; simpl.
  - intros k0 v0 [H | []]. inversion H. subst. exact Hv.
  - destruct (String.eqb k' k).
    + intros k0 v0 [H | H]; [inversion H; subst; exact Hv | apply (Hd k0 v0); now right].
    + intros k0 v0 [H | H]; [apply (Hd k0 v0); now left |].
      apply IH with (k := k0); [| exact H].
      intros k1 v1 H1. apply (Hd k1 v1). now right.
Qed.

Lemma get_on_one_line (d : dict) (k : string) (v : value) :
  record_on_one_line d -> get d k = Ok v -> value_on_one_line v.
Proof.
  intros Hd. induction d as [| [k' v'] d IH]; simpl; [discriminate |].
  destruct (String.eqb k' k).
  - intros H. inversion H. subst. apply (Hd k' v). now left.
  - apply IH. intros k1 v1 H1. apply (Hd k1 v1). now right.
Qed.

Lemma index_In {A : Type} (l : list A) (i : Z) (a : A) : index l i = Ok a -> In a l.
Proof.
  unfold index. destruct (_ || _); [discriminate |].
  destruct (nth_error l _) as [x |] eqn:E; [| discriminate].
  intros H. inversion H. subst. eapply nth_error_In. exact E.
Qed.

Lemma fill_on_one_line (ks values : list string) (i : Z) (d d' : dict) :
  Forall no_line_feed values -> record_on_one_line d ->
  fill ks values i d = Ok d' -> record_on_one_line d'.
Proof.
  intros Hv. revert i d. induction ks as [| key ks IH]; intros i d Hd; cbn [fill].
  - intros H. inversion H. subst. assumption.
  - destruct (index values i) as [v |] eqn:E; cbn [rbind]; [| discriminate].
    assert (Hline : no_line_feed v).
    { rewrite Forall_forall in Hv. apply Hv. eapply index_In. exact E. }
    set (d1 := if 0 <? Z.of_nat (String.length v) then set d key (PStr v) else d).
    assert (Hd1 : record_on_one_line d1).
    { unfold d1. destruct (0 <? _); [now apply set_on_one_line | exact Hd]. }
    destruct (i <? Z.of_nat (List.length values) - 1).
    + now apply IH.
    + intros H. inversion H. subst. assumption.
Qed.

Lemma general_info_on_one_line (cfg : Z) (agent : Agent) (delim : string) (B : Z)
    (d d' : dict) (budget : Z) (log : list Request) :
  record_on_one_line d ->
  general_info cfg agent delim B d = (Ok (d', budget), log) -> record_on_one_line d'.
Proof.
  intros Hd. unfold general_info. cbn [send bind].
  destruct (errorIndication (general agent)).
  { cbn [ret]. intros H. inversion H. subst. assumption. }
  destruct (negb (errorStatus (general agent) =? 0)).
  { destruct (report_errorStatus (general agent)); cbn [lift bind ret];
      [| discriminate]. intros H. inversion H. subst. assumption. }
  destruct (fill (keys d) _ 0 d) as [d1 |] eqn:E; cbn [lift bind]; [| discriminate].
  assert (Hd1 : record_on_one_line d1).
  { eapply fill_on_one_line; [| exact Hd | exact E].
    apply Forall_forall. intros x Hx. apply in_map_iff in Hx.
    destruct Hx as (vb & <- & _). apply sanitize_line_feed. }
  destruct (get d1 "Interfaces Count"); cbn [lift bind ret]; [| discriminate].
  intros H. inversion H. subst d'. now apply set_on_one_line.
Qed.

Lemma vendor_info_on_one_line (agent : Agent) (d d' : dict) (log : list Request) :
  record_on_one_line d -> vendor_info agent d = (Ok d', log) -> record_on_one_line d'.
Proof.
  intros Hd. unfold vendor_info.
  destruct (is_FortiGate d) as [[|] |]; cbn [lift bind]; try discriminate.
  2:{ cbn [ret]. intros H. inversion H. subst. assumption. }
  unfold vendor_fetch. cbn [send bind].
  destruct (errorIndication (vendor agent)).
  { cbn [ret]. intros H. inversion H. subst. assumption. }
  destruct (negb (errorStatus (vendor agent) =? 0)).
  { destruct (report_errorStatus (vendor agent)); cbn [lift bind ret];
      [| discriminate]. intros H. inversion H. subst. assumption. }
  set (values := map _ (varBinds (vendor agent))).
  assert (Hv : Forall no_line_feed values).
  { apply Forall_forall. intros x Hx. apply in_map_iff in Hx.
    destruct Hx as (vb & <- & _). apply replace_line_feed. }
  unfold refill, keysDictionary. cbn [foldM].
  destruct (index values 0) as [v0 |] eqn:E0; cbn [rbind lift]; [| discriminate].
  destruct (index values 1) as [v1 |] eqn:E1; cbn [rbind lift]; [| discriminate].
  rewrite Forall_forall in Hv.
  pose proof (Hv v0 (index_In _ _ _ E0)) as H0.
  pose proof (Hv v1 (index_In _ _ _ E1)) as H1.
  intros H. inversion H. subst d'.
  destruct (0 <? Z.of_nat (String.length v1));
    [apply set_on_one_line; [| exact H1] |];
    (destruct (0 <? Z.of_nat (String.length v0));
     [now apply set_on_one_line | exact Hd]).
Qed.

Lemma mac_address_on_one_line (agent : Agent) (d d' : dict) (log : list Request) :
  record_on_one_line d -> mac_address agent d = (Ok d', log) -> record_on_one_line d'.
Proof.
  intros Hd. unfold mac_address. cbn [send bind].
  destruct (macWalk agent 0%nat) as [r |]; [| discriminate].
  destruct (errorIndication r).
  { cbn [ret]. intros H. inversion H. subst. assumption. }
  destruct (negb (errorStatus r =? 0)).
  { destruct (report_errorStatus r); cbn [lift bind ret]; [| discriminate].
    intros H. inversion H. subst. assumption. }
  destruct (foldM _ (varBinds r) d) as [d1 |] eqn:E; cbn [lift bind ret];
    [| discriminate].
  intros H. inversion H. subst d'. apply set_on_one_line; [| exact I].
  clear -Hd E. revert d Hd E. induction (varBinds r) as [| vb l IH]; intros d Hd;
    cbn [foldM].
  - intros H. inversion H. subst. assumption.
  - destruct (render_mac (snd vb)) as [mac |] eqn:Em; cbn [rbind]; [| discriminate].
    apply IH. apply set_on_one_line; [exact Hd |].
    exact (render_mac_line_feed _ _ Em).
Qed.

Lemma cidr_line_feed (ifs : IfDict) (i : local) (text : string) :
  cidr ifs i = Ok text -> no_line_feed text.
Proof.
  unfold cidr. destruct (read i) as [key |]; cbn [rbind]; [| discriminate].
  destruct (item ifs key) as [r |]; cbn [rbind]; [| discriminate].
  destruct (network_prefixlen (Netmask r)) as [p |]; cbn [rbind]; [| discriminate].
  intros H. assert (Ht : str_address (IP_Address r) ++ "/" ++ str_int p = text)
    by congruence.
  subst text.
  apply no_line_feed_app; [| apply no_line_feed_app; [reflexivity | apply str_int_line_feed]].
  unfold str_address. destruct (IP_Address r); [apply str_ip_line_feed | reflexivity].
Qed.

Lemma logical_rows_on_one_line (rows : list (Reply SnmpValue))
    (d d' : dict) (ifs ifs' : IfDict) (i i' : local) :
  record_on_one_line d ->
  foldM logical_row rows (d, ifs, i) = Ok (d', ifs', i') -> record_on_one_line d'.
Proof.
  revert d ifs i. induction rows as [| r rows IH]; intros d ifs i Hd; cbn [foldM].
  - intros H. inversion H. subst. assumption.
  - unfold logical_row at 1.
    destruct (errorIndication r).
    { cbn [rbind]. now apply IH. }
    destruct (negb (errorStatus r =? 0)).
    + destruct (report_errorStatus r); cbn [rbind]; [| discriminate]. now apply IH.
    + destruct (foldM logical_varBind (varBinds r) (ifs, i)) as [[ifs1 i1] |];
        cbn [rbind]; [| discriminate].
      destruct (get d "IP Addresses") as [addresses |] eqn:Ea; cbn [rbind];
        [| discriminate].
      destruct addresses as [| b | n | s | l]; cbn [append rbind]; try discriminate.
      destruct (cidr ifs1 i1) as [text |] eqn:Ec; cbn [rbind]; [| discriminate].
      apply IH. apply set_on_one_line; [exact Hd |].
      pose proof (get_on_one_line d _ _ Hd Ea) as Hl. simpl in Hl. simpl.
      apply Forall_app. split; [exact Hl |].
      constructor; [exact (cidr_line_feed _ _ _ Ec) | constructor].
Qed.

Lemma template_on_one_line : record_on_one_line dataDictTemplate.
Proof.
  intros k v Hin. simpl in Hin.
  repeat (destruct Hin as [Hin | Hin]; [inversion Hin; exact I |]). destruct Hin.
Qed.

Lemma snmpAudit_on_one_line
    (prettyPrint : Z -> string) (cfg : Z) (agent : Agent) (pingStatus : bool)
    (delim : string) (B : Z) (d : dict) (ifs : IfDict) (log : list Request) :
  snmpAudit prettyPrint cfg agent pingStatus dataDictTemplate delim B = (Ok (d, ifs), log) ->
  record_on_one_line d.
Proof.
  intros Hrun.
  destruct (snmpAudit_steps _ _ _ _ _ _ _ _ _ Hrun)
    as (d1 & budget & d2 & d3 & ifs1 & i1 & d4 & i2 & lg1 & lg2 & lg3 & lg4 & lg5 &
        Hgen & Hven & Hmac & Hphy & Hlog & Hfin).
  assert (H0 : record_on_one_line (seed pingStatus)).
  { unfold seed. apply set_on_one_line; [| exact I].
    apply set_on_one_line; [apply template_on_one_line | constructor]. }
  pose proof (general_info_on_one_line _ _ _ _ _ _ _ _ H0 Hgen) as H1.
  pose proof (vendor_info_on_one_line _ _ _ _ H1 Hven) as H2.
  pose proof (mac_address_on_one_line _ _ _ _ H2 Hmac) as H3.
  unfold logical_walk in Hlog. apply walk_ok in Hlog.
  pose proof (logical_rows_on_one_line _ _ _ _ _ _ _ H3 Hlog) as H4.
  unfold finalize in Hfin.
  destruct (get d4 "IP Addresses") as [a |]; cbn [rbind] in Hfin; [| discriminate].
  destruct (len a) as [n |]; cbn [rbind] in Hfin; [| discriminate].
  destruct (n =? 0); inversion Hfin; subst d; apply set_on_one_line; try exact H4; exact I.
Qed.

(** No text of a returned record holds a line feed: neither a field nor an
    entry of the address list, whatever the device sent and whatever the
    delimiter is. *)
Theorem returned_texts_hold_no_line_feed
    (prettyPrint : Z -> string) (cfg : Z) (agent : Agent) (pingStatus : bool)
    (delim : string) (B : Z) (d : dict) (ifs : IfDict) (log : list Request) :
  snmpAudit prettyPrint cfg agent pingStatus dataDictTemplate delim B = (Ok (d, ifs), log) ->
  (forall key s, get d key = Ok (PStr s) -> contains LF s = false) /\
  (forall key l s, get d key = Ok (PList l) -> In s l -> contains LF s = false).
Proof.
  intros Hrun. pose proof (snmpAudit_on_one_line _ _ _ _ _ _ _ _ _ Hrun) as Hd.
  assert (Hc : forall s, no_line_feed s -> contains LF s = false).
  { intros s. unfold no_line_feed, LF, lf_char.
    induction s as [| x s IH]; [reflexivity |].
    cbn [count_char contains startswith].
    destruct (Ascii.eqb (ascii_of_nat 10) x); [intros H; lia |].
    intros H. cbn [andb orb]. apply IH. lia. }
  split.
  - intros key s Hget. apply Hc. exact (get_on_one_line d key _ Hd Hget).
  - intros key l s Hget Hin. apply Hc.
    pose proof (get_on_one_line d key _ Hd Hget) as Hl. simpl in Hl.
    rewrite Forall_forall in Hl. now apply Hl.
Qed.

Lemma returned_texts_hold_no_line_feed_witness :
  exists d ifs,
    fst (snmpAudit str_int 256 fortigate true dataDictTemplate ";" 256) = Ok (d, ifs) /\
    get d "FW" = Ok (PStr vendor_firmware) /\
    contains LF vendor_firmware = false.
Proof.
  destruct (snmpAudit str_int 256 fortigate true dataDictTemplate ";" 256)
    as [[[d ifs] | e] log] eqn:E; [| vm_compute in E; discriminate].
  destruct (returned_texts_hold_no_line_feed str_int 256 fortigate true ";" 256 d ifs log E)
    as [Hs _].
  assert (Hfw : get d "FW" = Ok (PStr vendor_firmware)).
  { vm_compute in E. inversion E. reflexivity. }
  exists d, ifs. split; [reflexivity |]. split; [exact Hfw |].
  exact (Hs "FW" vendor_firmware Hfw).
Defined.

(** ** Lines of the report *)

Section ReportLines.

Variable str_list : list string -> string.
Hypothesis str_list_line : forall l, no_line_feed (str_list l).

Variable emptyValue : string.
Hypothesis emptyValue_line : no_line_feed emptyValue.

Lemma characters_line (s : string) : no_line_feed s -> Forall no_line_feed (characters s).
Proof.
  unfold characters, no_line_feed. induction s as [| x s IH]; [constructor |].
  cbn [count_char list_ascii_of_string map]. intros H.
  constructor; [cbn [count_char]; lia | apply IH; lia].
Qed.

Lemma element_value_line (k : string) (v : value) (t : string) :
  value_on_one_line v -> element_value str_list emptyValue k v = Ok t -> no_line_feed t.
Proof.
  intros Hv. unfold element_value.
  destruct v as [| b | n | s | l]; destruct (String.eqb k "IP Addresses");
    cbn [iterate rbind str_cell]; intros H;
    try discriminate; try (inversion H; subst t).
  - exact emptyValue_line.
  - exact emptyValue_line.
  - now destruct b.
  - apply str_int_line_feed.
  - rewrite removesuffix_accumulate. apply no_line_feed_concat; [reflexivity |].
    now apply characters_line.
  - exact Hv.
  - rewrite removesuffix_accumulate. apply no_line_feed_concat; [reflexivity | exact Hv].
  - apply str_list_line.
Qed.

Lemma csv_row_line (netAddress host delim row : string) (record : dict) :
  no_line_feed netAddress -> no_line_feed host -> no_line_feed delim ->
  record_on_one_line record ->
  csv_row str_list netAddress host record delim emptyValue = Ok row ->
  count_char lf_char row = 1%nat.
Proof.
  intros Hnet Hhost Hdelim Hrec Hrow. rewrite csv_row_join in Hrow.
  destruct (cells str_list emptyValue record) as [cs |] eqn:Ecs; cbn [rbind] in Hrow;
    [| discriminate].
  assert (Hr : String.concat delim (netAddress :: host :: cs) ++ LF = row) by congruence.
  subst row. apply cells_ok in Ecs.
  assert (Hcs : Forall no_line_feed cs).
  { clear -Ecs Hrec str_list_line emptyValue_line.
    induction Ecs as [| [k v] t record cs Ht _ IH]; constructor.
    - apply (element_value_line k v t); [| exact Ht]. apply (Hrec k v). now left.
    - apply IH. intros k' v' Hin. apply (Hrec k' v'). now right. }
  rewrite count_char_app.
  pose proof (no_line_feed_concat delim (netAddress :: host :: cs) Hdelim
                ltac:(repeat constructor; assumption)) as Hjoin.
  unfold no_line_feed in Hjoin. rewrite Hjoin. reflexivity.
Qed.

Lemma report_lines (netAddress delim : string) (hosts : list (string * dict))
    (acc text : string) :
  no_line_feed netAddress -> no_line_feed delim ->
  Forall (fun e : string * dict => no_line_feed (fst e) /\ record_on_one_line (snd e))
         hosts ->
  foldM (fun reportContent (entry : string * dict) =>
           csvRowData <- csv_row str_list netAddress (fst entry) (snd entry)
                           delim emptyValue ;;
           Ok (reportContent ++ csvRowData)) hosts acc = Ok text ->
  count_char lf_char text = (count_char lf_char acc + List.length hosts)%nat.
Proof.
  intros Hnet Hdelim Hhosts. revert acc.
  induction Hhosts as [| [h d] hosts [Hh Hd] _ IH]; intros acc; cbn [foldM fst snd].
  - intros H. inversion H. simpl. lia.
  - destruct (csv_row str_list netAddress h d delim emptyValue) as [row |] eqn:Er;
      cbn [rbind]; [| discriminate].
    intros H. rewrite (IH _ H), count_char_app.
    rewrite (csv_row_line netAddress h delim row d Hnet Hh Hdelim Hd Er).
    simpl. lia.
Qed.

End ReportLines.

Lemma host_set_records (P : dict -> Prop) (nd : HostDict) (h : string) (d : dict) :
  Forall (fun e => P (snd e)) nd -> P d -> Forall (fun e => P (snd e)) (host_set nd h d).
Proof.
  intros Hnd Hd. induction Hnd as [| [h' d'] nd Hd' Hnd IH]; simpl.
  - now repeat constructor.
  - destruct (String.eqb h' h); constructor; assumption.
Qed.

Lemma host_get_record (P : dict -> Prop) (nd : HostDict) (h : string) (d : dict) :
  Forall (fun e => P (snd e)) nd -> host_get nd h = Ok d -> P d.
Proof.
  intros Hnd. induction Hnd as [| [h' d'] nd Hd' Hnd IH]; simpl; [discriminate |].
  destruct (String.eqb h' h); [intros H; inversion H; now subst | exact IH].
Qed.

Lemma scan_hosts_on_one_line
    (prettyPrint : Z -> string) (cfg : Z) (delim : string) (ignorePingFlag : bool)
    (answers_ping : string -> bool) (agent_at : string -> Agent)
    (hs : list string) (nd nd' : HostDict) (log : list Request) :
  Forall (fun e => record_on_one_line (snd e)) nd ->
  scan_hosts prettyPrint cfg delim ignorePingFlag answers_ping agent_at hs nd
  = (Ok nd', log) ->
  Forall (fun e => record_on_one_line (snd e)) nd'.
Proof.
  revert nd log. induction hs as [| h hs IH]; intros nd log Hnd; cbn [scan_hosts].
  - unfold ret. intros H. inversion H. now subst.
  - intros H. apply bind_ok in H. destruct H as (nd1 & l1 & l2 & H1 & H2 & _).
    apply (IH nd1 l2); [| exact H2]. clear IH H2.
    unfold scan_host in H1.
    destruct (host_get nd h) as [record |] eqn:Hget; cbn [lift bind] in H1;
      [| discriminate].
    pose proof (host_get_record record_on_one_line nd h record Hnd Hget) as Hrec.
    assert (Hnd0 : Forall (fun e => record_on_one_line (snd e))
                     (host_set nd h (set record "PING" (PBool (answers_ping h))))).
    { apply host_set_records; [exact Hnd |]. apply set_on_one_line; [exact Hrec | exact I]. }
    destruct (answers_ping h || ignorePingFlag).
    + destruct (snmpAudit _ _ _ _ _ _ _) as [[[d ifs] |] lg] eqn:Ea; cbn [bind ret] in H1;
        [| discriminate].
      inversion H1. subst nd1. apply host_set_records; [exact Hnd0 |].
      exact (snmpAudit_on_one_line _ _ _ _ _ _ _ _ _ Ea).
    + cbn [ret] in H1. inversion H1. now subst.
Qed.

(** From the scan to the file: when the scan of distinct hosts ends and the
    report of its records is generated with the template as header, the
    report has exactly one line for the header and one line per host,
    whatever the devices sent, provided the network, host, delimiter and
    empty-value texts hold no line feed. *)
Theorem scanned_report_lines
    (str_list : list string -> string)
    (prettyPrint : Z -> string) (cfg : Z) (delim : string) (ignorePingFlag : bool)
    (answers_ping : string -> bool) (agent_at : string -> Agent)
    (hosts : list string) (nd : HostDict) (log : list Request)
    (netAddress emptyValue text : string) :
  (forall l, no_line_feed (str_list l)) ->
  no_line_feed netAddress -> no_line_feed delim -> no_line_feed emptyValue ->
  Forall no_line_feed hosts -> NoDup hosts ->
  scan prettyPrint cfg delim ignorePingFlag answers_ping agent_at hosts = (Ok nd, log) ->
  generateCSVReport str_list (Some nd) netAddress (Some dataDictTemplate) delim emptyValue
  = Ok text ->
  count_char lf_char text = S (List.length hosts).
Proof.
  intros Hsl Hnet Hdelim Hev Hhosts Hnd Hscan Hrep.
  assert (Hkeys : map fst nd = hosts).
  { pose proof Hscan as Hk. unfold scan in Hk. apply scan_hosts_keys in Hk.
    rewrite Hk, generate_hosts_distinct by assumption.
    rewrite map_map. simpl. apply map_id. }
  assert (Hrecs : Forall (fun e => record_on_one_line (snd e)) nd).
  { unfold scan in Hscan. eapply scan_hosts_on_one_line; [| exact Hscan].
    rewrite generate_hosts_distinct by assumption.
    apply Forall_forall. intros e He. apply in_map_iff in He.
    destruct He as (h & <- & _). apply template_on_one_line. }
  assert (Hall : Forall (fun e : string * dict =>
                           no_line_feed (fst e) /\ record_on_one_line (snd e)) nd).
  { apply Forall_forall. intros e He. split.
    - rewrite Forall_forall in Hhosts. apply Hhosts. rewrite <- Hkeys.
      now apply in_map.
    - rewrite Forall_forall in Hrecs. now apply Hrecs. }
  unfold generateCSVReport in Hrep.
  rewrite (report_lines str_list Hsl emptyValue Hev netAddress delim nd _ text
             Hnet Hdelim Hall Hrep).
  assert (Hhead : count_char lf_char ("" ++ csv_header (Some dataDictTemplate) delim)
                  = 1%nat).
  { cbn [append]. unfold csv_header, dataDictTemplate.
    rewrite removesuffix_accumulate, !count_char_app.
    pose proof (no_line_feed_concat delim
                  ("Network" :: "Host" :: keys dataDictTemplate)%list Hdelim
                  ltac:(unfold keys; simpl; repeat constructor)) as Hj.
    unfold no_line_feed in Hj. unfold dataDictTemplate in Hj. rewrite Hj. reflexivity. }
  rewrite Hhead, <- Hkeys, length_map. reflexivity.
Qed.

(** Two hosts, one of them with two addresses: three lines. *)
Lemma scanned_report_lines_witness :
  exists nd text,
    fst (scan str_int 256 ";" false (String.eqb "192.0.2.1") (fun _ => two_tables)
              ["192.0.2.1"; "192.0.2.2"]%list) = Ok nd /\
    generateCSVReport (fun _ => "") (Some nd) "192.0.2.0/30" (Some dataDictTemplate)
      ";" "N/A" = Ok text /\
    count_char lf_char text = 3%nat.
Proof.
  destruct (scan str_int 256 ";" false (String.eqb "192.0.2.1") (fun _ => two_tables)
              ["192.0.2.1"; "192.0.2.2"]%list) as [[nd | e] log] eqn:E;
    [| vm_compute in E; discriminate].
  destruct (generateCSVReport (fun _ => "") (Some nd) "192.0.2.0/30"
              (Some dataDictTemplate) ";" "N/A") as [text | e] eqn:Er.
  2:{ vm_compute in E. inversion E. subst nd. vm_compute in Er. discriminate. }
  exists nd, text. split; [reflexivity |]. split; [exact Er |].
  apply (scanned_report_lines (fun _ => "") str_int 256 ";" false
           (String.eqb "192.0.2.1") (fun _ => two_tables)
           ["192.0.2.1"; "192.0.2.2"]%list nd log "192.0.2.0/30" "N/A" text);
    try reflexivity; try exact E; try exact Er.
  - repeat constructor.
  - distinct_literals.
Defined.
